(** * gemini_core: conversation engine, tool registry and MCP client

    A shallow embedding of [gemini_core/mcp.py], [gemini_core/tools.py] and
    [gemini_core/chat.py].  Mutable Python objects become records threaded
    through the functions; everything outside the program (the child process,
    the terminal, the model backend, the bodies of the local tools) is an
    explicit oracle or an abstract state.  A Python function that may raise
    returns a [raising] value. *)

From Stdlib Require Import ZArith String Ascii List Bool Lia DecimalString.
From stdpp Require Import base option list gmap strings.

Set Warnings "-register-all".

Open Scope string_scope.
Open Scope list_scope.
Open Scope Z_scope.

(** ** Python values shared by the three modules *)

(** JSON documents as [json.loads] produces them: tool arguments, request
    parameters, parameter schemas, and the results a server sends.  A number
    stands for any Python number; only whether it is zero is ever used. *)
Inductive json : Type :=
| JNull
| JBool (b : bool)
| JNum (n : Z)
| JStr (s : string)
| JArr (items : list json)
| JObj (fields : list (string * json)).

(** Python truthiness of a JSON value ([params or {}], [if result]). *)
Definition json_truthy (j : json) : bool :=
  match j with
  | JNull => false
  | JBool b => b
  | JNum n => negb (n =? 0)
  | JStr s => negb (String.eqb s "")
  | JArr l => match l with [] => false | _ => true end
  | JObj l => match l with [] => false | _ => true end
  end.

(** [x or {}] for an optional argument. *)
Definition or_empty_dict (params : option json) : json :=
  match params with
  | Some j => if json_truthy j then j else JObj []
  | None => JObj []
  end.

(** The exceptions the embedded code can raise. *)
Inductive exception : Type :=
| KeyError (key : string)
| TypeError
| AttributeError
| OtherError (description : string).

(** What evaluating a Python expression gives: a value, or an exception
    raised. *)
Inductive raising (A : Type) : Type :=
| Value (a : A)
| Raise (e : exception).
Arguments Value {A}.
Arguments Raise {A}.

(** A text where a [raising string] is expected is that text, returned. *)
Definition returned (s : string) : raising string := Value s.
Coercion returned : string >-> raising.

(** [d[k]], [k in d] and [d[k] = v] on a dict kept in insertion order. *)
Fixpoint dict_get {V : Type} (k : string) (d : list (string * V))
  : option V :=
  match d with
  | [] => None
  | (k', v) :: rest => if String.eqb k' k then Some v else dict_get k rest
  end.

Fixpoint dict_set {V : Type} (k : string) (v : V) (d : list (string * V))
  : list (string * V) :=
  match d with
  | [] => [(k, v)]
  | (k', v') :: rest =>
      if String.eqb k' k then (k, v) :: rest
      else (k', v') :: dict_set k v rest
  end.

(** ** The operations the code applies to values read from JSON *)
Module Py.

(** [key in s] on strings: [key] occurs in [s]. *)
Fixpoint occurs (key s : string) : bool :=
  String.prefix key s
  || match s with
     | String _ s' => occurs key s'
     | EmptyString => false
     end.

Definition is_str (key : string) (x : json) : bool :=
  match x with
  | JStr s => String.eqb s key
  | _ => false
  end.

(** [key in x] for a string [key]: membership in a dict's keys, in a list,
    in a string; [TypeError] on [None], a boolean or a number. *)
Definition contains (key : string) (x : json) : raising bool :=
  match x with
  | JObj fields =>
      Value (match dict_get key fields with Some _ => true | None => false end)
  | JArr items => Value (existsb (is_str key) items)
  | JStr s => Value (occurs key s)
  | JNull | JBool _ | JNum _ => Raise TypeError
  end.

(** [x[key]] for a string [key]: only a dict can be indexed by one. *)
Definition getitem (x : json) (key : string) : raising json :=
  match x with
  | JObj fields =>
      match dict_get key fields with
      | Some v => Value v
      | None => Raise (KeyError key)
      end
  | _ => Raise TypeError
  end.

(** [x.get(key, default)] on a dict. *)
Definition get (x : json) (key : string) (default : json) : json :=
  match x with
  | JObj fields =>
      match dict_get key fields with
      | Some v => v
      | None => default
      end
  | _ => default
  end.

(** [len(x)] *)
Definition len (x : json) : raising nat :=
  match x with
  | JArr items => Value (length items)
  | JObj fields => Value (length fields)
  | JStr s => Value (String.length s)
  | JNull | JBool _ | JNum _ => Raise TypeError
  end.

Fixpoint characters (s : string) : list json :=
  match s with
  | EmptyString => []
  | String c s' => JStr (String c EmptyString) :: characters s'
  end.

(** [for item in x]: the items of a list, the keys of a dict, the
    characters of a string. *)
Definition iter (x : json) : raising (list json) :=
  match x with
  | JArr items => Value items
  | JObj fields => Value (map (fun kv => JStr (fst kv)) fields)
  | JStr s => Value (characters s)
  | JNull | JBool _ | JNum _ => Raise TypeError
  end.

End Py.

(** ** Strings *)
Module PyStr.

(** [s[:n]] *)
Fixpoint slice_to (n : nat) (s : string) : string :=
  match n, s with
  | O, _ => ""
  | S n', String c s' => String c (slice_to n' s')
  | S _, EmptyString => ""
  end.

(** Characters are code points below 256.  [str.isspace] accepts these of
    them: tab to carriage return, the four separators and the space, the
    next-line control and the no-break space. *)
Definition isspace (c : ascii) : bool :=
  let n := nat_of_ascii c in
  ((9 <=? n) && (n <=? 13) || (28 <=? n) && (n <=? 32)
   || (n =? 133) || (n =? 160))%nat.

Fixpoint lstrip (s : string) : string :=
  match s with
  | String c s' => if isspace c then lstrip s' else s
  | EmptyString => EmptyString
  end.

(** [rstrip] keeps a character when it is not a space or when something
    remains after it. *)
Fixpoint rstrip (s : string) : string :=
  match s with
  | String c s' =>
      match rstrip s' with
      | EmptyString => if isspace c then EmptyString else String c EmptyString
      | r => String c r
      end
  | EmptyString => EmptyString
  end.

Definition strip (s : string) : string := rstrip (lstrip s).

(** [str.lower] on one character: A to Z, and the accented capitals from
    192 to 222, the multiplication sign at 215 apart. *)
Definition lower_char (c : ascii) : ascii :=
  let n := nat_of_ascii c in
  if ((65 <=? n) && (n <=? 90)
      || (192 <=? n) && (n <=? 222) && negb (n =? 215))%nat
  then ascii_of_nat (n + 32) else c.

Fixpoint lower (s : string) : string :=
  match s with
  | String c s' => String (lower_char c) (lower s')
  | EmptyString => EmptyString
  end.

End PyStr.

(** ** gemini_core/mcp.py *)
Module MCP.

(** A line written to the child's standard input. *)
Inductive wire_msg : Type :=
| Request (id : Z) (method : string) (params : json)
| Notification (method : string) (params : json).

(** The value under the [result] key of a response: whatever JSON the
    server put there. *)
Definition result_obj : Type := json.

(** Truthiness of what [send_request] returned: [None] is false. *)
Definition truthy (r : option result_obj) : bool :=
  match r with
  | None => false
  | Some j => json_truthy j
  end.

(** A JSON object read from the child's standard output, by the keys the
    client looks at: [m_id] is the request id its [id] is equal to ([None]
    when it has no [id], or one that is equal to no integer), [m_error] what
    it holds under [error], [m_result] what [message.get("result")] gives
    ([None] also for a null). *)
Record message : Type := {
  m_id : option Z;
  m_error : option json;
  m_result : option result_obj
}.

(** A line of the child's standard output, by what the body of [_read_loop]
    does on it: [json.loads] raises [JSONDecodeError]; it gives an object
    whose [id], if any, can be looked up in [pending_requests]; or the body
    raises another exception ([TypeError] on JSON that is not an object, or
    on an [id] that is a list or an object), which nothing catches. *)
Inductive line : Type :=
| Malformed
| Parsed (m : message)
| Fatal.

(** The child process behind [self.process]: what it has been sent, whether
    a write to its stdin goes through, and the lines [readline] gets from
    its stdout, each with its arrival time in seconds, while the request
    with a given id waits. *)
Record Process : Type := {
  p_stdin : list wire_msg;
  p_accepts : wire_msg -> bool;
  p_replies : Z -> list (nat * line);
  p_terminated : bool
}.

(** The fields of the object, and [reader]: whether the thread that the
    last [connect] started on [_read_loop] is still running.  An exception
    in the loop body ends that thread; the threads of earlier [connect]
    calls are not followed. *)
Record MCPClient : Type := {
  command : string;
  args : list string;
  process : option Process;
  request_id : Z;
  pending_requests : gmap Z (list message);
  tools : json;
  is_connected : bool;
  reader : bool
}.

(** [MCPClient.__init__] *)
Definition init (cmd : string) (a : list string) : MCPClient :=
  {| command := cmd; args := a; process := None; request_id := 0;
     pending_requests := ∅; tools := JArr []; is_connected := false;
     reader := false |}.

Definition set_process (p : option Process) (c : MCPClient) : MCPClient :=
  {| command := command c; args := args c; process := p;
     request_id := request_id c; pending_requests := pending_requests c;
     tools := tools c; is_connected := is_connected c; reader := reader c |}.

Definition set_request_id (n : Z) (c : MCPClient) : MCPClient :=
  {| command := command c; args := args c; process := process c;
     request_id := n; pending_requests := pending_requests c;
     tools := tools c; is_connected := is_connected c; reader := reader c |}.

Definition set_pending_requests (m : gmap Z (list message)) (c : MCPClient)
  : MCPClient :=
  {| command := command c; args := args c; process := process c;
     request_id := request_id c; pending_requests := m;
     tools := tools c; is_connected := is_connected c; reader := reader c |}.

Definition set_tools (ts : json) (c : MCPClient) : MCPClient :=
  {| command := command c; args := args c; process := process c;
     request_id := request_id c; pending_requests := pending_requests c;
     tools := ts; is_connected := is_connected c; reader := reader c |}.

Definition set_is_connected (b : bool) (c : MCPClient) : MCPClient :=
  {| command := command c; args := args c; process := process c;
     request_id := request_id c; pending_requests := pending_requests c;
     tools := tools c; is_connected := b; reader := reader c |}.

Definition set_reader (b : bool) (c : MCPClient) : MCPClient :=
  {| command := command c; args := args c; process := process c;
     request_id := request_id c; pending_requests := pending_requests c;
     tools := tools c; is_connected := is_connected c; reader := b |}.

(** [self.process.stdin.write(json_str + "\n"); flush()].  The boolean is
    false when the statement raises: no process yet, or a broken pipe. *)
Definition stdin_write (p : option Process) (m : wire_msg)
  : bool * option Process :=
  match p with
  | None => (false, None)
  | Some pr =>
      if p_accepts pr m
      then (true, Some {| p_stdin := p_stdin pr ++ [m];
                          p_accepts := p_accepts pr;
                          p_replies := p_replies pr;
                          p_terminated := p_terminated pr |})
      else (false, Some pr)
  end.

(** One iteration of [_read_loop] on a line read from stdout: a message
    whose id names a pending queue is put on that queue, a malformed line
    and any other message are dropped.  [None] when the iteration raises,
    which ends the thread. *)
Definition read_line (l : line) (pend : gmap Z (list message))
  : option (gmap Z (list message)) :=
  match l with
  | Malformed => Some pend
  | Parsed m =>
      match m_id m with
      | Some i =>
          match pend !! i with
          | Some q => Some (<[i := q ++ [m]]> pend)
          | None => Some pend
          end
      | None => Some pend
      end
  | Fatal => None
  end.

(** [resp_queue.get(timeout=...)] while the reader thread, if it is
    running, delivers what the child prints: the first message that lands on
    the queue of [rid] before the timeout, or [None] for [queue.Empty].
    The other components are the table, the time spent waiting, and whether
    the reader thread is still running afterwards. *)
Fixpoint queue_get (timeout : nat) (arrivals : list (nat * line)) (rid : Z)
    (pend : gmap Z (list message)) (running : bool)
  : option message * gmap Z (list message) * nat * bool :=
  match arrivals with
  | [] => (None, pend, timeout, running)
  | (t, l) :: rest =>
      if running && (t <=? timeout)%nat then
        match read_line l pend with
        | Some pend' =>
            match pend' !! rid with
            | Some (m :: q) => (Some m, <[rid := q]> pend', t, true)
            | _ => queue_get timeout rest rid pend' true
            end
        | None => (None, pend, timeout, false)
        end
      else (None, pend, timeout, running)
  end.

(** How a [send_request] call ended. *)
Inductive resolution : Type :=
| WriteFailed
| Responded (m : message)
| TimedOut.

(** What [send_request] returns, with the id it assigned, the way it ended
    and the time it waited kept alongside. *)
Record sent : Type := {
  ret : option result_obj;
  req_id : Z;
  how : resolution;
  waited : nat
}.

Definition send_request (c : MCPClient) (method : string)
    (params : option json) : sent * MCPClient :=
  let rid := request_id c + 1 in
  let c1 := set_request_id rid c in
  let request := Request rid method (or_empty_dict params) in
  let c2 := set_pending_requests (<[rid := []]> (pending_requests c1)) c1 in
  match stdin_write (process c2) request with
  | (false, _) =>
      ({| ret := None; req_id := rid; how := WriteFailed; waited := 0 |}, c2)
  | (true, p') =>
      let c3 := set_process p' c2 in
      let arrivals :=
        match p' with Some pr => p_replies pr rid | None => [] end in
      match queue_get 10 arrivals rid (pending_requests c3) (reader c3) with
      | (Some response, pend, t, running) =>
          let c4 :=
            set_reader running (set_pending_requests (delete rid pend) c3) in
          match m_error response with
          | Some _ =>
              ({| ret := None; req_id := rid;
                  how := Responded response; waited := t |}, c4)
          | None =>
              ({| ret := m_result response; req_id := rid;
                  how := Responded response; waited := t |}, c4)
          end
      | (None, pend, t, running) =>
          ({| ret := None; req_id := rid; how := TimedOut; waited := t |},
           set_reader running (set_pending_requests pend c3))
      end
  end.

Definition send_notification (c : MCPClient) (method : string)
    (params : option json) : MCPClient :=
  let notification := Notification method (or_empty_dict params) in
  set_process (snd (stdin_write (process c) notification)) c.

(** [_refresh_tools]: the request it sent, the exception it raised, if any,
    and the client afterwards.  [self.tools] is assigned before [len] is
    applied to it. *)
Definition _refresh_tools (c : MCPClient)
  : sent * option exception * MCPClient :=
  let '(s, c1) := send_request c "tools/list" None in
  match ret s with
  | Some result =>
      if json_truthy result then
        match Py.contains "tools" result with
        | Value true =>
            match Py.getitem result "tools" with
            | Value ts =>
                let c2 := set_tools ts c1 in
                match Py.len ts with
                | Value _ => (s, None, c2)
                | Raise e => (s, Some e, c2)
                end
            | Raise e => (s, Some e, c1)
            end
        | Value false => (s, None, c1)
        | Raise e => (s, Some e, c1)
        end
      else (s, None, c1)
  | None => (s, None, c1)
  end.

Definition initialize_params : json :=
  JObj [("protocolVersion", JStr "0.1.0");
        ("capabilities", JObj [("tools", JObj [])]);
        ("clientInfo", JObj [("name", JStr "gemini-python-client");
                             ("version", JStr "1.0.0")])].

(** The client once [subprocess.Popen] has returned [pr] and the reader
    thread has been started. *)
Definition started (pr : Process) (c : MCPClient) : MCPClient :=
  set_reader true (set_process (Some pr) c).

(** [connect].  [spawn] is the outcome of [subprocess.Popen]: [None] when
    it raises.  The list holds the requests the call sent, in order.  An
    exception that [_refresh_tools] raises is caught like any other: the
    call then returns [False]. *)
Definition connect (c : MCPClient) (spawn : option Process)
  : bool * list sent * MCPClient :=
  match spawn with
  | None => (false, [], c)
  | Some pr =>
      let c1 := started pr c in
      let '(s1, c2) := send_request c1 "initialize" (Some initialize_params) in
      if truthy (ret s1) then
        let c3 := send_notification c2 "notifications/initialized" None in
        let c4 := set_is_connected true c3 in
        let '(s2, raised, c5) := _refresh_tools c4 in
        match raised with
        | None => (true, [s1; s2], c5)
        | Some _ => (false, [s1; s2], c5)
        end
      else (false, [s1], c2)
  end.

(** An entry of the export to the model backend. *)
Record definition : Type := {
  def_name : json;
  def_description : json;
  def_parameters : json
}.

(** The loop of [get_tool_definitions] over the items of [self.tools]. *)
Fixpoint definitions_of (items : list json) : raising (list definition) :=
  match items with
  | [] => Value []
  | tool :: rest =>
      match Py.getitem tool "name" with
      | Value name =>
          match definitions_of rest with
          | Value ds =>
              Value ({| def_name := name;
                        def_description := Py.get tool "description" (JStr "");
                        def_parameters := Py.get tool "inputSchema" (JObj []) |}
                     :: ds)
          | Raise e => Raise e
          end
      | Raise e => Raise e
      end
  end.

Definition get_tool_definitions (c : MCPClient) : raising (list definition) :=
  match Py.iter (tools c) with
  | Value items => definitions_of items
  | Raise e => Raise e
  end.

Definition call_tool (c : MCPClient) (name : string) (arguments : json)
  : sent * MCPClient :=
  send_request c "tools/call"
    (Some (JObj [("name", JStr name); ("arguments", arguments)])).

Definition close (c : MCPClient) : MCPClient :=
  match process c with
  | Some pr =>
      set_process (Some {| p_stdin := p_stdin pr; p_accepts := p_accepts pr;
                           p_replies := p_replies pr;
                           p_terminated := true |}) c
  | None => c
  end.

End MCP.

(** ** gemini_core/tools.py *)
Module Registry.

(** What calling a local tool does: it returns a string or raises an
    exception [e], of which only [str(e)] is used. *)
Inductive outcome : Type :=
| Returns (s : string)
| Raises (msg : string).

(** What the registry does to the outside, in order. *)
Inductive event : Type :=
| Confirm (tool : string) (answer : string)
| LocalCall (tool : string) (arguments : json)
| RemoteCall (client : nat) (tool : string) (arguments : json).

Definition is_call (e : event) : bool :=
  match e with
  | Confirm _ _ => false
  | LocalCall _ _ | RemoteCall _ _ _ => true
  end.

Section WithLocalState.

(** [FS] is whatever the local tools act on: the file system, the shell. *)
Context {FS : Type}.

(** A registered function: [__name__], [__doc__] and the call
    [func( **args )] itself. *)
Record local_tool : Type := {
  fn_name : string;
  fn_doc : option string;
  fn_call : json -> FS -> outcome * FS
}.

Record ToolRegistry : Type := {
  tools : list (string * local_tool);
  mcp_clients : list MCP.MCPClient
}.

(** [ToolRegistry.__init__] *)
Definition init : ToolRegistry := {| tools := []; mcp_clients := [] |}.

Definition register_mcp (r : ToolRegistry) (c : MCP.MCPClient)
  : ToolRegistry :=
  {| tools := tools r; mcp_clients := mcp_clients r ++ [c] |}.

Definition register (r : ToolRegistry) (func : local_tool) : ToolRegistry :=
  {| tools := dict_set (fn_name func) func (tools r);
     mcp_clients := mcp_clients r |}.

Definition str_prop (description : string) : json :=
  JObj [("type", JStr "STRING"); ("description", JStr description)].

Definition object_schema (properties : list (string * json))
    (required : list string) : json :=
  JObj [("type", JStr "OBJECT"); ("properties", JObj properties);
        ("required", JArr (map JStr required))].

Definition _get_params_schema (func_name : string) : json :=
  if String.eqb func_name "read_file" then
    object_schema
      [("filepath",
        str_prop "Path absolut atau relatif ke file yang akan dibaca")]
      ["filepath"]
  else if String.eqb func_name "write_file" then
    object_schema
      [("filepath", str_prop "Path absolut atau relatif untuk file baru");
       ("content", str_prop "Isi text yang akan ditulis ke file")]
      ["filepath"; "content"]
  else if String.eqb func_name "list_directory" then
    object_schema
      [("path",
        str_prop
          "Path directory yang akan di-list (default: current directory)")]
      []
  else if String.eqb func_name "run_terminal" then
    object_schema
      [("command",
        str_prop
          "Command terminal yang akan dijalankan (misal: 'pip install requests', 'git status')")]
      ["command"]
  else if String.eqb func_name "search_files" then
    object_schema
      [("pattern",
        str_prop "Glob pattern untuk file (misal: '**/*.py')");
       ("query", str_prop "Text yang dicari di dalam file")]
      ["pattern"; "query"]
  else if String.eqb func_name "web_search" then
    object_schema [("query", str_prop "Kata kunci pencarian")] ["query"]
  else JObj [("type", JStr "OBJECT"); ("properties", JObj [])].

(** [func.__doc__ or "No description provided"] *)
Definition description_of (f : local_tool) : string :=
  match fn_doc f with
  | Some d => if String.eqb d "" then "No description provided" else d
  | None => "No description provided"
  end.

(** The second loop of [get_tool_definitions], over the clients. *)
Fixpoint mcp_definitions (clients : list MCP.MCPClient)
  : raising (list MCP.definition) :=
  match clients with
  | [] => Value []
  | client :: rest =>
      if MCP.is_connected client then
        match MCP.get_tool_definitions client with
        | Value ds =>
            match mcp_definitions rest with
            | Value ds' => Value (ds ++ ds')
            | Raise e => Raise e
            end
        | Raise e => Raise e
        end
      else mcp_definitions rest
  end.

(** The list under ["function_declarations"]. *)
Definition get_tool_definitions (r : ToolRegistry)
  : raising (list MCP.definition) :=
  match mcp_definitions (mcp_clients r) with
  | Value ds =>
      Value (map (fun '(name, func) =>
                    {| MCP.def_name := JStr name;
                       MCP.def_description := JStr (description_of func);
                       MCP.def_parameters := _get_params_schema name |})
                 (tools r)
             ++ ds)
  | Raise e => Raise e
  end.

(** The terminal and the local state, with the record of what was done.
    [stdin] holds the lines the user types, one for each [input()], which
    waits for it. *)
Record world : Type := {
  fs : FS;
  stdin : nat -> string;
  asked : nat;
  log : list event
}.

Definition set_fs (x : FS) (w : world) : world :=
  {| fs := x; stdin := stdin w; asked := asked w; log := log w |}.

Definition emit (e : event) (w : world) : world :=
  {| fs := fs w; stdin := stdin w; asked := asked w; log := log w ++ [e] |}.

Definition SENSITIVE_TOOLS : list string := ["run_terminal"; "write_file"].

Definition is_sensitive (tool_name : string) : bool :=
  existsb (String.eqb tool_name) SENSITIVE_TOOLS.

Definition user_denied : string := "Error: User denied execution.".

Definition not_found (tool_name : string) : string :=
  "Error: Tool '" +:+ tool_name +:+ "' not found.".

(** [answer.strip().lower() == 'y'] *)
Definition affirmative (answer : string) : bool :=
  String.eqb (PyStr.lower (PyStr.strip answer)) "y".

(** [input("   Allow this action? (y/n): ")] and the test on it. *)
Definition ask (tool_name : string) (w : world) : bool * world :=
  let answer := stdin w (asked w) in
  (affirmative answer,
   emit (Confirm tool_name answer)
        {| fs := fs w; stdin := stdin w; asked := S (asked w);
           log := log w |}).

(** [str(x)] of a value that is neither [None] nor a string is left to
    [py_repr]. *)
Variable py_repr : MCP.result_obj -> string.

(** [str(result)] of what [call_tool] returned, and of the value of a
    content item. *)
Definition py_str (result : option MCP.result_obj) : string :=
  match result with
  | None | Some JNull => "None"
  | Some (JStr s) => s
  | Some o => py_repr o
  end.

(** [for item in result["content"]: if item["type"] == "text": return
    item["text"]]: the value returned from inside the loop, [None] when the
    loop runs to its end. *)
Fixpoint first_text (items : list json) : raising (option json) :=
  match items with
  | [] => Value None
  | item :: rest =>
      match Py.getitem item "type" with
      | Value type =>
          if Py.is_str "text" type then
            match Py.getitem item "text" with
            | Value text => Value (Some text)
            | Raise e => Raise e
            end
          else first_text rest
      | Raise e => Raise e
      end
  end.

(** What [execute] makes of the value [call_tool] returned.  The value it
    returns is kept as the text [str] gives of it, which is what
    [send_message] uses. *)
Definition mcp_result_text (result : option MCP.result_obj)
  : raising string :=
  match result with
  | Some o =>
      if json_truthy o then
        match Py.contains "content" o with
        | Value true =>
            match Py.getitem o "content" with
            | Value content =>
                match Py.iter content with
                | Value items =>
                    match first_text items with
                    | Value (Some text) => Value (py_str (Some text))
                    | Value None => Value (py_str result)
                    | Raise e => Raise e
                    end
                | Raise e => Raise e
                end
            | Raise e => Raise e
            end
        | Value false => Value (py_str result)
        | Raise e => Raise e
        end
      else Value (py_str result)
  | None => Value (py_str result)
  end.

(** How [for tool in client.tools: if tool["name"] == tool_name] ends: on
    a tool of that name, at the end of the list, or on an exception. *)
Inductive lookup : Type :=
| Found
| Absent
| Broken (e : exception).

Fixpoint find_tool (items : list json) (tool_name : string) : lookup :=
  match items with
  | [] => Absent
  | tool :: rest =>
      match Py.getitem tool "name" with
      | Value name =>
          if Py.is_str tool_name name then Found else find_tool rest tool_name
      | Raise e => Broken e
      end
  end.

Definition scan (client : MCP.MCPClient) (tool_name : string) : lookup :=
  match Py.iter (MCP.tools client) with
  | Value items => find_tool items tool_name
  | Raise e => Broken e
  end.

Definition provides (client : MCP.MCPClient) (tool_name : string) : bool :=
  match scan client tool_name with
  | Found => true
  | _ => false
  end.

(** A client that takes no part in the dispatch of [tool_name]: the loop
    goes past it. *)
Definition passes (tool_name : string) (client : MCP.MCPClient) : Prop :=
  MCP.is_connected client = false \/ scan client tool_name = Absent.

(** The loop over [self.mcp_clients], from the client at position [i] on:
    the first connected client that lists the tool answers.  [None] when
    the loop falls through. *)
Fixpoint execute_mcp (safe_mode : bool) (i : nat)
    (clients : list MCP.MCPClient) (tool_name : string) (arguments : json)
    (w : world) : option (raising string) * list MCP.MCPClient * world :=
  match clients with
  | [] => (None, [], w)
  | client :: rest =>
      let next :=
        let '(res, rest', w') :=
          execute_mcp safe_mode (S i) rest tool_name arguments w in
        (res, client :: rest', w') in
      if MCP.is_connected client then
        match scan client tool_name with
        | Found =>
            let '(go, w1) :=
              if safe_mode then ask tool_name w else (true, w) in
            if go then
              let '(s, client') := MCP.call_tool client tool_name arguments in
              (Some (mcp_result_text (MCP.ret s)), client' :: rest,
               emit (RemoteCall i tool_name arguments) w1)
            else (Some (Value user_denied), client :: rest, w1)
        | Absent => next
        | Broken e => (Some (Raise e), client :: rest, w)
        end
      else next
  end.

(** [execute]; [safe_mode] is [config.SAFE_MODE] at the time of the
    call. *)
Definition execute (safe_mode : bool) (r : ToolRegistry)
    (tool_name : string) (arguments : json) (w : world)
  : raising string * ToolRegistry * world :=
  let '(go, w1) :=
    if safe_mode && is_sensitive tool_name then ask tool_name w
    else (true, w) in
  if go then
    match dict_get tool_name (tools r) with
    | Some func =>
        let '(o, fs') := fn_call func arguments (fs w1) in
        let w2 := emit (LocalCall tool_name arguments) (set_fs fs' w1) in
        match o with
        | Returns s => (Value s, r, w2)
        | Raises msg =>
            (Value ("Error executing " +:+ tool_name +:+ ": " +:+ msg), r, w2)
        end
    | None =>
        let '(res, clients, w2) :=
          execute_mcp safe_mode 0 (mcp_clients r) tool_name arguments w1 in
        (default (Value (not_found tool_name)) res,
         {| tools := tools r; mcp_clients := clients |}, w2)
    end
  else (Value user_denied, r, w1).

End WithLocalState.

Arguments local_tool : clear implicits.
Arguments ToolRegistry : clear implicits.
Arguments world : clear implicits.

End Registry.

(** ** gemini_core/chat.py *)
Module Chat.

Inductive role : Type := User | Model.

(** An entry of [function_calls]: [fc['name']], which the backend always
    sends, and [fc['args']] when it sent that key, which it may leave out
    of a call without arguments. *)
Record function_call : Type := {
  fc_name : string;
  fc_args : option json
}.

(** The dicts that go into ["parts"]. *)
Inductive part : Type :=
| Text (text : string)
| InlineData (mimeType : string) (data : option string)
| FunctionCall (fc : function_call) (thoughtSignature : option string)
| FunctionResponse (name : string) (content : string).

Record turn : Type := {
  turn_role : role;
  parts : list part
}.

(** An entry of [media_items]; both keys are read with [item.get]. *)
Record media_item : Type := {
  mime_type : option string;
  media_data : option string
}.

(** What [_request_generate] returns, read the way [send_message] reads it:
    [text] is [response.get('text', '')], an absent or empty
    [function_calls] is [[]], [error] is [response.get('error')]. *)
Record response : Type := {
  success : bool;
  text : string;
  function_calls : list function_call;
  thought_signature : option string;
  error : option string
}.

(** The [request] dict built by [_generate_with_history]. *)
Record payload : Type := {
  p_model : string;
  p_contents : list turn;
  p_tools : list MCP.definition;
  p_systemInstruction : option string
}.

Record ChatSession : Type := {
  model : string;
  system_instruction : option string;
  history : list turn
}.

(** [ChatSession.__init__] *)
Definition init (m : string) (instruction : option string) : ChatSession :=
  {| model := m; system_instruction := instruction; history := [] |}.

Definition append_turn (t : turn) (s : ChatSession) : ChatSession :=
  {| model := model s; system_instruction := system_instruction s;
     history := history s ++ [t] |}.

(** The collaborators of a session over an outside state [W].  The client:
    [setup_user] is [if not self.client.session_setup:
    self.client.setup_user()], with the exception it raised, if any, and
    [request_generate] is [_request_generate].  The registry behind
    [self.tools]: [tool_definitions] and [tools_execute], the latter with
    the text [str] gives of what [execute] returned.  And Python's [str] on
    an argument dict. *)
Record env (W : Type) : Type := {
  setup_user : W -> option exception * W;
  request_generate : payload -> W -> raising response * W;
  tool_definitions : W -> raising (list MCP.definition);
  tools_execute : string -> json -> W -> raising string * W;
  str_args : json -> string
}.
Arguments setup_user {W}.
Arguments request_generate {W}.
Arguments tool_definitions {W}.
Arguments tools_execute {W}.
Arguments str_args {W}.

(** A call in progress: the session and the outside state, with the texts
    given to [stream_callback] and the number of model calls made so far
    kept alongside. *)
Record run (W : Type) : Type := {
  session : ChatSession;
  outside : W;
  streamed : list string;
  model_calls : nat
}.
Arguments session {W}.
Arguments outside {W}.
Arguments streamed {W}.
Arguments model_calls {W}.

Definition is_function_call (p : part) : bool :=
  match p with
  | FunctionCall _ _ => true
  | _ => false
  end.

(** The calls a turn carries, in order. *)
Definition calls_of (t : turn) : list function_call :=
  flat_map (fun p => match p with
                     | FunctionCall fc _ => [fc]
                     | _ => []
                     end)
           (parts t).

(** [p] is the response part to the call [fc]. *)
Definition responds_to (fc : function_call) (p : part) : bool :=
  match p with
  | FunctionResponse name _ => String.eqb name (fc_name fc)
  | _ => false
  end.

Fixpoint all2 {A B : Type} (f : A -> B -> bool) (l : list A) (k : list B)
  : bool :=
  match l, k with
  | [], [] => true
  | a :: l', b :: k' => f a b && all2 f l' k'
  | _, _ => false
  end.

(** [u] is a user turn made of one response per call of [t], in order. *)
Definition answered_by (t u : turn) : bool :=
  match turn_role u with
  | User => all2 responds_to (calls_of t) (parts u)
  | Model => false
  end.

(** A history in which every model turn that carries function calls is
    followed at once by the user turn that answers them. *)
Fixpoint answered (h : list turn) : bool :=
  match h with
  | [] => true
  | t :: rest =>
      match turn_role t, calls_of t with
      | Model, _ :: _ =>
          match rest with
          | u :: rest' => answered_by t u && answered rest'
          | [] => false
          end
      | _, _ => answered rest
      end
  end.

(** The two turns of a round that ran tools: a model turn that carries
    calls and the user turn that answers them. *)
Definition tool_round_turns (round : list turn) : Prop :=
  exists t u, round = [t; u] /\ turn_role t = Model /\ calls_of t <> []
              /\ answered_by t u = true.

Definition newline : string := String (ascii_of_nat 10) "".

Definition max_turns : nat := 10.

Definition max_turns_message : string :=
  "Error: Max tool execution turns reached.".

Section WithEnv.

Context {W : Type}.
Variable E : env W.

(** [stream_callback]: absent, or its effect on the outside state when it
    is called; it returns. *)
Variable stream_callback : option (string -> W -> W).

Definition on_session (f : ChatSession -> ChatSession) (st : run W)
  : run W :=
  {| session := f (session st); outside := outside st;
     streamed := streamed st; model_calls := model_calls st |}.

(** [if stream_callback: stream_callback(s)] *)
Definition stream (s : string) (st : run W) : run W :=
  match stream_callback with
  | Some callback =>
      {| session := session st; outside := callback s (outside st);
         streamed := streamed st ++ [s]; model_calls := model_calls st |}
  | None => st
  end.

(** [if self.system_instruction:] *)
Definition instruction_of (s : ChatSession) : option string :=
  match system_instruction s with
  | Some i => if String.eqb i "" then None else Some i
  | None => None
  end.

Definition set_outside (w : W) (st : run W) : run W :=
  {| session := session st; outside := w; streamed := streamed st;
     model_calls := model_calls st |}.

(** [_generate_with_history]; [model_calls] counts the calls of
    [_request_generate]. *)
Definition _generate_with_history (st : run W) : raising response * run W :=
  let '(raised, w1) := setup_user E (outside st) in
  match raised with
  | Some e => (Raise e, set_outside w1 st)
  | None =>
      match tool_definitions E w1 with
      | Raise e => (Raise e, set_outside w1 st)
      | Value definitions =>
          let request :=
            {| p_model := model (session st);
               p_contents := history (session st);
               p_tools := definitions;
               p_systemInstruction := instruction_of (session st) |} in
          let '(r, w2) := request_generate E request w1 in
          (r, {| session := session st; outside := w2;
                 streamed := streamed st;
                 model_calls := S (model_calls st) |})
      end
  end.

(** The user turn built at the top of [send_message]. *)
Definition user_content (message : string) (media_items : list media_item)
  : turn :=
  {| turn_role := User;
     parts := Text message ::
              map (fun item =>
                     InlineData (default "image/jpeg" (mime_type item))
                                (media_data item))
                  media_items |}.

(** [if thought_sig:] keeps a signature that is not empty. *)
Definition signature_of (r : response) : option string :=
  match thought_signature r with
  | Some s => if String.eqb s "" then None else Some s
  | None => None
  end.

Definition fc_parts (r : response) : list part :=
  (if String.eqb (text r) "" then [] else [Text (text r)])
  ++ map (fun fc => FunctionCall fc (signature_of r)) (function_calls r).

(** The preview of a tool result shown to the user. *)
Definition preview (tool_result : string) : string :=
  if (200 <? String.length tool_result)%nat
  then PyStr.slice_to 200 tool_result +:+ "..."
  else tool_result.

Definition running_message (tool_name : string) (args : json) : string :=
  newline +:+ "[Running tool: " +:+ tool_name +:+ "("
    +:+ str_args E args +:+ ")]" +:+ newline.

Definition result_message (tool_result : string) : string :=
  "[Result: " +:+ preview tool_result +:+ "]" +:+ newline.

(** The body of [for fc in function_calls] for one call: the part it adds
    to [fr_parts], or the exception that [fc['args']] or [execute]
    raises. *)
Definition run_tool (fc : function_call) (st : run W)
  : raising part * run W :=
  match fc_args fc with
  | None => (Raise (KeyError "args"), st)
  | Some args =>
      let st1 := stream (running_message (fc_name fc) args) st in
      let '(tool_result, w) :=
        tools_execute E (fc_name fc) args (outside st1) in
      let st2 := set_outside w st1 in
      match tool_result with
      | Value result =>
          (Value (FunctionResponse (fc_name fc) result),
           stream (result_message result) st2)
      | Raise e => (Raise e, st2)
      end
  end.

(** The whole [for] loop: [fr_parts] and the state after it, or the
    exception that ended it and the state at that point. *)
Fixpoint run_tools (calls : list function_call) (st : run W)
  : raising (list part) * run W :=
  match calls with
  | [] => (Value [], st)
  | fc :: rest =>
      let '(fr, st1) := run_tool fc st in
      match fr with
      | Value p =>
          let '(frs, st2) := run_tools rest st1 in
          match frs with
          | Value ps => (Value (p :: ps), st2)
          | Raise e => (Raise e, st2)
          end
      | Raise e => (Raise e, st1)
      end
  end.

Definition error_message (r : response) : string :=
  "Error: " +:+ default "None" (error r).

(** The state in which the tools of a round run, from the state [st1] in
    which the model has just answered [r] with function calls: the text is
    streamed and the Model turn appended. *)
Definition called (r : response) (st1 : run W) : run W :=
  let st2 :=
    if String.eqb (text r) "" then st1 else stream (text r) st1 in
  on_session (append_turn {| turn_role := Model; parts := fc_parts r |}) st2.

(** [while current_turn < max_turns], by the number of iterations left,
    [max_turns - current_turn].  An exception leaves the loop with the
    state as it is at that point. *)
Fixpoint loop (turns_left : nat) (st : run W) : raising string * run W :=
  match turns_left with
  | O => (Value max_turns_message, st)
  | S turns_left' =>
      let '(response, st1) := _generate_with_history st in
      match response with
      | Raise e => (Raise e, st1)
      | Value r =>
          if negb (success r) then (Value (error_message r), st1)
          else
            match function_calls r with
            | [] =>
                let st2 :=
                  if String.eqb (text r) "" then st1
                  else stream (text r) st1 in
                (Value (text r),
                 on_session
                   (append_turn {| turn_role := Model;
                                   parts := [Text (text r)] |}) st2)
            | _ :: _ =>
                let '(fr_parts, st4) :=
                  run_tools (function_calls r) (called r st1) in
                match fr_parts with
                | Value frs =>
                    loop turns_left'
                         (on_session
                            (append_turn {| turn_role := User;
                                            parts := frs |}) st4)
                | Raise e => (Raise e, st4)
                end
            end
      end
  end.

Definition send_message (message : string) (media_items : list media_item)
    (st : run W) : raising string * run W :=
  loop max_turns
       (on_session (append_turn (user_content message media_items)) st).

End WithEnv.

End Chat.

(** ** The session over the registry *)
Module Program.

(** The collaborators of a session as the program wires them: the module's
    registry behind [self.tools], under the value of [config.SAFE_MODE], and
    a client with a state [B] of its own. *)
Definition registry_env {FS B : Type} (py_repr : MCP.result_obj -> string)
    (safe_mode : bool)
    (setup : B -> option exception * B)
    (generate : Chat.payload -> B -> raising Chat.response * B)
    (str_args : json -> string)
  : Chat.env (B * Registry.ToolRegistry FS * Registry.world FS) :=
  {| Chat.setup_user :=
       fun '(b, r, w) => let '(raised, b') := setup b in (raised, (b', r, w));
     Chat.request_generate :=
       fun p '(b, r, w) =>
         let '(resp, b') := generate p b in (resp, (b', r, w));
     Chat.tool_definitions :=
       fun '(b, r, w) => Registry.get_tool_definitions r;
     Chat.tools_execute :=
       fun tool_name arguments '(b, r, w) =>
         let '(res, r', w') :=
           Registry.execute py_repr safe_mode r tool_name arguments w in
         (res, (b, r', w'));
     Chat.str_args := str_args |}.

End Program.

(** ** Calls on one client object, in sequence *)
Module Lifetime.
Import MCP.

(** The methods a caller may invoke on a client, with what the outside
    does at each: [spawn] is the outcome of [subprocess.Popen]. *)
Inductive op : Type :=
| Connect (spawn : option Process)
| SendRequest (method : string) (params : option json)
| SendNotification (method : string) (params : option json)
| RefreshTools
| CallTool (name : string) (arguments : json)
| Close.

(** One call: the requests it sent and the client after it. *)
Definition step (o : op) (c : MCPClient) : list sent * MCPClient :=
  match o with
  | Connect spawn => let '(_, ss, c') := connect c spawn in (ss, c')
  | SendRequest method params =>
      let '(s, c') := send_request c method params in ([s], c')
  | SendNotification method params => ([], send_notification c method params)
  | RefreshTools => let '(s, _, c') := _refresh_tools c in ([s], c')
  | CallTool name arguments =>
      let '(s, c') := call_tool c name arguments in ([s], c')
  | Close => ([], close c)
  end.

Fixpoint run (ops : list op) (c : MCPClient) : list sent * MCPClient :=
  match ops with
  | [] => ([], c)
  | o :: rest =>
      let '(ss, c1) := step o c in
      let '(ss', c2) := run rest c1 in
      (ss ++ ss', c2)
  end.

(** The request ids a sequence of calls assigned, in order. *)
Definition ids (ops : list op) (c : MCPClient) : list Z :=
  map req_id (fst (run ops c)).

End Lifetime.

(** ** Sample collaborators *)
Module Sample.
Import MCP.

(** A child that takes every line and prints nothing. *)
Definition silent : Process :=
  {| p_stdin := []; p_accepts := fun _ => true; p_replies := fun _ => [];
     p_terminated := false |}.

Definition ok_result : result_obj :=
  JObj [("protocolVersion", JStr "0.1.0")].

Definition reply (i : Z) (r : result_obj) : line :=
  Parsed {| m_id := Some i; m_error := None; m_result := Some r |}.

(** A child that answers the first request after one second and nothing
    after that. *)
Definition answers_once : Process :=
  {| p_stdin := []; p_accepts := fun _ => true;
     p_replies := fun i => if i =? 1 then [(1%nat, reply 1 ok_result)] else [];
     p_terminated := false |}.

Definition echo_tool : json := JObj [("name", JStr "echo")].

Definition tools_result : result_obj := JObj [("tools", JArr [echo_tool])].

(** A child that answers every request at once, with a tool list. *)
Definition prompt_server : Process :=
  {| p_stdin := []; p_accepts := fun _ => true;
     p_replies := fun i => [(0%nat, reply i tools_result)];
     p_terminated := false |}.

Definition fresh : MCPClient := init "server" [].

(** A connected client whose child has gone quiet. *)
Definition quiet_client : MCPClient :=
  {| command := "server"; args := []; process := Some silent;
     request_id := 2; pending_requests := ∅; tools := JArr [echo_tool];
     is_connected := true; reader := true |}.

(** A client that lists a tool named like a sensitive local one and is
    not connected. *)
Definition offline_client : MCPClient :=
  {| command := "server"; args := []; process := Some silent;
     request_id := 1; pending_requests := ∅;
     tools := JArr [JObj [("name", JStr "write_file")]];
     is_connected := false; reader := true |}.


Definition quiet_registry : Registry.ToolRegistry unit :=
  {| Registry.tools := []; Registry.mcp_clients := [quiet_client] |}.

(** A user who types the same answer at every prompt. *)
Definition terminal (answer : string) : Registry.world unit :=
  {| Registry.fs := tt; Registry.stdin := fun _ => answer;
     Registry.asked := 0; Registry.log := [] |}.

Definition repr (o : result_obj) : string := "{...}".

(** A local [write_file] that counts the files it has written. *)
Definition write_file : Registry.local_tool nat :=
  {| Registry.fn_name := "write_file";
     Registry.fn_doc := Some "Menulis content ke file (overwrite).";
     Registry.fn_call :=
       fun _ written => (Registry.Returns "Successfully wrote", S written) |}.

Definition local_registry : Registry.ToolRegistry nat :=
  Registry.register Registry.init write_file.

Definition typist (answer : string) : Registry.world nat :=
  {| Registry.fs := 0%nat; Registry.stdin := fun _ => answer;
     Registry.asked := 0; Registry.log := [] |}.

(** A backend that asks for one tool call at every round. *)
Definition ls_call : Chat.function_call :=
  {| Chat.fc_name := "list_directory"; Chat.fc_args := Some (JObj []) |}.

Definition calling : Chat.response :=
  {| Chat.success := true; Chat.text := "";
     Chat.function_calls := [ls_call];
     Chat.thought_signature := None; Chat.error := None |}.

Definition failing : Chat.response :=
  {| Chat.success := false; Chat.text := ""; Chat.function_calls := [];
     Chat.thought_signature := None; Chat.error := Some "boom" |}.

Fixpoint copies (n : nat) (c : ascii) : string :=
  match n with
  | O => ""
  | S n' => String c (copies n' c)
  end.

(** A tool result of 201 characters. *)
Definition long_result : string := copies 201 "a"%char.

(** The outside state is the number of model calls made. *)
Definition insistent : Chat.env nat :=
  {| Chat.setup_user := fun k => (None, k);
     Chat.request_generate := fun _ k => (Value calling, S k);
     Chat.tool_definitions := fun _ => Value [];
     Chat.tools_execute := fun _ _ k => (Value long_result, k);
     Chat.str_args := fun _ => "{}" |}.

(** A backend that asks for a tool call first and fails at its second
    call. *)
Definition flaky : Chat.env nat :=
  {| Chat.setup_user := fun k => (None, k);
     Chat.request_generate :=
       fun _ k => (Value (if Nat.eqb k 0 then calling else failing), S k);
     Chat.tool_definitions := fun _ => Value [];
     Chat.tools_execute := fun _ _ k => (Value "a.txt", k);
     Chat.str_args := fun _ => "{}" |}.

(** A backend that fails at once. *)
Definition down : Chat.env nat :=
  {| Chat.setup_user := fun k => (None, k);
     Chat.request_generate := fun _ k => (Value failing, S k);
     Chat.tool_definitions := fun _ => Value [];
     Chat.tools_execute := fun _ _ k => (Value "a.txt", k);
     Chat.str_args := fun _ => "{}" |}.

(** A call of [list_directory] as the backend sends it when the model
    gives no argument: without the [args] key. *)
Definition bare_call : Chat.function_call :=
  {| Chat.fc_name := "list_directory"; Chat.fc_args := None |}.

Definition calling_bare : Chat.response :=
  {| Chat.success := true; Chat.text := "";
     Chat.function_calls := [bare_call];
     Chat.thought_signature := None; Chat.error := None |}.

(** A backend that asks for that call at every round, and keeps the
    contents it was sent last. *)
Definition terse : Chat.env (list Chat.turn) :=
  {| Chat.setup_user := fun w => (None, w);
     Chat.request_generate :=
       fun p _ => (Value calling_bare, Chat.p_contents p);
     Chat.tool_definitions := fun _ => Value [];
     Chat.tools_execute := fun _ _ w => (Value "a.txt", w);
     Chat.str_args := fun _ => "{}" |}.

Definition terse_chat : Chat.run (list Chat.turn) :=
  {| Chat.session := Chat.init "gemini-3-pro-preview" None;
     Chat.outside := []; Chat.streamed := []; Chat.model_calls := 0 |}.

Definition listing_callback
  : option (string -> list Chat.turn -> list Chat.turn) :=
  Some (fun _ w => w).

Definition new_chat : Chat.run nat :=
  {| Chat.session := Chat.init "gemini-3-pro-preview" None;
     Chat.outside := 0%nat; Chat.streamed := []; Chat.model_calls := 0 |}.

Definition silent_callback : option (string -> nat -> nat) :=
  Some (fun _ k => k).

Definition write_call : Chat.function_call :=
  {| Chat.fc_name := "write_file";
     Chat.fc_args :=
       Some (JObj [("filepath", JStr "a.txt"); ("content", JStr "x")]) |}.

(** A backend that asks for [write_file] at its first call and answers in
    text afterwards; its state is the number of calls made. *)
Definition writer (p : Chat.payload) (k : nat)
  : raising Chat.response * nat :=
  (Value (if Nat.eqb k 0
          then {| Chat.success := true; Chat.text := "";
                  Chat.function_calls := [write_call];
                  Chat.thought_signature := None; Chat.error := None |}
          else {| Chat.success := true; Chat.text := "done";
                  Chat.function_calls := [];
                  Chat.thought_signature := None; Chat.error := None |}),
   S k).

(** A client that is set up already. *)
Definition ready (k : nat) : option exception * nat := (None, k).

(** A session over the registry with the local [write_file], safe mode on
    and a user who answers n. *)
Definition guarded_chat
  : Chat.run (nat * Registry.ToolRegistry nat * Registry.world nat) :=
  {| Chat.session := Chat.init "gemini-3-pro-preview" None;
     Chat.outside := (0%nat, local_registry, typist "n");
     Chat.streamed := []; Chat.model_calls := 0 |}.

End Sample.

(** ** The reader thread and the wire *)
Module Reader.
Import MCP.

(** The iterations of [_read_loop] over the lines the child prints, in
    order, up to the one that raises, if any: the table, and whether the
    thread is still running. *)
Fixpoint read_lines (lines : list line) (pend : gmap Z (list message))
  : gmap Z (list message) * bool :=
  match lines with
  | [] => (pend, true)
  | l :: rest =>
      match read_line l pend with
      | Some pend' => read_lines rest pend'
      | None => (pend, false)
      end
  end.

Definition fatal (l : line) : bool :=
  match l with
  | Fatal => true
  | _ => false
  end.

(** The lines of a batch that come before the first one on which the loop
    body raises. *)
Fixpoint before_fatal (lines : list line) : list line :=
  match lines with
  | [] => []
  | l :: rest => if fatal l then [] else l :: before_fatal rest
  end.

(** The messages of a batch that bear the id [i], in order. *)
Definition bearing (i : Z) (lines : list line) : list message :=
  flat_map (fun l => match l with
                     | Parsed m => if decide (m_id m = Some i) then [m] else []
                     | Malformed | Fatal => []
                     end)
           lines.

(** The child [pr] once the lines [ms] have been written to its stdin. *)
Definition fed (ms : list wire_msg) (pr : Process) : Process :=
  {| p_stdin := p_stdin pr ++ ms; p_accepts := p_accepts pr;
     p_replies := p_replies pr; p_terminated := p_terminated pr |}.

(** Every queue of the table is filed under an id that has been assigned. *)
Definition ids_assigned (c : MCPClient) : Prop :=
  0 <= request_id c
  /\ forall k, is_Some (pending_requests c !! k) -> 1 <= k <= request_id c.

(** A line that the wait of request [rid] lets pass: in time, read
    without an exception, and not bearing its id. *)
Definition passes_by (timeout : nat) (rid : Z) (tl : nat * line) : Prop :=
  (fst tl <= timeout)%nat
  /\ snd tl <> Fatal
  /\ forall m, snd tl = Parsed m -> m_id m <> Some rid.

(** A result of [tools/list] on which the statements of [_refresh_tools]
    after the request raise: it is truthy and not a dict, and [in] raises
    on it or finds ["tools"] in it; or it is a dict whose ["tools"] has no
    length. *)
Definition ill_shaped (result : json) : bool :=
  match result with
  | JObj fields =>
      match dict_get "tools" fields with
      | Some (JNull | JBool _ | JNum _) => true
      | _ => false
      end
  | JArr items => existsb (Py.is_str "tools") items
  | JStr s => Py.occurs "tools" s
  | JBool b => b
  | JNum n => negb (n =? 0)
  | JNull => false
  end.

(** The lines of the handshake, in the order [connect] writes them, for a
    client whose counter is at [n]. *)
Definition handshake (n : Z) : list wire_msg :=
  [ Request (n + 1) "initialize" initialize_params;
    Notification "notifications/initialized" (JObj []);
    Request (n + 2) "tools/list" (JObj []) ].

End Reader.

(** ** gemini_cli.py: what the chat loop does to the registry *)
Module Cli.

(** [s.split(sep)] for a separator of one character. *)
Fixpoint split_on (sep : ascii) (s : string) : list string :=
  match s with
  | EmptyString => [""]
  | String c s' =>
      if Ascii.eqb c sep then "" :: split_on sep s'
      else match split_on sep s' with
           | w :: ws => String c w :: ws
           | [] => [String c ""]
           end
  end.

Section WithLocalState.

Context {FS : Type}.
Variable py_repr : MCP.result_obj -> string.

(** The body of the [/mcp] command: [/mcp connect <command> [args...]]
    starts a client and registers it when [connect] returns [True]; any
    other form prints the usage.  [spawn] is what [subprocess.Popen] does
    if it is reached. *)
Definition mcp_command (user_input : string) (spawn : option MCP.Process)
    (r : Registry.ToolRegistry FS) : Registry.ToolRegistry FS :=
  match split_on " " user_input with
  | _ :: p1 :: cmd :: args =>
      if String.eqb p1 "connect" then
        let '(ok, _, mcp_client) := MCP.connect (MCP.init cmd args) spawn in
        if ok then Registry.register_mcp r mcp_client else r
      else r
  | _ => r
  end.

(** Every registered client is connected. *)
Definition all_connected (r : Registry.ToolRegistry FS) : Prop :=
  Forall (fun c => MCP.is_connected c = true) (Registry.mcp_clients r).

(** What touches the registry while the program runs: the [/mcp] command,
    the [/safe] command, and the tool calls of [send_message]. *)
Inductive action : Type :=
| Mcp (user_input : string) (spawn : option MCP.Process)
| Safe
| Exec (tool_name : string) (arguments : json).

(** [config.SAFE_MODE], the module's registry and the outside. *)
Definition state : Type :=
  bool * Registry.ToolRegistry FS * Registry.world FS.

Definition act (a : action) (st : state) : state :=
  let '(safe_mode, r, w) := st in
  match a with
  | Mcp user_input spawn => (safe_mode, mcp_command user_input spawn r, w)
  | Safe => (negb safe_mode, r, w)
  | Exec tool_name arguments =>
      let '(_, r', w') :=
        Registry.execute py_repr safe_mode r tool_name arguments w in
      (safe_mode, r', w')
  end.

Fixpoint acts (l : list action) (st : state) : state :=
  match l with
  | [] => st
  | a :: rest => acts rest (act a st)
  end.

End WithLocalState.

End Cli.

(** ** gemini_core/client.py: [_request_generate] *)
Module Client.

Definition CODE_ASSIST_ENDPOINT : string :=
  "https://cloudcode-pa.googleapis.com".
Definition CODE_ASSIST_API_VERSION : string := "v1internal".

(** [str] of an integer. *)
Definition str_int (z : Z) : string := NilZero.string_of_int (Z.to_int z).

(** An entry of [candidate['content']['parts']]: the three keys the loop
    looks for; a part may hold several of them. *)
Record stream_part : Type := {
  sp_text : option string;
  sp_functionCall : option Chat.function_call;
  sp_thoughtSignature : option string
}.

(** A line of [response.iter_lines()], by what the loop body does with it:
    an empty line; a line that does not start with [data: ]; a data line on
    which [json.loads] raises [JSONDecodeError]; a data object with an
    [error] key, with what [data['error']['message']] gives ([None] for a
    null); a data object without one, with the parts of its first
    candidate ([None] when it has no candidate, content or parts); and a
    line on which the body raises any other exception [e] (undecodable
    bytes, an object of another shape), of which [str(e)] is kept. *)
Inductive sse_line : Type :=
| Blank
| NotData
| BadJson
| ErrorEvent (message : option string)
| Event (candidate_parts : option (list stream_part))
| Fault (e : string).

(** [final_text], [function_calls] and [thought_signature]. *)
Record collected : Type := {
  final_text : list string;
  function_calls : list Chat.function_call;
  thought_signature : option string
}.

Definition nothing : collected :=
  {| final_text := []; function_calls := []; thought_signature := None |}.

(** The body of [for part in candidate['content']['parts']]. *)
Definition take_part (p : stream_part) (acc : collected) : collected :=
  let acc1 :=
    match sp_text p with
    | Some t => {| final_text := final_text acc ++ [t];
                   function_calls := function_calls acc;
                   thought_signature := thought_signature acc |}
    | None => acc
    end in
  let acc2 :=
    match sp_functionCall p with
    | Some fc => {| final_text := final_text acc1;
                    function_calls := function_calls acc1 ++ [fc];
                    thought_signature := thought_signature acc1 |}
    | None => acc1
    end in
  match sp_thoughtSignature p with
  | Some s => {| final_text := final_text acc2;
                 function_calls := function_calls acc2;
                 thought_signature := Some s |}
  | None => acc2
  end.

Definition take_parts (ps : list stream_part) (acc : collected) : collected :=
  fold_left (fun a p => take_part p a) ps acc.

(** A dict [{'success': False, 'error': msg}] as [send_message] reads it. *)
Definition failure (msg : option string) : Chat.response :=
  {| Chat.success := false; Chat.text := ""; Chat.function_calls := [];
     Chat.thought_signature := None; Chat.error := msg |}.

(** [for line in response.iter_lines()]: on the left the dict returned from
    inside the loop, on the right what has been collected when the lines
    run out. *)
Fixpoint iter_lines (lines : list sse_line) (acc : collected)
  : Chat.response + collected :=
  match lines with
  | [] => inr acc
  | line :: rest =>
      match line with
      | Blank | NotData | BadJson => iter_lines rest acc
      | ErrorEvent message => inl (failure message)
      | Event None => iter_lines rest acc
      | Event (Some ps) => iter_lines rest (take_parts ps acc)
      | Fault e => inl (failure (Some e))
      end
  end.

(** The statements after the loop. *)
Definition finish (acc : collected) : Chat.response :=
  match final_text acc, function_calls acc with
  | [], [] => failure (Some "Unknown error (Empty response)")
  | _, _ =>
      {| Chat.success := true;
         Chat.text := String.concat "" (final_text acc);
         Chat.function_calls := function_calls acc;
         Chat.thought_signature := thought_signature acc;
         Chat.error := None |}
  end.

Definition read_stream (lines : list sse_line) : Chat.response :=
  match iter_lines lines nothing with
  | inl r => r
  | inr acc => finish acc
  end.

(** The body of a response whose status is not 200: [response.json()]
    raises, or gives a dict of which [error.message] is read, with
    [response.text] for want of it. *)
Inductive error_body : Type :=
| NotJson
| Json (message : option string) (response_text : string).

(** What [requests.post] does: it raises [e], or answers with a status
    other than 200, or with status 200 and a stream of lines. *)
Inductive http_result : Type :=
| PostRaises (e : string)
| Status (status_code : Z) (body : error_body)
| Ok200 (lines : list sse_line).

(** The fields read here; [creds] is the text of [self.creds.token] when
    [self.creds] is set, which [__init__] does in the modes oauth and
    vertex. *)
Record GeminiClient : Type := {
  auth_mode : string;
  api_key : option string;
  vertex_project : option string;
  vertex_location : string;
  creds : option string
}.

(** [not x] on an optional string: [None] and [""] are falsy. *)
Definition missing (x : option string) : bool :=
  match x with
  | Some s => String.eqb s ""
  | None => true
  end.

Definition RATE_LIMIT : string := "⏳ RATE LIMIT: ".

(** What follows [requests.post] inside the [try]. *)
Definition handle (r : http_result) : Chat.response :=
  match r with
  | PostRaises e => failure (Some e)
  | Status status_code body =>
      match body with
      | NotJson => failure (Some ("HTTP " +:+ str_int status_code))
      | Json message response_text =>
          let error_msg := default response_text message in
          if status_code =? 429
          then failure (Some (RATE_LIMIT +:+ error_msg))
          else failure (Some ("API Error " +:+ str_int status_code +:+ ": "
                                +:+ error_msg))
      end
  | Ok200 lines => read_stream lines
  end.

(** [_get_headers]: [self.creds.token] raises when [self.creds] is
    [None]. *)
Definition _get_headers (self : GeminiClient)
  : raising (list (string * string)) :=
  if String.eqb (auth_mode self) "apikey"
  then Value [("Content-Type", "application/json")]
  else
    match creds self with
    | Some token =>
        Value [("Authorization", "Bearer " +:+ token);
               ("Content-Type", "application/json")]
    | None => Raise AttributeError
    end.

(** The statements of [_request_generate] from [headers =
    self._get_headers()] on; the first of them is outside the [try]. *)
Definition post_with_headers (self : GeminiClient)
    (post : string -> list (string * string) -> bool -> http_result)
    (url : string) (wrapped : bool) : raising Chat.response :=
  match _get_headers self with
  | Value headers => Value (handle (post url headers wrapped))
  | Raise e => Raise e
  end.

(** [_request_generate] for a payload whose model is [model].  [post] is
    [requests.post], from the url, the headers and whether the payload is
    sent wrapped (with its model and project) or as the bare request. *)
Definition _request_generate (self : GeminiClient) (model : string)
    (post : string -> list (string * string) -> bool -> http_result)
  : raising Chat.response :=
  if String.eqb (auth_mode self) "apikey" then
    if missing (api_key self) then Value (failure (Some "API Key is missing!"))
    else
      post_with_headers self post
        ("https://generativelanguage.googleapis.com/v1beta/models/"
           +:+ model +:+ ":streamGenerateContent?key="
           +:+ default "" (api_key self) +:+ "&alt=sse")
        false
  else if String.eqb (auth_mode self) "vertex" then
    if missing (vertex_project self)
    then Value (failure (Some "Vertex Project ID is missing!"))
    else
      post_with_headers self post
        ("https://" +:+ vertex_location self
           +:+ "-aiplatform.googleapis.com/v1/projects/"
           +:+ default "" (vertex_project self) +:+ "/locations/"
           +:+ vertex_location self
           +:+ "/publishers/google/models/" +:+ model
           +:+ ":streamGenerateContent?alt=sse")
        false
  else
    post_with_headers self post
      (CODE_ASSIST_ENDPOINT +:+ "/" +:+ CODE_ASSIST_API_VERSION
         +:+ ":streamGenerateContent?alt=sse")
      true.

(** The parts a stream carries, in order, up to the end. *)
Definition parts_of (lines : list sse_line) : list stream_part :=
  flat_map (fun line => match line with
                        | Event (Some ps) => ps
                        | _ => []
                        end)
           lines.

(** A line that ends the call from inside the loop. *)
Definition aborts (line : sse_line) : bool :=
  match line with
  | ErrorEvent _ | Fault _ => true
  | _ => false
  end.

(** A line the loop does nothing with. *)
Definition idle (line : sse_line) : bool :=
  match line with
  | Blank | NotData | BadJson | Event None => true
  | _ => false
  end.

(** The texts, the calls and the last signature of a list of parts. *)
Definition texts_of (ps : list stream_part) : list string :=
  flat_map (fun p => match sp_text p with Some t => [t] | None => [] end) ps.

Definition calls_of (ps : list stream_part) : list Chat.function_call :=
  flat_map (fun p => match sp_functionCall p with
                     | Some fc => [fc]
                     | None => []
                     end) ps.

Definition last_signature (ps : list stream_part) : option string :=
  last (flat_map (fun p => match sp_thoughtSignature p with
                           | Some s => [s]
                           | None => []
                           end) ps).

End Client.

(** ** gemini_core/client.py: [setup_user] *)
Module Onboarding.

(** What [_request] returns when it does not return [None]: the status and
    [res.json()], [None] when that call raises. *)
Record reply (A : Type) : Type := {
  status_code : Z;
  json : option A
}.
Arguments status_code {A}.
Arguments json {A}.

(** Truthiness of a response object: [Response.ok], false for the statuses
    from 400 to 599. *)
Definition ok {A : Type} (r : reply A) : bool :=
  negb ((400 <=? status_code r) && (status_code r <? 600)).

(** An entry of [allowedTiers]: [tier.get('isDefault')] and the [id] key. *)
Record tier : Type := {
  isDefault : bool;
  tier_id : option string
}.

(** The answer to [loadCodeAssist], by the keys read: [currentTier] when it
    is there and not empty, with its [id]; [cloudaicompanionProject] when
    the key is there, with its value; [allowedTiers]. *)
Record load_data : Type := {
  currentTier : option (option string);
  cloudaicompanionProject : option (option string);
  allowedTiers : list tier
}.

(** The answer to [onboardUser]: [done], and
    [response.cloudaicompanionProject.id] when it is there and not empty. *)
Record lro_data : Type := {
  done : bool;
  response_project : option string
}.

(** The fields [setup_user] reads and writes. *)
Record GeminiClient : Type := {
  auth_mode : string;
  project_id : option string;
  user_tier : option string;
  session_setup : bool
}.

(** The server: the answer to [loadCodeAssist] and the answers to the
    successive [onboardUser] requests, [None] when [_request] returns
    [None]. *)
Record server : Type := {
  load : option (reply load_data);
  onboard : nat -> option (reply lro_data)
}.

(** What [setup_user] raises: one of its own exceptions, or the error of a
    [json()] call. *)
Inductive exn : Type :=
| Exception (msg : string)
| JSONDecodeError.

(** How the call ends, the client after it, the number of requests made and
    the project sent with the onboarding requests, if any were made. *)
Record ended : Type := {
  raised : option exn;
  client : GeminiClient;
  requests : nat;
  sent_project : option (option string)
}.

(** The first default tier of [allowedTiers], ['FREE'] for want of one or
    of its [id]. *)
Fixpoint default_tier (tiers : list tier) : string :=
  match tiers with
  | [] => "FREE"
  | t :: rest =>
      if isDefault t then default "FREE" (tier_id t) else default_tier rest
  end.

Definition max_polls : nat := 10.

(** How the polling loop ends: with the last [lro_data], or on the
    exception of a [json()] call. *)
Inductive polled : Type :=
| Polled (lro : lro_data) (poll_count : nat)
| PollRaised (poll_count : nat).

(** [while not lro_data.get('done') and poll_count < max_polls], by the
    number of polls left. *)
Fixpoint poll (srv : server) (polls_left : nat) (poll_count : nat)
    (lro : lro_data) : polled :=
  if done lro then Polled lro poll_count
  else
    match polls_left with
    | O => Polled lro poll_count
    | S less =>
        match onboard srv (S poll_count) with
        | Some res =>
            if ok res then
              match json res with
              | Some lro' => poll srv less (S poll_count) lro'
              | None => PollRaised (S poll_count)
              end
            else Polled lro (S poll_count)
        | None => Polled lro (S poll_count)
        end
    end.

Definition setup_user (self : GeminiClient) (env_project : option string)
    (srv : server) : ended :=
  let stop msg n sent :=
    {| raised := Some msg; client := self; requests := n;
       sent_project := sent |} in
  if session_setup self then
    {| raised := None; client := self; requests := 0; sent_project := None |}
  else if negb (String.eqb (auth_mode self) "oauth") then
    {| raised := None;
       client := {| auth_mode := auth_mode self;
                    project_id := project_id self;
                    user_tier := user_tier self; session_setup := true |};
       requests := 0; sent_project := None |}
  else
    match load srv with
    | None => stop (Exception "Gagal loadCodeAssist") 1%nat None
    | Some res =>
        if negb (ok res) || negb (status_code res =? 200)
        then stop (Exception "Gagal loadCodeAssist") 1%nat None
        else
          match json res with
          | None => stop JSONDecodeError 1%nat None
          | Some data =>
              match currentTier data with
              | Some id =>
                  {| raised := None;
                     client :=
                       {| auth_mode := auth_mode self;
                          project_id :=
                            default env_project
                                    (cloudaicompanionProject data);
                          user_tier := id; session_setup := true |};
                     requests := 1; sent_project := None |}
              | None =>
                  let tier_id := default_tier (allowedTiers data) in
                  let project :=
                    if String.eqb tier_id "FREE" then None
                    else env_project in
                  match onboard srv 0%nat with
                  | None => stop (Exception "Gagal start onboarding") 2%nat (Some project)
                  | Some lro_res =>
                      if negb (ok lro_res)
                      then stop (Exception "Gagal start onboarding") 2%nat (Some project)
                      else
                        match json lro_res with
                        | None => stop JSONDecodeError 2%nat (Some project)
                        | Some lro0 =>
                            match poll srv max_polls 0 lro0 with
                            | PollRaised n =>
                                stop JSONDecodeError (2 + n)%nat (Some project)
                            | Polled lro n =>
                                if done lro then
                                  {| raised := None;
                                     client :=
                                       {| auth_mode := auth_mode self;
                                          project_id :=
                                            match response_project lro with
                                            | Some id => Some id
                                            | None => env_project
                                            end;
                                          user_tier := Some tier_id;
                                          session_setup := true |};
                                     requests := (2 + n)%nat;
                                     sent_project := Some project |}
                                else
                                  stop (Exception "Onboarding timeout") (2 + n)%nat
                                       (Some project)
                            end
                        end
                  end
              end
          end
    end.

(** The answer to an [onboardUser] request that went through. *)
Definition went_through (lro : lro_data) : option (reply lro_data) :=
  Some {| status_code := 200; json := Some lro |}.

(** The client of a new user and a server that lets [loadCodeAssist]
    through without a current tier and answers every [onboardUser]. *)
Definition onboarding (self : GeminiClient) (srv : server)
    (data : load_data) (lros : nat -> lro_data) : Prop :=
  session_setup self = false /\ auth_mode self = "oauth"
  /\ load srv = Some {| status_code := 200; json := Some data |}
  /\ currentTier data = None
  /\ forall j, onboard srv j = went_through (lros j).

End Onboarding.

(** ** gemini_cli.py: the terminal *)
Module Terminal.

Definition ESC : string := String (ascii_of_nat 27) "".

(** [class Colors] *)
Definition CYAN : string := ESC +:+ "[96m".
Definition GREEN : string := ESC +:+ "[92m".
Definition WARNING : string := ESC +:+ "[93m".
Definition ENDC : string := ESC +:+ "[0m".

(** [s.replace(old, new)] for a non-empty [old]: occurrences are taken from
    the left and do not overlap.  [skip] counts the characters of the
    occurrence just replaced that are still to be passed over. *)
Fixpoint replace_from (old new : string) (skip : nat) (s : string) : string :=
  match s with
  | EmptyString => EmptyString
  | String c s' =>
      match skip with
      | S k => replace_from old new k s'
      | O =>
          if String.prefix old s
          then new +:+ replace_from old new (String.length old - 1) s'
          else String c (replace_from old new 0 s')
      end
  end.

Definition replace (old new s : string) : string := replace_from old new 0 s.

(** [s.strip(chars)] for a set of one character. *)
Fixpoint lstrip_char (x : ascii) (s : string) : string :=
  match s with
  | String c s' => if Ascii.eqb c x then lstrip_char x s' else s
  | EmptyString => EmptyString
  end.

Fixpoint rstrip_char (x : ascii) (s : string) : string :=
  match s with
  | String c s' =>
      match rstrip_char x s' with
      | EmptyString => if Ascii.eqb c x then EmptyString
                       else String c EmptyString
      | r => String c r
      end
  | EmptyString => EmptyString
  end.

Definition strip_char (x : ascii) (s : string) : string :=
  rstrip_char x (lstrip_char x s).

(** [class Spinner], without the thread that draws it. *)
Record Spinner : Type := {
  message : string;
  spinning : bool
}.

Definition start (sp : Spinner) : Spinner :=
  if spinning sp then sp else {| message := message sp; spinning := true |}.

Definition stop (sp : Spinner) : Spinner :=
  if spinning sp then {| message := message sp; spinning := false |} else sp.

Definition set_message (m : string) (sp : Spinner) : Spinner :=
  {| message := m; spinning := spinning sp |}.

(** What [on_stream] closes over, and what has been printed so far. *)
Record console : Type := {
  spinner : Spinner;
  first_token_received : bool;
  printed : list string
}.

(** [print(x)] and [print(x, end='')] *)
Definition print (x : string) (c : console) : console :=
  {| spinner := spinner c; first_token_received := first_token_received c;
     printed := printed c ++ [x +:+ Chat.newline] |}.

Definition print_end (x : string) (c : console) : console :=
  {| spinner := spinner c; first_token_received := first_token_received c;
     printed := printed c ++ [x] |}.

Definition on_spinner (f : Spinner -> Spinner) (c : console) : console :=
  {| spinner := f (spinner c);
     first_token_received := first_token_received c;
     printed := printed c |}.

Definition on_stream (text : string) (c : console) : console :=
  if String.prefix "[Running tool:" text then
    let c1 := on_spinner stop c in
    let tool_info := strip_char "]" (replace "[Running tool:" "" text) in
    let c2 := print (Chat.newline +:+ WARNING
                       +:+ "⠹ Proceeding with Execution: " +:+ tool_info
                       +:+ ENDC) c1 in
    on_spinner start
      (on_spinner (set_message (CYAN +:+ "Executing tool..." +:+ ENDC)) c2)
  else if String.prefix "[Result:" text then
    let c1 := on_spinner stop c in
    let c2 := print (CYAN +:+ text +:+ ENDC) c1 in
    on_spinner start
      (on_spinner (set_message (CYAN +:+ "Analyzing result..." +:+ ENDC)) c2)
  else
    let c1 := on_spinner stop c in
    let c2 :=
      if first_token_received c1 then c1
      else {| spinner := spinner c1; first_token_received := true;
              printed := printed c1 ++ [GREEN +:+ "Gemini > " +:+ ENDC] |} in
    print_end (replace "**" "" text) c2.

(** How [show_boxed_menu] ends on the keys it is given: the index it
    returns, [KeyboardInterrupt], [ZeroDivisionError], or still waiting in
    [getch] with the index it has reached. *)
Inductive menu_end : Type :=
| Selected (idx : Z)
| Interrupted
| DivisionByZero
| Waiting (idx : Z).

(** The key is one of [b'1'], ..., up to the number of options. *)
Definition digit_of (n : Z) (key : ascii) : option Z :=
  let k := Z.of_nat (nat_of_ascii key) - 48 in
  if (1 <=? k) && (k <=? 9) && (k <=? n) then Some k else None.

(** The [while True] loop of [show_boxed_menu] for [n] options, on the keys
    [msvcrt.getch] returns one after the other. *)
Fixpoint menu_loop (n : Z) (keys : list ascii) (current_idx : Z) : menu_end :=
  match keys with
  | [] => Waiting current_idx
  | key :: rest =>
      if Ascii.eqb key (ascii_of_nat 224) then
        match rest with
        | [] => Waiting current_idx
        | key2 :: rest' =>
            if Ascii.eqb key2 "H" then
              if n =? 0 then DivisionByZero
              else menu_loop n rest' ((current_idx - 1) mod n)
            else if Ascii.eqb key2 "P" then
              if n =? 0 then DivisionByZero
              else menu_loop n rest' ((current_idx + 1) mod n)
            else menu_loop n rest' current_idx
        end
      else if Ascii.eqb key (ascii_of_nat 13) then Selected current_idx
      else if Ascii.eqb key (ascii_of_nat 3) then Interrupted
      else match digit_of n key with
           | Some k => menu_loop n rest (k - 1)
           | None => menu_loop n rest current_idx
           end
  end.

Definition show_boxed_menu (options : list string) (keys : list ascii)
  : menu_end :=
  menu_loop (Z.of_nat (length options)) keys 0.

(** The two keys of the Down arrow, [times] times. *)
Fixpoint downs (times : nat) : list ascii :=
  match times with
  | O => []
  | S k => ascii_of_nat 224 :: "P"%char :: downs k
  end.

(** The index a menu is at or has returned, if any. *)
Definition index_of (e : menu_end) : option Z :=
  match e with
  | Selected i | Waiting i => Some i
  | Interrupted | DivisionByZero => None
  end.

End Terminal.

(** ** More sample collaborators *)
Module Cases.
Import MCP.

Definition text_result (s : string) : result_obj :=
  JObj [("content",
         JArr [ JObj [("type", JStr "image"); ("data", JStr "")];
                JObj [("type", JStr "text"); ("text", JStr s)];
                JObj [("type", JStr "text"); ("text", JStr "later")] ]);
        ("isError", JBool false)].

(** A child that, for every request, prints a malformed line, a
    notification and a response to another request before the response to
    the request itself. *)
Definition noisy : Process :=
  {| p_stdin := []; p_accepts := fun _ => true;
     p_replies := fun i =>
       [ (0%nat, Malformed);
         (1%nat, Parsed {| m_id := None; m_error := None; m_result := None |});
         (1%nat, Sample.reply (i + 7) Sample.ok_result);
         (2%nat, Sample.reply i (text_result "pong")) ];
     p_terminated := false |}.

Definition noisy_client : MCPClient :=
  {| command := "server"; args := []; process := Some noisy;
     request_id := 2; pending_requests := ∅;
     tools := JArr [Sample.echo_tool];
     is_connected := true; reader := true |}.

Definition noisy_registry : Registry.ToolRegistry unit :=
  {| Registry.tools := [];
     Registry.mcp_clients := [Sample.offline_client; noisy_client] |}.

(** A child that answers every request at once, with a null under
    [tools]. *)
Definition null_tools : Process :=
  {| p_stdin := []; p_accepts := fun _ => true;
     p_replies := fun i =>
       [(0%nat, Sample.reply i (JObj [("tools", JNull)]))];
     p_terminated := false |}.

(** A child that answers every request at once with a content list whose
    only item has a text and no type. *)
Definition untyped : Process :=
  {| p_stdin := []; p_accepts := fun _ => true;
     p_replies := fun i =>
       [(0%nat,
         Sample.reply i
           (JObj [("content", JArr [JObj [("text", JStr "pong")]])]))];
     p_terminated := false |}.

Definition untyped_registry : Registry.ToolRegistry nat :=
  {| Registry.tools := [];
     Registry.mcp_clients :=
       [ {| command := "server"; args := []; process := Some untyped;
            request_id := 2; pending_requests := ∅;
            tools := JArr [Sample.echo_tool];
            is_connected := true; reader := true |} ] |}.

Definition echo_call : Chat.function_call :=
  {| Chat.fc_name := "echo"; Chat.fc_args := Some (JObj []) |}.

(** A backend that asks for [echo] at its first call and answers in text
    afterwards; its state is the number of calls made. *)
Definition asker (p : Chat.payload) (k : nat)
  : raising Chat.response * nat :=
  (Value (if Nat.eqb k 0
          then {| Chat.success := true; Chat.text := "";
                  Chat.function_calls := [echo_call];
                  Chat.thought_signature := None; Chat.error := None |}
          else {| Chat.success := true; Chat.text := "done";
                  Chat.function_calls := [];
                  Chat.thought_signature := None; Chat.error := None |}),
   S k).

(** A session over that registry, with safe mode off. *)
Definition remote_chat
  : Chat.run (nat * Registry.ToolRegistry nat * Registry.world nat) :=
  {| Chat.session := Chat.init "gemini-3-pro-preview" None;
     Chat.outside := (0%nat, untyped_registry, Sample.typist "y");
     Chat.streamed := []; Chat.model_calls := 0 |}.



Definition hello : list Client.sse_line :=
  [ Client.Blank;
    Client.Event (Some [ {| Client.sp_text := Some "Hel";
                            Client.sp_functionCall := None;
                            Client.sp_thoughtSignature := Some "s1" |} ]);
    Client.BadJson; Client.NotData;
    Client.Event None;
    Client.Event (Some [ {| Client.sp_text := Some "lo";
                            Client.sp_functionCall := Some Sample.ls_call;
                            Client.sp_thoughtSignature := Some "s2" |} ]) ].

(** A server on which onboarding is done at the third poll. *)
Definition slow_server : Onboarding.server :=
  {| Onboarding.load :=
       Some {| Onboarding.status_code := 200;
               Onboarding.json :=
                 Some {| Onboarding.currentTier := None;
                         Onboarding.cloudaicompanionProject := None;
                         Onboarding.allowedTiers :=
                           [ {| Onboarding.isDefault := false;
                                Onboarding.tier_id := Some "PAID" |};
                             {| Onboarding.isDefault := true;
                                Onboarding.tier_id := None |} ] |} |};
     Onboarding.onboard := fun k =>
       Some {| Onboarding.status_code := 200;
               Onboarding.json :=
                 Some {| Onboarding.done := Nat.leb 3 k;
                         Onboarding.response_project := Some "p-1" |} |} |}.

Definition slow_data : Onboarding.load_data :=
  {| Onboarding.currentTier := None;
     Onboarding.cloudaicompanionProject := None;
     Onboarding.allowedTiers :=
       [ {| Onboarding.isDefault := false;
            Onboarding.tier_id := Some "PAID" |};
         {| Onboarding.isDefault := true; Onboarding.tier_id := None |} ] |}.

Definition slow_answers (k : nat) : Onboarding.lro_data :=
  {| Onboarding.done := Nat.leb 3 k;
     Onboarding.response_project := Some "p-1" |}.

(** A server on which onboarding is never done. *)
Definition stuck_answers (k : nat) : Onboarding.lro_data :=
  {| Onboarding.done := false; Onboarding.response_project := None |}.

Definition stuck_server : Onboarding.server :=
  {| Onboarding.load :=
       Some {| Onboarding.status_code := 200;
               Onboarding.json := Some slow_data |};
     Onboarding.onboard := fun k => Onboarding.went_through (stuck_answers k) |}.

Definition new_user : Onboarding.GeminiClient :=
  {| Onboarding.auth_mode := "oauth"; Onboarding.project_id := None;
     Onboarding.user_tier := None; Onboarding.session_setup := false |}.

End Cases.

(** * Properties *)

(** * Properties *)

(** ** The MCP client *)
Module MCPFacts.
Import MCP Lifetime Reader.

Ltac by_cases_of_send_request :=
  unfold send_request;
  destruct (stdin_write _ _) as [[|] ?p'] eqn:?Hw; cbn; [|done];
  destruct (queue_get _ _ _ _ _) as [[[[?response|] ?pend] ?t] ?running]
    eqn:?Hq; cbn; [|done];
  destruct (m_error _); done.

Lemma send_request_id c method params :
  req_id (fst (send_request c method params)) = request_id c + 1
  /\ request_id (snd (send_request c method params)) = request_id c + 1.
Proof. by_cases_of_send_request. Qed.

Lemma send_request_is_connected c method params :
  is_connected (snd (send_request c method params)) = is_connected c.
Proof. by_cases_of_send_request. Qed.

Lemma send_request_tools c method params :
  tools (snd (send_request c method params)) = tools c.
Proof. by_cases_of_send_request. Qed.

Lemma send_request_process c method params :
  process (snd (send_request c method params))
  = snd (stdin_write (process c)
           (Request (request_id c + 1) method (or_empty_dict params))).
Proof.
  unfold send_request. cbn.
  destruct (stdin_write (process c) _) as [[|] p'] eqn:Hw; cbn.
  - destruct (queue_get _ _ _ _ _) as [[[[response|] pend] t] running]; cbn;
      [|done].
    by destruct (m_error response).
  - unfold stdin_write in Hw. destruct (process c) as [pr|]; [|congruence].
    destruct (p_accepts pr _); congruence.
Qed.

Lemma send_notification_request_id c method params :
  request_id (send_notification c method params) = request_id c.
Proof. done. Qed.

(** [_refresh_tools] is one request, after which only the tool list may
    change. *)
Lemma refresh_tools_request c :
  let '(s, raised, c') := _refresh_tools c in
  exists c1, send_request c "tools/list" None = (s, c1)
    /\ (c' = c1 \/ exists ts, c' = set_tools ts c1).
Proof.
  unfold _refresh_tools.
  destruct (send_request c "tools/list" None) as [s c1].
  destruct (ret s) as [result|]; [|by eauto].
  destruct (json_truthy result); [|by eauto].
  destruct (Py.contains "tools" result) as [[|]|e]; [|by eauto..].
  destruct (Py.getitem result "tools") as [ts|e]; [|by eauto].
  destruct (Py.len ts); eauto.
Qed.

Lemma refresh_tools_id c :
  let '(s, raised, c') := _refresh_tools c in
  req_id s = request_id c + 1 /\ request_id c' = request_id c + 1.
Proof.
  pose proof (refresh_tools_request c) as H.
  pose proof (send_request_id c "tools/list" None) as [H1 H2].
  destruct (_refresh_tools c) as [[s raised] c'].
  destruct H as (c1 & Hs & Hc). rewrite Hs in H1, H2. cbn in H1, H2.
  by destruct Hc as [->|[ts ->]].
Qed.

Lemma refresh_tools_is_connected c :
  let '(s, raised, c') := _refresh_tools c in
  is_connected c' = is_connected c.
Proof.
  pose proof (refresh_tools_request c) as H.
  pose proof (send_request_is_connected c "tools/list" None) as H1.
  destruct (_refresh_tools c) as [[s raised] c'].
  destruct H as (c1 & Hs & Hc). rewrite Hs in H1. cbn in H1.
  by destruct Hc as [->|[ts ->]].
Qed.

Lemma refresh_tools_process c :
  let '(s, raised, c') := _refresh_tools c in
  process c'
  = snd (stdin_write (process c)
           (Request (request_id c + 1) "tools/list" (JObj []))).
Proof.
  pose proof (refresh_tools_request c) as H.
  pose proof (send_request_process c "tools/list" None) as H1.
  destruct (_refresh_tools c) as [[s raised] c'].
  destruct H as (c1 & Hs & Hc). rewrite Hs in H1. cbn in H1.
  by destruct Hc as [->|[ts ->]].
Qed.

(** The tool list after [_refresh_tools]: what the result holds under
    [tools] when it is a dict with that key, and what it was otherwise. *)
Lemma refresh_tools_tools c :
  let '(s, raised, c') := _refresh_tools c in
  tools c' = match ret s with
             | Some (JObj fields) =>
                 default (tools c) (dict_get "tools" fields)
             | _ => tools c
             end.
Proof.
  unfold _refresh_tools.
  pose proof (send_request_tools c "tools/list" None) as H.
  destruct (send_request c "tools/list" None) as [s c1]. cbn in H.
  destruct (ret s) as [result|] eqn:Hr; cbn; [|by rewrite Hr].
  destruct result as [|b|n|str|items|fields]; cbn.
  - by rewrite Hr.
  - destruct b; cbn; by rewrite Hr.
  - destruct (n =? 0); cbn; by rewrite Hr.
  - destruct (String.eqb str ""); cbn; [by rewrite Hr|].
    destruct (Py.occurs _ _); cbn; by rewrite Hr.
  - destruct items; cbn; [by rewrite Hr|].
    destruct (_ || _); cbn; by rewrite Hr.
  - destruct fields as [|kv fields]; cbn -[dict_get]; [by rewrite Hr|].
    destruct (dict_get "tools" (kv :: fields)) as [ts|] eqn:Hd; cbn;
      [|by rewrite Hr, Hd].
    destruct (Py.len ts); cbn; by rewrite Hr, Hd.
Qed.

(** [_refresh_tools] raises exactly on an ill-shaped result. *)
Lemma refresh_tools_raises c :
  let '(s, raised, c') := _refresh_tools c in
  raised = None
  <-> forall result, ret s = Some result -> ill_shaped result = false.
Proof.
  unfold _refresh_tools.
  destruct (send_request c "tools/list" None) as [s c1].
  assert (forall (x : json) (P : Prop),
            (P <-> ill_shaped x = false) ->
            (P <-> forall r, Some x = Some r -> ill_shaped r = false))
    as Hone.
  { intros x P H. rewrite H. split; [by intros ? ? [= <-]|eauto]. }
  destruct (ret s) as [result|] eqn:Hr; cbn; [|by rewrite Hr].
  destruct result as [|b|n|str|items|fields]; cbn.
  - rewrite Hr. by apply Hone.
  - destruct b; cbn; rewrite Hr; by apply Hone.
  - destruct (n =? 0) eqn:Hn; cbn; rewrite Hr; apply Hone; cbn;
      by rewrite Hn.
  - destruct (String.eqb str "") eqn:He; cbn.
    + rewrite Hr. apply Hone. by apply String.eqb_eq in He as ->.
    + destruct (Py.occurs "tools" str) eqn:Ho; cbn; rewrite Hr; apply Hone;
        cbn; by rewrite Ho.
  - destruct items as [|i items]; cbn; [rewrite Hr; by apply Hone|].
    destruct (_ || _) eqn:Ho; cbn; rewrite Hr; apply Hone; cbn;
      by rewrite Ho.
  - destruct fields as [|kv fields]; cbn -[dict_get];
      [rewrite Hr; by apply Hone|].
    destruct (dict_get "tools" (kv :: fields)) as [ts|] eqn:Hd; cbn;
      [|rewrite Hr; apply Hone; unfold ill_shaped; by rewrite Hd].
    destruct ts; cbn; rewrite Hr; apply Hone; unfold ill_shaped;
      by rewrite Hd.
Qed.

(** A call assigns the ids that follow the client's counter, one by one,
    and leaves the counter at the last of them. *)
Lemma step_ids o c :
  request_id (snd (step o c))
    = request_id c + Z.of_nat (length (fst (step o c)))
  /\ forall i s, fst (step o c) !! i = Some s ->
                req_id s = request_id c + Z.of_nat i + 1.
Proof.
  destruct o as [spawn|method params|method params| |name arguments|]; cbn.
  - unfold connect. destruct spawn as [pr|]; cbn.
    2:{ split; [lia|]. intros i s H. by destruct i. }
    pose proof (send_request_id (started pr c) "initialize"
                  (Some initialize_params)) as [H1 H2].
    destruct (send_request _ "initialize" _) as [s1 c2]; cbn in *.
    destruct (truthy (ret s1)); cbn.
    + pose proof (refresh_tools_id
                    (set_is_connected true
                       (send_notification c2 "notifications/initialized"
                          None))) as H3.
      destruct (_refresh_tools _) as [[s2 raised] c5]; cbn in *.
      destruct H3 as [H3 H4].
      assert (request_id c5 = request_id c + 2
              /\ forall i s, [s1; s2] !! i = Some s ->
                             req_id s = request_id c + Z.of_nat i + 1)
        as [? ?].
      { split; [lia|]. intros [|[|i]] s H; simplify_eq/=; lia. }
      destruct raised; cbn; split; done || lia.
    + split; [lia|]. intros [|i] s H; simplify_eq/=; lia.
  - pose proof (send_request_id c method params) as [H1 H2].
    destruct (send_request c method params) as [s c']; cbn in *.
    split; [lia|]. intros [|i] s' H; simplify_eq/=; lia.
  - split; [lia|]. intros i s H. by destruct i.
  - pose proof (refresh_tools_id c) as H1.
    destruct (_refresh_tools c) as [[s raised] c']; cbn in *.
    destruct H1 as [H1 H2].
    split; [lia|]. intros [|i] s' H; simplify_eq/=; lia.
  - unfold call_tool.
    pose proof (send_request_id c "tools/call"
                  (Some (JObj [("name", JStr name);
                               ("arguments", arguments)]))) as [H1 H2].
    destruct (send_request c "tools/call" _) as [s c']; cbn in *.
    split; [lia|]. intros [|i] s' H; simplify_eq/=; lia.
  - split.
    + unfold close. destruct (process c); cbn; lia.
    + intros i s H. by destruct i.
Qed.

Lemma run_ids ops : forall c,
  request_id (snd (run ops c))
    = request_id c + Z.of_nat (length (fst (run ops c)))
  /\ forall i s, fst (run ops c) !! i = Some s ->
                req_id s = request_id c + Z.of_nat i + 1.
Proof.
  induction ops as [|o rest IH]; intros c; cbn.
  - split; [lia|]. intros i s H. by destruct i.
  - pose proof (step_ids o c) as [Hc Hs].
    destruct (step o c) as [ss c1]; cbn in *.
    pose proof (IH c1) as [Hc' Hs'].
    destruct (run rest c1) as [ss' c2]; cbn in *.
    split.
    + rewrite length_app. lia.
    + intros i s H. apply lookup_app_Some in H as [H|[Hle H]].
      * by apply Hs.
      * apply Hs' in H. lia.
Qed.

Lemma ids_lookup ops c i x :
  ids ops c !! i = Some x -> x = request_id c + Z.of_nat i + 1.
Proof.
  unfold ids. rewrite list_lookup_fmap.
  destruct (fst (run ops c) !! i) as [s|] eqn:H; [|done].
  intros [= <-]. by apply (run_ids ops c).
Qed.

(** C5. On one client object, whatever sequence of calls is made on it
    (requests, notifications, tool calls, closing, and connecting again),
    the request ids assigned are 1, 2, 3, ... in order: they start at 1,
    increase strictly and none is used twice. *)
Theorem request_ids_strictly_increasing cmd a ops :
  let l := ids ops (init cmd a) in
  (forall i x, l !! i = Some x -> x = Z.of_nat i + 1)
  /\ (forall i j x y, l !! i = Some x -> l !! j = Some y ->
                      (i < j)%nat -> x < y)
  /\ NoDup l.
Proof.
  intros l.
  assert (Hl : forall i x, l !! i = Some x -> x = Z.of_nat i + 1).
  { intros i x H. apply ids_lookup in H. cbn in H. lia. }
  split; [done|]. split.
  - intros i j x y Hi Hj Hlt. apply Hl in Hi, Hj. lia.
  - apply NoDup_alt. intros i j x Hi Hj. apply Hl in Hi, Hj. lia.
Qed.

(** *** The pending table *)

Lemma read_line_dom l (pend pend' : gmap Z (list message)) i :
  read_line l pend = Some pend' ->
  is_Some (pend' !! i) <-> is_Some (pend !! i).
Proof.
  destruct l as [|m|]; cbn; [by intros [= <-]| |done].
  destruct (m_id m) as [j|]; [|by intros [= <-]].
  destruct (pend !! j) as [q|] eqn:Hj; intros [= <-]; [|done].
  destruct (decide (j = i)) as [->|Hne].
  - rewrite lookup_insert_eq, Hj. split; eauto.
  - by rewrite lookup_insert_ne.
Qed.

Lemma read_line_other l (pend pend' : gmap Z (list message)) i :
  (forall m, l = Parsed m -> m_id m <> Some i) ->
  read_line l pend = Some pend' ->
  pend' !! i = pend !! i.
Proof.
  intros H. destruct l as [|m|]; cbn; [by intros [= <-]| |done].
  destruct (m_id m) as [j|] eqn:Hm; [|by intros [= <-]].
  destruct (pend !! j) as [q|]; intros [= <-]; [|done].
  rewrite lookup_insert_ne; [done|]. intros ->. by apply (H m).
Qed.

(** The wait never lasts longer than its timeout. *)
Lemma queue_get_bounded timeout arrivals rid : forall pend running,
  (snd (fst (queue_get timeout arrivals rid pend running)) <= timeout)%nat.
Proof.
  induction arrivals as [|[t l] rest IH]; intros pend running; cbn; [lia|].
  destruct running; cbn; [|lia].
  destruct (t <=? timeout)%nat eqn:Ht; cbn; [|lia].
  apply Nat.leb_le in Ht.
  destruct (read_line l pend) as [pend'|]; cbn; [|lia].
  destruct (pend' !! rid) as [[|m q]|]; cbn; auto.
Qed.

(** A wait that ends with [queue.Empty] leaves the queue of the request
    where it was, empty and still in the table. *)
Lemma queue_get_empty timeout arrivals rid : forall pend running pend' t r',
  pend !! rid = Some [] ->
  queue_get timeout arrivals rid pend running = (None, pend', t, r') ->
  pend' !! rid = Some [] /\ t = timeout.
Proof.
  induction arrivals as [|[t0 l] rest IH]; intros pend running pend' t r' Hp;
    cbn.
  - by intros [= <- <- <-].
  - destruct running; cbn; [|by intros [= <- <- <-]].
    destruct (t0 <=? timeout)%nat; [|by intros [= <- <- <-]].
    destruct (read_line l pend) as [pend1|] eqn:Hl; [|by intros [= <- <- <-]].
    destruct (pend1 !! rid) as [[|m q]|] eqn:Hr; [|done|].
    + by apply IH.
    + assert (is_Some (pend1 !! rid)) as [x Hx]
        by (apply (read_line_dom l pend pend1 rid Hl); eauto).
      congruence.
Qed.

(** When the child prints nothing that bears the id of the request, the
    wait ends with [queue.Empty] after the whole timeout. *)
Lemma queue_get_uncorrelated timeout arrivals rid : forall pend running,
  pend !! rid = Some [] ->
  (forall t m, (t, Parsed m) ∈ arrivals -> m_id m <> Some rid) ->
  exists pend' r',
    queue_get timeout arrivals rid pend running = (None, pend', timeout, r').
Proof.
  induction arrivals as [|[t0 l] rest IH]; intros pend running Hp Hun; cbn.
  - eauto.
  - destruct running; cbn; [|eauto].
    destruct (t0 <=? timeout)%nat; [|eauto].
    destruct (read_line l pend) as [pend1|] eqn:Hl; [|eauto].
    assert (pend1 !! rid = Some []) as Hp1.
    { rewrite (read_line_other l pend pend1 rid); [done| |done].
      intros m ->. apply (Hun t0). left. }
    rewrite Hp1. apply IH; [done|].
    intros t m Hin. apply (Hun t). by right.
Qed.

(** What [send_request] leaves in the table for the id it assigned: nothing
    after a response, the empty queue after a failed write and after a
    timeout. *)
Lemma send_request_pending c method params :
  let '(s, c') := send_request c method params in
  match how s with
  | Responded _ => pending_requests c' !! req_id s = None
  | WriteFailed | TimedOut => pending_requests c' !! req_id s = Some []
  end.
Proof.
  unfold send_request.
  destruct (stdin_write _ _) as [[|] p'] eqn:Hw; cbn.
  2:{ by rewrite lookup_insert_eq. }
  destruct (queue_get _ _ _ _ _) as [[[[response|] pend] t] running] eqn:Hq;
    cbn.
  - destruct (m_error response); cbn; by rewrite lookup_delete_eq.
  - apply queue_get_empty in Hq as [Hq _]; [done|].
    by rewrite lookup_insert_eq.
Qed.

Lemma send_request_waited c method params :
  (waited (fst (send_request c method params)) <= 10)%nat.
Proof.
  unfold send_request.
  destruct (stdin_write _ _) as [[|] p'] eqn:Hw; cbn; [|lia].
  match goal with
  | |- context [queue_get ?a ?b ?c ?d ?e] =>
      pose proof (queue_get_bounded a b c d e) as Hb;
      destruct (queue_get a b c d e) as [[[[response|] pend] t] running]
  end; cbn in *; [destruct (m_error response)|]; cbn; lia.
Qed.

(** A request that is written and that the child never answers ends on the
    timeout: it returns [None] after the full ten seconds, and the client
    keeps its flag and its process, whose stdin has taken the request. *)
Lemma send_request_unanswered c method params pr :
  process c = Some pr ->
  p_accepts pr (Request (request_id c + 1) method (or_empty_dict params))
    = true ->
  (forall t m, (t, Parsed m) ∈ p_replies pr (request_id c + 1) ->
               m_id m <> Some (request_id c + 1)) ->
  let '(s, c') := send_request c method params in
  how s = TimedOut /\ waited s = 10%nat /\ ret s = None
  /\ is_connected c' = is_connected c /\ tools c' = tools c
  /\ exists pr', process c' = Some pr'
                 /\ p_terminated pr' = p_terminated pr.
Proof.
  intros Hp Ha Hun. unfold send_request. cbn. rewrite Hp. cbn.
  rewrite Ha. cbn.
  edestruct (queue_get_uncorrelated 10 (p_replies pr (request_id c + 1))
               (request_id c + 1)) as (pend' & r' & ->); [|exact Hun|].
  { apply lookup_insert_eq. }
  cbn. repeat split; try done. eauto.
Qed.

(** C4. A request to a child that stays silent: the call ends on the
    timeout and returns [None], and the queue registered under its id
    (3 here) is still in [pending_requests] afterwards. *)
Theorem timeout_keeps_pending_entry :
  let '(s, c') := send_request Sample.quiet_client "tools/call" None in
  how s = TimedOut /\ ret s = None /\ req_id s = 3
  /\ pending_requests c' !! 3 = Some [].
Proof.
  pose proof (send_request_pending Sample.quiet_client "tools/call" None)
    as H.
  destruct (send_request Sample.quiet_client "tools/call" None)
    as [s c'] eqn:Hs.
  assert (how s = TimedOut /\ ret s = None /\ req_id s = 3) as (H1 & H2 & H3).
  { apply (f_equal fst) in Hs. cbn in Hs. subst s.
    vm_compute. done. }
  rewrite H1, H3 in H. done.
Qed.

(** *** The handshake *)

(** A request that returns something has been written. *)
Lemma send_request_written c method params :
  ret (fst (send_request c method params)) <> None ->
  exists pr, process c = Some pr
    /\ p_accepts pr (Request (request_id c + 1) method (or_empty_dict params))
       = true.
Proof.
  unfold send_request. cbn.
  destruct (process c) as [pr|]; cbn; [|done].
  destruct (p_accepts pr _) eqn:Ha; cbn; [|done].
  intros _. by exists pr.
Qed.

(** Writing one more line to a child that has been fed some. *)
Lemma stdin_write_fed ms pr m :
  snd (stdin_write (Some (fed ms pr)) m)
  = Some (fed (ms ++ (if p_accepts pr m then [m] else [])) pr).
Proof.
  unfold stdin_write, fed. cbn.
  destruct (p_accepts pr m); cbn.
  - by rewrite <- app_assoc.
  - by rewrite app_nil_r.
Qed.

(** C7, as stated, fails: the child answers [initialize] and
    never answers [tools/list]; [connect] returns [True], the client is
    connected, and no tool has been discovered. *)
Lemma connected_before_discovery :
  let '(ok, ss, c') := connect Sample.fresh (Some Sample.answers_once) in
  ok = true /\ is_connected c' = true /\ tools c' = JArr []
  /\ how <$> ss !! 1%nat = Some TimedOut.
Proof. vm_compute. done. Qed.

(** C7, amended. A client that is not connected becomes connected in
    [connect] exactly when the process starts and the [initialize] request
    returns a truthy result; it is still not connected when that request
    returns.  [connect] returns [True] only for a client it has connected.
    When it connects the client, the child has been offered, in this order,
    the [initialize] request, the [notifications/initialized] notification
    and the [tools/list] request, and has on its stdin those of them that
    its pipe took; the flag is set, and the notification offered, before
    [tools/list] is requested: that request is made by [_refresh_tools] from
    a client that is connected already.  [connect] then returns [True]
    whenever the result of [tools/list] is not ill-shaped, also when there
    is none (failed write, timeout, error response); the tool list becomes
    what the result holds under [tools] if it is a dict with that key, and
    stays as it was otherwise. *)
Theorem connect_usable_after_initialize c spawn :
  is_connected c = false ->
  let '(ok, ss, c') := connect c spawn in
  (is_connected c' = true <->
     exists pr, spawn = Some pr
       /\ truthy (ret (fst (send_request (started pr c) "initialize"
                              (Some initialize_params)))) = true)
  /\ (forall pr, spawn = Some pr ->
        is_connected (snd (send_request (started pr c) "initialize"
                             (Some initialize_params))) = false)
  /\ (ok = true -> is_connected c' = true)
  /\ (is_connected c' = true ->
      exists pr c4 s1 s2 raised,
        spawn = Some pr /\ ss = [s1; s2]
        /\ is_connected c4 = true /\ tools c4 = tools c
        /\ process c4
           = Some (fed (List.filter (p_accepts pr)
                          (take 2 (handshake (request_id c)))) pr)
        /\ _refresh_tools c4 = (s2, raised, c')
        /\ process c'
           = Some (fed (List.filter (p_accepts pr) (handshake (request_id c)))
                       pr)
        /\ ((forall result, ret s2 = Some result -> ill_shaped result = false)
            -> ok = true)
        /\ tools c' = match ret s2 with
                      | Some (JObj fields) =>
                          default (tools c) (dict_get "tools" fields)
                      | _ => tools c
                      end).
Proof.
  intros Hc. unfold connect. destruct spawn as [pr|].
  2:{ repeat split; try done; try congruence. by intros (pr & ? & _). }
  pose proof (send_request_is_connected (started pr c)
                "initialize" (Some initialize_params)) as Hi.
  pose proof (send_request_tools (started pr c)
                "initialize" (Some initialize_params)) as Ht.
  pose proof (send_request_process (started pr c)
                "initialize" (Some initialize_params)) as Hp.
  pose proof (send_request_id (started pr c)
                "initialize" (Some initialize_params)) as [_ Hid].
  pose proof (send_request_written (started pr c)
                "initialize" (Some initialize_params)) as Hw.
  destruct (send_request _ "initialize" _) as [s1 c2] eqn:Hs.
  cbn in Hi, Ht, Hp, Hid, Hw.
  destruct (truthy (ret s1)) eqn:Htr.
  - set (c4 := set_is_connected true
                 (send_notification c2 "notifications/initialized" None)).
    pose proof (refresh_tools_is_connected c4) as Hr.
    pose proof (refresh_tools_tools c4) as Hrt.
    pose proof (refresh_tools_process c4) as Hrp.
    pose proof (refresh_tools_raises c4) as Hrr.
    destruct (_refresh_tools c4) as [[s2 raised] c5] eqn:Hrf.
    cbv beta iota zeta in Hr, Hrt, Hrp, Hrr.
    destruct Hw as (pr' & [= <-] & Ha).
    { destruct (ret s1); done. }
    rewrite Ha in Hp. cbn in Hp.
    assert (process c4
            = Some (fed (List.filter (p_accepts pr)
                           (take 2 (handshake (request_id c)))) pr)) as Hp4.
    { cbn. rewrite Hp. cbn. rewrite Ha.
      destruct (p_accepts pr (Notification _ _)); cbn; [|done].
      unfold fed. cbn. by rewrite <- app_assoc. }
    assert (process c5
            = Some (fed (List.filter (p_accepts pr)
                           (handshake (request_id c))) pr)) as Hp5.
    { rewrite Hrp, Hp4. cbn. rewrite Ha, Hid.
      replace (request_id c + 1 + 1) with (request_id c + 2) by lia.
      destruct (p_accepts pr (Notification _ _));
        destruct (p_accepts pr (Request (request_id c + 2) _ _));
        unfold fed; cbn; by rewrite <- ?app_assoc. }
    assert (is_connected c5 = true /\
            (is_connected c5 = true ->
             exists pr0 c6 s3 s4 raised0,
               Some pr = Some pr0 /\ [s1; s2] = [s3; s4]
               /\ is_connected c6 = true /\ tools c6 = tools c
               /\ process c6
                  = Some (fed (List.filter (p_accepts pr0)
                                 (take 2 (handshake (request_id c)))) pr0)
               /\ _refresh_tools c6 = (s4, raised0, c5)
               /\ process c5
                  = Some (fed (List.filter (p_accepts pr0)
                                 (handshake (request_id c))) pr0)
               /\ tools c5 = match ret s4 with
                             | Some (JObj fields) =>
                                 default (tools c) (dict_get "tools" fields)
                             | _ => tools c
                             end)) as [Hc5 Hall].
    { split; [done|]. intros _.
      exists pr, c4, s1, s2, raised. repeat split; try done.
      rewrite Hrt. cbn. by rewrite Ht. }
    destruct Hall as (pr0 & c6 & s3 & s4 & raised0 & E1 & E2 & E3 & E4 & E5
                      & E6 & E7 & E8); [done|].
    assert (truthy (ret (fst (send_request (started pr c) "initialize"
                                (Some initialize_params)))) = true) as Htr'.
    { by rewrite Hs. }
    assert (is_connected (snd (send_request (started pr c) "initialize"
                                 (Some initialize_params))) = false) as Hnot.
    { rewrite Hs. cbn. congruence. }
    destruct raised as [e|].
    + repeat split; try done.
      * intros _. by exists pr.
      * by intros pr1 [= <-].
      * intros _. exists pr0, c6, s3, s4, raised0. repeat split; try done.
        intros Hok. simplify_eq. by apply Hrr in Hok.
    + repeat split; try done.
      * intros _. by exists pr.
      * by intros pr1 [= <-].
      * intros _. exists pr0, c6, s3, s4, raised0. by repeat split.
  - assert (is_connected c2 = false) as Hc2 by (cbn in Hi; congruence).
    repeat split; try done; try congruence.
    + intros (pr' & [= <-] & H). rewrite Hs in H. cbn in H. congruence.
    + intros pr' [= <-]. by rewrite Hs.
Qed.

Lemma connect_usable_after_initialize_witness :
  is_connected Sample.fresh = false
  /\ let '(ok, ss, c') := connect Sample.fresh (Some Sample.prompt_server) in
     (is_connected c' = true <->
        exists pr, Some Sample.prompt_server = Some pr
          /\ truthy (ret (fst (send_request (started pr Sample.fresh)
                                 "initialize" (Some initialize_params))))
             = true)
     /\ (forall pr, Some Sample.prompt_server = Some pr ->
           is_connected (snd (send_request (started pr Sample.fresh)
                                "initialize" (Some initialize_params)))
           = false)
     /\ (ok = true -> is_connected c' = true)
     /\ (is_connected c' = true ->
         exists pr c4 s1 s2 raised,
           Some Sample.prompt_server = Some pr /\ ss = [s1; s2]
           /\ is_connected c4 = true /\ tools c4 = tools Sample.fresh
           /\ process c4
              = Some (fed (List.filter (p_accepts pr)
                             (take 2 (handshake (request_id Sample.fresh))))
                          pr)
           /\ _refresh_tools c4 = (s2, raised, c')
           /\ process c'
              = Some (fed (List.filter (p_accepts pr)
                             (handshake (request_id Sample.fresh))) pr)
           /\ ((forall result, ret s2 = Some result ->
                               ill_shaped result = false)
               -> ok = true)
           /\ tools c' = match ret s2 with
                         | Some (JObj fields) =>
                             default (tools Sample.fresh)
                                     (dict_get "tools" fields)
                         | _ => tools Sample.fresh
                         end).
Proof.
  split; [reflexivity|].
  apply (connect_usable_after_initialize Sample.fresh
           (Some Sample.prompt_server)).
  reflexivity.
Defined.

End MCPFacts.

(** ** The tool registry *)
Module RegistryFacts.
Import Registry.

Section WithLocalState.

Context {FS : Type}.
Variable py_repr : MCP.result_obj -> string.

Implicit Types (r : ToolRegistry FS) (w : world FS).

(** The loop over the clients goes past a client that is not connected and
    past one that does not list the tool. *)
Lemma execute_mcp_pass safe_mode client rest tool_name arguments i w :
  passes tool_name client ->
  execute_mcp py_repr safe_mode i (client :: rest) tool_name arguments w
  = (let '(res, rest', w') :=
       execute_mcp py_repr safe_mode (S i) rest tool_name arguments w in
     (res, client :: rest', w')).
Proof.
  intros [Hc|Hs]; cbn.
  - by rewrite Hc.
  - rewrite Hs. by destruct (MCP.is_connected client).
Qed.

Lemma scan_cases client tool_name :
  passes tool_name client
  \/ (MCP.is_connected client = true
      /\ (provides client tool_name = true
          \/ exists e, scan client tool_name = Broken e)).
Proof.
  unfold passes, provides.
  destruct (MCP.is_connected client); [|by left; left].
  destruct (scan client tool_name) as [| |e].
  - right. split; [done|]. by left.
  - left. by right.
  - right. split; [done|]. right. by exists e.
Qed.

(** The four ways the loop over the clients ends: it falls through and
    touches nothing; the user refuses; the first connected client that
    lists the tool is called, after consent under safe mode; or reading the
    tool list of a connected client raises. *)
Lemma execute_mcp_cases safe_mode clients tool_name arguments : forall i w,
  (execute_mcp py_repr safe_mode i clients tool_name arguments w
     = (None, clients, w)
   /\ Forall (passes tool_name) clients)
  \/ (safe_mode = true
      /\ affirmative (stdin w (asked w)) = false
      /\ execute_mcp py_repr safe_mode i clients tool_name arguments w
         = (Some (Value user_denied), clients, snd (ask tool_name w))
      /\ ~ Forall (passes tool_name) clients)
  \/ (exists pre client post,
        clients = pre ++ client :: post
        /\ Forall (passes tool_name) pre
        /\ MCP.is_connected client = true
        /\ provides client tool_name = true
        /\ (safe_mode = true -> affirmative (stdin w (asked w)) = true)
        /\ execute_mcp py_repr safe_mode i clients tool_name arguments w
           = (Some (mcp_result_text py_repr
                      (MCP.ret (fst (MCP.call_tool client tool_name
                                       arguments)))),
              pre ++ snd (MCP.call_tool client tool_name arguments) :: post,
              emit (RemoteCall (i + length pre) tool_name arguments)
                   (if safe_mode then snd (ask tool_name w) else w)))
  \/ (exists e,
        execute_mcp py_repr safe_mode i clients tool_name arguments w
        = (Some (Raise e), clients, w)
        /\ ~ Forall (passes tool_name) clients).
Proof.
  induction clients as [|client rest IH]; intros i w.
  - left. split; [done|]. constructor.
  - destruct (scan_cases client tool_name) as [Hp|[Hc [Hf|[e He]]]].
    + rewrite (execute_mcp_pass _ _ _ _ _ _ _ Hp).
      destruct (IH (S i) w)
        as [[-> Hall]|[(Hs & Ha & -> & Hn)|[H|(e & -> & Hn)]]].
      * left. split; [done|]. by constructor.
      * right; left. repeat split; try done.
        intros H. apply Forall_cons in H as [_ H]. done.
      * right; right; left.
        destruct H as (pre & c & post & -> & Hpre & Hc1 & Hc2 & Ha & ->).
        exists (client :: pre), c, post. cbn.
        rewrite Nat.add_succ_r. repeat split; try done; by constructor.
      * right; right; right. exists e. split; [done|].
        intros H. apply Forall_cons in H as [_ H]. done.
    + assert (Hnot : ~ Forall (passes tool_name) (client :: rest)).
      { intros H. apply Forall_cons in H as [[H|H] _]; [congruence|].
        unfold provides in Hf. by rewrite H in Hf. }
      assert (scan client tool_name = Found) as Hscan.
      { unfold provides in Hf. by destruct (scan client tool_name). }
      cbn. rewrite Hc, Hscan.
      destruct safe_mode; cbn.
      * destruct (affirmative (stdin w (asked w))) eqn:Ha.
        -- right; right; left. exists [], client, rest.
           destruct (MCP.call_tool client tool_name arguments)
             as [s client'].
           cbn. rewrite Nat.add_0_r. repeat split; try done; constructor.
        -- right; left. done.
      * right; right; left. exists [], client, rest.
        destruct (MCP.call_tool client tool_name arguments)
          as [s client'].
        cbn. rewrite Nat.add_0_r. repeat split; try done; constructor.
    + right; right; right. exists e. cbn. rewrite Hc, He. split; [done|].
      intros H. apply Forall_cons in H as [[H|H] _]; congruence.
Qed.


Lemma execute_mcp_hit safe_mode pre client post tool_name arguments :
  forall i w,
  Forall (passes tool_name) pre ->
  MCP.is_connected client = true ->
  provides client tool_name = true ->
  (safe_mode = true -> affirmative (stdin w (asked w)) = true) ->
  execute_mcp py_repr safe_mode i (pre ++ client :: post) tool_name
    arguments w
  = (Some (mcp_result_text py_repr
             (MCP.ret (fst (MCP.call_tool client tool_name arguments)))),
     pre ++ snd (MCP.call_tool client tool_name arguments) :: post,
     emit (RemoteCall (i + length pre) tool_name arguments)
          (if safe_mode then snd (ask tool_name w) else w)).
Proof.
  induction pre as [|c pre IH]; intros i w Hall Hc Hp Ha.
  - assert (scan client tool_name = Found) as Hscan.
    { unfold provides in Hp. by destruct (scan client tool_name). }
    cbn. rewrite Hc, Hscan. cbn. rewrite Nat.add_0_r.
    destruct safe_mode; cbn.
    + rewrite (Ha eq_refl).
      by destruct (MCP.call_tool client tool_name arguments).
    + by destruct (MCP.call_tool client tool_name arguments).
  - apply Forall_cons in Hall as [Hc0 Hall].
    rewrite <- app_comm_cons, (execute_mcp_pass _ _ _ _ _ _ _ Hc0).
    rewrite IH by done. cbn. by rewrite Nat.add_succ_r.
Qed.

Lemma registry_eta r :
  {| tools := tools r; mcp_clients := mcp_clients r |} = r.
Proof. by destruct r. Qed.

Local Ltac consent :=
  rewrite <- ?app_assoc; cbn;
  repeat match goal with
    | |- _ /\ _ => split
    | |- Forall _ _ => repeat constructor; done
    | |- _ -> _ => intros ?
    | H : [] <> [] |- _ => done
    | H : ~ Forall _ _ |- _ => exfalso; apply H; repeat constructor; done
    end; try done.

(** C3. Under safe mode, for a tool of the sensitive list and for every
    tool that is not local (so that only a remote client can serve it),
    what [execute] does is a series of confirmations followed by the
    calls it makes.  A call, local or remote, is made only when at least
    one confirmation was asked and every answer was affirmative; as soon
    as one answer is not, [execute] returns the user-denied text, calls
    nothing, and leaves the local state and every client as they
    were. *)
Theorem sensitive_tool_needs_consent r tool_name arguments w :
  is_sensitive tool_name = true \/ dict_get tool_name (tools r) = None ->
  let '(res, r', w') := execute py_repr true r tool_name arguments w in
  exists answers calls,
    log w' = log w ++ map (Confirm tool_name) answers ++ calls
    /\ Forall (fun e => is_call e = true) calls
    /\ (calls <> [] ->
        answers <> [] /\ Forall (fun a => affirmative a = true) answers)
    /\ (~ Forall (fun a => affirmative a = true) answers ->
        res = user_denied /\ calls = [] /\ fs w' = fs w /\ r' = r).
Proof.
  intros Hsens. unfold execute.
  destruct (is_sensitive tool_name) eqn:Hs; cbn [andb].
  - cbn [ask]. set (a0 := stdin w (asked w)).
    destruct (affirmative a0) eqn:Ha.
    + destruct (dict_get tool_name (tools r)) as [func|].
      * destruct (fn_call func arguments _) as [o fs'].
        destruct o; exists [a0], [LocalCall tool_name arguments];
          cbn; consent.
      * match goal with
        | |- context [execute_mcp _ _ _ _ _ _ ?w1] =>
            destruct (execute_mcp_cases true (mcp_clients r) tool_name
                        arguments 0%nat w1)
              as [[-> _]|[(_ & Ha1 & -> & _)|[H|(e & -> & _)]]]
        end.
        -- exists [a0], []. cbn. rewrite registry_eta, ?app_nil_r.
           consent.
        -- cbn in Ha1. cbn. rewrite registry_eta.
           exists [a0; stdin w (S (asked w))], []. cbn.
           rewrite <- app_assoc. consent.
        -- destruct H as (pre & c & post & _ & _ & _ & _ & Ha1 & ->).
           cbn in Ha1. cbn.
           exists [a0; stdin w (S (asked w))],
                  [RemoteCall (0 + length pre) tool_name arguments].
           cbn. rewrite <- !app_assoc. cbn. specialize (Ha1 eq_refl).
           consent.
        -- exists [a0], []. cbn. rewrite ?app_nil_r. consent.
    + exists [a0], []. cbn. consent.
  - destruct Hsens as [|Hnone]; [done|]. rewrite Hnone.
    destruct (execute_mcp_cases true (mcp_clients r) tool_name
                arguments 0%nat w)
      as [[-> _]|[(_ & Ha1 & -> & _)|[H|(e & -> & _)]]].
    + exists [], []. cbn. rewrite registry_eta, ?app_nil_r. consent.
    + cbn. rewrite registry_eta. exists [stdin w (asked w)], [].
      cbn. consent.
    + destruct H as (pre & c & post & _ & _ & _ & _ & Ha1 & ->).
      cbn. specialize (Ha1 eq_refl).
      exists [stdin w (asked w)],
             [RemoteCall (0 + length pre) tool_name arguments].
      cbn. rewrite <- !app_assoc. cbn. consent.
    + exists [], []. cbn. rewrite ?app_nil_r. consent.
Qed.

(** C6. A tool served by a connected client, called when the child
    prints nothing that bears the id of the request: the wait of
    [send_request] ends on the timeout after ten seconds and returns
    [None]; [execute] returns that outcome as it is, as text ("None");
    the client is still connected and still holds its process, which
    nothing has terminated.  Under safe mode the user has agreed to the
    call. *)
Theorem remote_timeout_passes_through safe_mode r tool_name arguments w
    pre client post pr :
  dict_get tool_name (tools r) = None ->
  mcp_clients r = pre ++ client :: post ->
  Forall (passes tool_name) pre ->
  MCP.is_connected client = true ->
  provides client tool_name = true ->
  MCP.process client = Some pr ->
  MCP.p_accepts pr
    (MCP.Request (MCP.request_id client + 1) "tools/call"
       (JObj [("name", JStr tool_name); ("arguments", arguments)]))
    = true ->
  (forall t m,
      (t, MCP.Parsed m) ∈ MCP.p_replies pr (MCP.request_id client + 1) ->
      MCP.m_id m <> Some (MCP.request_id client + 1)) ->
  (safe_mode = true -> forall k, affirmative (stdin w k) = true) ->
  let '(s, client') := MCP.call_tool client tool_name arguments in
  let '(res, r', w') := execute py_repr safe_mode r tool_name arguments w in
  MCP.how s = MCP.TimedOut /\ MCP.waited s = 10%nat /\ MCP.ret s = None
  /\ res = py_str py_repr (MCP.ret s) /\ res = "None"
  /\ mcp_clients r' = pre ++ client' :: post
  /\ MCP.is_connected client' = true
  /\ exists pr', MCP.process client' = Some pr'
                 /\ MCP.p_terminated pr' = MCP.p_terminated pr.
Proof.
  intros Hlocal Hcs Hpre Hconn Hprov Hproc Hacc Hun Hyes.
  pose proof (MCPFacts.send_request_unanswered client "tools/call"
                (Some (JObj [("name", JStr tool_name);
                             ("arguments", arguments)])) pr
                Hproc Hacc Hun) as Hsend.
  assert (Hexec :
    execute py_repr safe_mode r tool_name arguments w
    = (mcp_result_text py_repr
         (MCP.ret (fst (MCP.call_tool client tool_name arguments))),
       {| tools := tools r;
          mcp_clients :=
            pre ++ snd (MCP.call_tool client tool_name arguments)
                :: post |},
       snd (fst (execute py_repr safe_mode r tool_name arguments w),
            snd (execute py_repr safe_mode r tool_name arguments w)))).
  { unfold execute. rewrite Hlocal, Hcs.
    destruct (safe_mode && is_sensitive tool_name) eqn:Hgate.
    - apply andb_true_iff in Hgate as [-> _]. cbn [ask].
      rewrite (Hyes eq_refl).
      rewrite execute_mcp_hit; try done.
      cbn. intros _. apply (Hyes eq_refl).
    - rewrite execute_mcp_hit; try done.
      intros Hs. apply (Hyes Hs). }
  unfold MCP.call_tool in *.
  destruct (MCP.send_request client "tools/call" _) as [s client'].
  rewrite Hexec. cbn.
  destruct Hsend as (H1 & H2 & H3 & H4 & _ & H5).
  rewrite H3. cbn. repeat split; try done. congruence.
Qed.



End WithLocalState.

Example affirmative_answers :
  affirmative " Y " = true /\ affirmative "y" = true
  /\ affirmative "yes" = false /\ affirmative "" = false
  /\ affirmative "n" = false.
Proof. vm_compute. done. Qed.

(** C3 at a registry that holds a local [write_file], with a user who
    answers n. *)
Lemma sensitive_tool_needs_consent_witness :
  is_sensitive "write_file" = true
  /\ let '(res, r', w') :=
       execute Sample.repr true Sample.local_registry "write_file"
         (JObj [("filepath", JStr "a.txt"); ("content", JStr "x")])
         (Sample.typist "n") in
     exists answers calls,
       log w' = log (Sample.typist "n")
                ++ map (Confirm "write_file") answers ++ calls
       /\ Forall (fun e => is_call e = true) calls
       /\ (calls <> [] ->
           answers <> []
           /\ Forall (fun a => affirmative a = true) answers)
       /\ (~ Forall (fun a => affirmative a = true) answers ->
           res = user_denied /\ calls = []
           /\ fs w' = fs (Sample.typist "n")
           /\ r' = Sample.local_registry).
Proof.
  split; [reflexivity|].
  apply (sensitive_tool_needs_consent Sample.repr Sample.local_registry
           "write_file"
           (JObj [("filepath", JStr "a.txt"); ("content", JStr "x")])
           (Sample.typist "n")).
  left. reflexivity.
Defined.

(** C6 at a registry whose only client is connected to a silent child. *)
Lemma remote_timeout_passes_through_witness :
  let '(s, client') := MCP.call_tool Sample.quiet_client "echo" JNull in
  let '(res, r', w') :=
    execute Sample.repr true Sample.quiet_registry "echo" JNull
      (Sample.terminal "y") in
  MCP.how s = MCP.TimedOut /\ MCP.waited s = 10%nat /\ MCP.ret s = None
  /\ res = py_str Sample.repr (MCP.ret s) /\ res = "None"
  /\ mcp_clients r' = [] ++ client' :: []
  /\ MCP.is_connected client' = true
  /\ exists pr', MCP.process client' = Some pr'
                 /\ MCP.p_terminated pr'
                    = MCP.p_terminated Sample.silent.
Proof.
  apply (remote_timeout_passes_through Sample.repr true
           Sample.quiet_registry "echo" JNull (Sample.terminal "y")
           [] Sample.quiet_client [] Sample.silent);
    try reflexivity.
  - constructor.
  - intros t m H. cbn in H. inversion H.
Defined.


End RegistryFacts.

(** ** The conversation engine *)
Module ChatFacts.
Import Chat.

Lemma length_append (s1 s2 : string) :
  String.length (s1 +:+ s2) = (String.length s1 + String.length s2)%nat.
Proof.
  induction s1 as [|c s1 IH]; [done|].
  change (S (String.length (s1 +:+ s2))
          = S (String.length s1 + String.length s2)).
  by rewrite IH.
Qed.

Lemma length_slice_to n : forall s,
  String.length (PyStr.slice_to n s) = Nat.min n (String.length s).
Proof.
  induction n as [|n IH]; intros [|c s]; cbn; try done. by rewrite IH.
Qed.

Lemma all2_responds_to calls : forall (frs : list part),
  Forall2 (fun fc p => exists content,
               p = FunctionResponse (fc_name fc) content) calls frs ->
  all2 responds_to calls frs = true.
Proof.
  induction calls as [|fc calls IH]; intros frs H; inversion H; subst;
    cbn; [done|].
  match goal with Hx : exists _, _ |- _ => destruct Hx as [content ->] end.
  cbn. rewrite String.eqb_refl. cbn. by apply IH.
Qed.

(** A history that is answered stays so when an answered history is put
    after it. *)
Lemma answered_app h' : forall h,
  answered h = true -> answered (h ++ h') = answered h'.
Proof.
  intros h. remember (length h) as n eqn:Hn.
  revert h Hn. induction n as [n IH] using lt_wf_ind. intros h Hn Hh.
  destruct h as [|t rest]; [done|]. cbn in *.
  destruct (turn_role t); [apply (IH (length rest)); [lia|done|done]|].
  destruct (calls_of t); [apply (IH (length rest)); [lia|done|done]|].
  destruct rest as [|u rest']; [done|]. cbn in *.
  apply andb_true_iff in Hh as [-> Hh]. cbn.
  apply (IH (length rest')); [lia|done|done].
Qed.

Lemma preview_cases tool_result :
  (String.length (preview tool_result) <= 203)%nat
  /\ preview tool_result
     = if (String.length tool_result <=? 200)%nat then tool_result
       else PyStr.slice_to 200 tool_result +:+ "...".
Proof.
  unfold preview. split.
  - destruct (200 <? String.length tool_result)%nat eqn:Hlen.
    + rewrite length_append, length_slice_to.
      change (String.length "...") with 3%nat. lia.
    + apply Nat.ltb_ge in Hlen. lia.
  - destruct (String.length tool_result <=? 200)%nat eqn:Hle.
    + apply Nat.leb_le in Hle.
      by destruct (Nat.ltb_spec 200 (String.length tool_result)); [lia|].
    + apply Nat.leb_gt in Hle.
      by destruct (Nat.ltb_spec 200 (String.length tool_result)); [|lia].
Qed.

Section WithEnv.

Context {W : Type}.
Variable E : env W.
Variable stream_callback : option (string -> W -> W).

Implicit Types (st : run W) (r : response).

Lemma stream_frame s st :
  session (stream stream_callback s st) = session st
  /\ model_calls (stream stream_callback s st) = model_calls st.
Proof. unfold stream. by destruct stream_callback. Qed.

(** A model call changes neither the session nor what was streamed; it is
    counted when [_request_generate] is reached, which it is when the call
    returns. *)
Lemma generate_frame st :
  let '(a, st1) := _generate_with_history E st in
  session st1 = session st
  /\ streamed st1 = streamed st
  /\ (model_calls st1 = model_calls st \/ model_calls st1 = S (model_calls st))
  /\ forall r, a = Value r -> model_calls st1 = S (model_calls st).
Proof.
  unfold _generate_with_history.
  destruct (setup_user E (outside st)) as [[e|] w1]; cbn;
    [by repeat split; auto|].
  destruct (tool_definitions E w1) as [definitions|e]; cbn;
    [|by repeat split; auto].
  destruct (request_generate E _ w1) as [a w2]. cbn. by repeat split; auto.
Qed.

Lemma called_frame r st1 :
  history (session (called stream_callback r st1))
  = history (session st1) ++ [{| turn_role := Model; parts := fc_parts r |}]
  /\ model (session (called stream_callback r st1)) = model (session st1)
  /\ model_calls (called stream_callback r st1) = model_calls st1.
Proof.
  unfold called. cbn.
  destruct (String.eqb (text r) ""); cbn;
    rewrite ?(proj1 (stream_frame _ _)), ?(proj2 (stream_frame _ _)); done.
Qed.

Lemma run_tool_frame fc st :
  let '(a, st') := run_tool E stream_callback fc st in
  session st' = session st
  /\ model_calls st' = model_calls st
  /\ forall p, a = Value p ->
       exists content, p = FunctionResponse (fc_name fc) content.
Proof.
  unfold run_tool. destruct (fc_args fc) as [args|]; [|done].
  destruct (tools_execute E _ _ _) as [[result|e] w]; cbn.
  - rewrite !(proj1 (stream_frame _ _)), !(proj2 (stream_frame _ _)). cbn.
    rewrite !(proj1 (stream_frame _ _)), !(proj2 (stream_frame _ _)).
    repeat split. intros p [= <-]. eauto.
  - rewrite !(proj1 (stream_frame _ _)), !(proj2 (stream_frame _ _)).
    done.
Qed.

Lemma run_tools_frame calls : forall st,
  let '(a, st') := run_tools E stream_callback calls st in
  session st' = session st
  /\ model_calls st' = model_calls st
  /\ forall ps, a = Value ps ->
       Forall2 (fun fc p => exists content,
                    p = FunctionResponse (fc_name fc) content) calls ps.
Proof.
  induction calls as [|fc calls IH]; intros st; cbn.
  - repeat split. intros ps [= <-]. constructor.
  - pose proof (run_tool_frame fc st) as H.
    destruct (run_tool E stream_callback fc st) as [[p|e] st1].
    2:{ destruct H as (H1 & H2 & _). done. }
    destruct H as (H1 & H2 & H3).
    pose proof (IH st1) as H'.
    destruct (run_tools E stream_callback calls st1) as [[ps|e] st2].
    + destruct H' as (H4 & H5 & H6).
      repeat split; try congruence. intros ps' [= <-].
      constructor; [by apply H3|by apply H6].
    + destruct H' as (H4 & H5 & _). repeat split; congruence.
Qed.

Lemma calls_of_fc_parts r :
  calls_of {| turn_role := Model; parts := fc_parts r |}
  = function_calls r.
Proof.
  unfold calls_of, fc_parts. cbn. rewrite flat_map_app.
  destruct (String.eqb (text r) ""); cbn;
    induction (function_calls r) as [|fc l IH]; cbn; congruence.
Qed.

Lemma filter_fc_parts r :
  List.filter is_function_call (fc_parts r)
  = map (fun fc => FunctionCall fc (signature_of r)) (function_calls r).
Proof.
  unfold fc_parts. rewrite List.filter_app.
  replace (List.filter is_function_call
             (if String.eqb (text r) "" then [] else [Text (text r)]))
    with (@nil part) by (by destruct (String.eqb (text r) "")).
  cbn. induction (function_calls r) as [|fc l IH]; cbn; congruence.
Qed.

(** The loop body on a response that carries function calls. *)
Lemma loop_tool_round n st r st1 :
  _generate_with_history E st = (Value r, st1) ->
  success r = true ->
  function_calls r <> [] ->
  loop E stream_callback (S n) st
  = match run_tools E stream_callback (function_calls r)
            (called stream_callback r st1) with
    | (Value fr_parts, st4) =>
        loop E stream_callback n
          (on_session
             (append_turn {| turn_role := User; parts := fr_parts |}) st4)
    | (Raise e, st4) => (Raise e, st4)
    end.
Proof.
  intros Hg Hs Hc. cbn [loop]. rewrite Hg, Hs. cbn.
  destruct (function_calls r) as [|fc calls] eqn:Hcalls; [done|].
  by destruct (run_tools E stream_callback (fc :: calls) _) as [[frs|e] st4].
Qed.

(** C8, amended. For a tool run with a callback that returns, the
    callback receives the start notice and then the result notice, which
    holds the preview of the result: the result itself when it has at most
    200 characters, otherwise its first 200 characters followed by three
    dots.  The preview has at most 203 characters.  When the call has no
    [args] or [execute] raises, no result notice is streamed. *)
Theorem result_preview_at_most_203 callback fc st :
  match run_tool E (Some callback) fc st with
  | (Value p, st') =>
      exists args tool_result,
        fc_args fc = Some args
        /\ p = FunctionResponse (fc_name fc) tool_result
        /\ streamed st'
           = streamed st
             ++ [running_message E (fc_name fc) args;
                 "[Result: " +:+ preview tool_result +:+ "]" +:+ newline]
        /\ (String.length (preview tool_result) <= 203)%nat
        /\ preview tool_result
           = if (String.length tool_result <=? 200)%nat then tool_result
             else PyStr.slice_to 200 tool_result +:+ "..."
  | (Raise e, st') =>
      (fc_args fc = None /\ streamed st' = streamed st)
      \/ exists args,
           fc_args fc = Some args
           /\ streamed st'
              = streamed st ++ [running_message E (fc_name fc) args]
  end.
Proof.
  unfold run_tool. destruct (fc_args fc) as [args|]; [|by left].
  destruct (tools_execute E _ _ _) as [[tool_result|e] w]; cbn.
  - exists args, tool_result. split; [done|]. split; [done|].
    split; [by rewrite <- app_assoc|]. apply preview_cases.
  - right. by exists args.
Qed.

(** C9, amended. When the backend reports failure at a model call, the
    loop stops there and returns the formatted error; nothing is
    appended or streamed for that round, so the session is the one the
    failed call was made from.  When that call is the first of
    [send_message], the history left is the old one followed by the
    user turn alone. *)
Theorem backend_failure_appends_nothing n st r st1 :
  _generate_with_history E st = (Value r, st1) ->
  success r = false ->
  loop E stream_callback (S n) st = (Value (error_message r), st1)
  /\ session st1 = session st
  /\ streamed st1 = streamed st
  /\ forall message media_items st0,
       st = on_session
              (append_turn (user_content message media_items)) st0 ->
       send_message E stream_callback message media_items st0
       = (Value (error_message r), st1)
       /\ history (session st1)
          = history (session st0) ++ [user_content message media_items].
Proof.
  intros Hg Hs.
  pose proof (generate_frame st) as Hf. rewrite Hg in Hf.
  destruct Hf as (Hg1 & Hg3 & _).
  assert (Hloop : forall k,
             loop E stream_callback (S k) st = (Value (error_message r), st1)).
  { intros k. cbn [loop]. rewrite Hg. by rewrite Hs. }
  repeat split; try done.
  - unfold send_message, max_turns. rewrite <- H. apply Hloop.
  - rewrite Hg1, H. done.
Qed.

End WithEnv.

(** C1. The backend asks for [list_directory] without arguments and
    leaves the [args] key out of the call.  [send_message] raises
    [KeyError] on [fc['args']]: the Model turn that carries the call has
    been appended, no User turn answers it, no tool has run and nothing has
    been streamed.  The history is left with a function call that has no
    response. *)
Theorem call_without_args_is_left_unanswered :
  let '(res, st') :=
    send_message Sample.terse Sample.listing_callback "ls" []
      Sample.terse_chat in
  res = Raise (KeyError "args")
  /\ history (session st')
     = [ user_content "ls" [];
         {| turn_role := Model;
            parts := [FunctionCall Sample.bare_call None] |} ]
  /\ answered (history (session st')) = false
  /\ streamed st' = []
  /\ model_calls st' = 1%nat.
Proof. vm_compute. done. Qed.

(** C2. A backend that returns a function call at every round and never
    a final text, the call being one without [args]: [send_message] does
    not go through ten rounds and does not return the max-turns message.
    It raises in the first round, after one model call, and the history it
    leaves is not a valid one: the next [send_message] sends the backend a
    history in which the call of the first round has no response before
    the new user turn. *)
Theorem always_calling_raises_in_first_round :
  (forall p w, exists r,
      fst (request_generate Sample.terse p w) = Value r
      /\ success r = true /\ function_calls r <> [])
  /\ let '(res, st') :=
       send_message Sample.terse None "ls" [] Sample.terse_chat in
     let '(res', st'') := send_message Sample.terse None "again" [] st' in
     res = Raise (KeyError "args")
     /\ res <> max_turns_message
     /\ model_calls st' = 1%nat
     /\ answered (history (session st')) = false
     /\ outside st''
        = [ user_content "ls" [];
            {| turn_role := Model;
               parts := [FunctionCall Sample.bare_call None] |};
            user_content "again" [] ].
Proof.
  split.
  - intros p w. exists Sample.calling_bare. by repeat split.
  - vm_compute. by repeat split.
Qed.

(** C8, as stated, fails: a tool returns 201 characters and
    the preview handed to the callback has 203. *)
Lemma preview_exceeds_200 :
  let '(p, st') :=
    run_tool Sample.insistent Sample.silent_callback Sample.ls_call
      Sample.new_chat in
  p = Value (FunctionResponse "list_directory" Sample.long_result)
  /\ last (streamed st')
     = Some ("[Result: " +:+ preview Sample.long_result +:+ "]" +:+ newline)
  /\ String.length (preview Sample.long_result) = 203%nat.
Proof. vm_compute. done. Qed.

(** C9, as stated, fails: the backend asks for a tool at its
    first call and reports failure at the second.  [send_message] returns
    the error, and the history it leaves holds the model turn and the
    responses of the first round after the user turn. *)
Lemma failure_after_tool_round :
  let '(res, st') :=
    send_message Sample.flaky None "ls" [] Sample.new_chat in
  res = "Error: boom"
  /\ model_calls st' = 2%nat
  /\ history (session st')
     = [ user_content "ls" [];
         {| turn_role := Model;
            parts := [FunctionCall Sample.ls_call None] |};
         {| turn_role := User;
            parts := [FunctionResponse "list_directory" "a.txt"] |} ].
Proof. vm_compute. done. Qed.

(** The three modules together: the model asks for [write_file], the user
    refuses, the refusal is the response the model gets, nothing is written
    and the session ends on the model's next answer. *)
Example refused_call_is_answered :
  let '(res, st') :=
    send_message
      (Program.registry_env Sample.repr true Sample.ready Sample.writer
         (fun _ => "{}"))
      None "write it" [] Sample.guarded_chat in
  res = "done"
  /\ history (session st')
     = [ user_content "write it" [];
         {| turn_role := Model;
            parts := [FunctionCall Sample.write_call None] |};
         {| turn_role := User;
            parts := [FunctionResponse "write_file"
                        "Error: User denied execution."] |};
         {| turn_role := Model; parts := [Text "done"] |} ]
  /\ Registry.fs (snd (outside st')) = 0%nat
  /\ Registry.log (snd (outside st'))
     = [Registry.Confirm "write_file" "n"].
Proof. vm_compute. done. Qed.

(** The three modules together, when [execute] raises: the model asks for
    a remote tool, the server answers with a content item that has no
    type, and the [KeyError] of [item["type"]] leaves [execute] and
    [send_message].  The tool has been called; the call is in the history
    and its response is not. *)
Example remote_call_is_left_unanswered :
  let '(res, st') :=
    send_message
      (Program.registry_env Sample.repr false Sample.ready Cases.asker
         (fun _ => "{}"))
      None "echo" [] Cases.remote_chat in
  res = Raise (KeyError "type")
  /\ history (session st')
     = [ user_content "echo" [];
         {| turn_role := Model;
            parts := [FunctionCall Cases.echo_call None] |} ]
  /\ answered (history (session st')) = false
  /\ Registry.log (snd (outside st'))
     = [Registry.RemoteCall 0 "echo" (JObj [])].
Proof. vm_compute. done. Qed.

Lemma backend_failure_appends_nothing_witness :
  let st := on_session (append_turn (user_content "hi" []))
              Sample.new_chat in
  let st1 := snd (_generate_with_history Sample.down st) in
  loop Sample.down None 10 st = (Value (error_message Sample.failing), st1)
  /\ session st1 = session st
  /\ streamed st1 = streamed st
  /\ forall message media_items st0,
       st = on_session
              (append_turn (user_content message media_items)) st0 ->
       send_message Sample.down None message media_items st0
       = (Value (error_message Sample.failing), st1)
       /\ history (session st1)
          = history (session st0) ++ [user_content message media_items].
Proof.
  apply (backend_failure_appends_nothing Sample.down None 9
           (on_session (append_turn (user_content "hi" []))
              Sample.new_chat)
           Sample.failing).
  - reflexivity.
  - reflexivity.
Defined.

End ChatFacts.

(** ** More on the MCP client *)
Module MCPExtra.
Import MCP Lifetime Reader MCPFacts.

(** *** The reader thread *)

Lemma read_line_queue l (pend pend' : gmap Z (list message)) i q :
  read_line l pend = Some pend' ->
  pend !! i = Some q ->
  pend' !! i = Some (q ++ bearing i [l]).
Proof.
  intros Hl Hq. destruct l as [|m|]; cbn in *; [|  |done].
  { simplify_eq. by rewrite app_nil_r. }
  destruct (m_id m) as [j|] eqn:Hj.
  - destruct (decide (j = i)) as [->|Hne].
    + rewrite Hq in Hl. simplify_eq.
      rewrite lookup_insert_eq. by rewrite decide_True.
    + rewrite decide_False by congruence. rewrite app_nil_r.
      destruct (pend !! j); simplify_eq; [by rewrite lookup_insert_ne|done].
  - simplify_eq. rewrite decide_False by congruence. by rewrite app_nil_r.
Qed.

Lemma read_line_fatal l (pend : gmap Z (list message)) :
  read_line l pend = None <-> fatal l = true.
Proof.
  destruct l as [|m|]; cbn; [done| |done].
  destruct (m_id m) as [j|]; [|done]. by destruct (pend !! j).
Qed.

(** X1. The reader thread runs until the first line on which its body
    raises, and stops there.  Whatever the child prints, it adds no queue
    to [pending_requests] and removes none; a queue that is there grows by
    exactly the messages that bear its id among the lines read before that
    point, in the order they were printed, and by nothing else. *)
Theorem reader_only_fills_pending_queues lines :
  forall pend : gmap Z (list message),
  let '(pend', running) := read_lines lines pend in
  (running = true <-> Forall (fun l => fatal l = false) lines)
  /\ (forall i, is_Some (pend' !! i) <-> is_Some (pend !! i))
  /\ (forall i q, pend !! i = Some q ->
                  pend' !! i = Some (q ++ bearing i (before_fatal lines))).
Proof.
  induction lines as [|l rest IH]; intros pend; cbn.
  - split; [done|]. split; [done|]. intros i q Hq. by rewrite app_nil_r.
  - destruct (read_line l pend) as [pend1|] eqn:Hl.
    + assert (fatal l = false) as Hf.
      { destruct (fatal l) eqn:Hf; [|done].
        apply read_line_fatal with (pend := pend) in Hf. congruence. }
      specialize (IH pend1).
      destruct (read_lines rest pend1) as [pend' running].
      destruct IH as (IH0 & IH1 & IH2). rewrite Hf. split; [|split].
      * rewrite IH0, Forall_cons. split; [done|by intros [_ ?]].
      * intros i. rewrite IH1. by apply (read_line_dom l).
      * intros i q Hq.
        rewrite (IH2 i _ (read_line_queue l pend pend1 i q Hl Hq)).
        unfold bearing. cbn. by rewrite app_nil_r, app_assoc.
    + apply read_line_fatal in Hl. rewrite Hl. split; [|split].
      * rewrite Forall_cons. split; [done|]. intros [? _]. congruence.
      * done.
      * intros i q Hq. by rewrite app_nil_r.
Qed.

(** *** Requests and responses *)

Lemma queue_get_dom timeout arrivals rid : forall pend running o pend' t r',
  queue_get timeout arrivals rid pend running = (o, pend', t, r') ->
  forall k, is_Some (pend' !! k) <-> is_Some (pend !! k).
Proof.
  induction arrivals as [|[t0 l] rest IH]; intros pend running o pend' t r';
    cbn.
  - by intros [= <- <- <-].
  - destruct running; cbn; [|by intros [= <- <- <-]].
    destruct (t0 <=? timeout)%nat; [|by intros [= <- <- <-]].
    destruct (read_line l pend) as [pend1|] eqn:Hl; [|by intros [= <- <- <-]].
    destruct (pend1 !! rid) as [[|m q]|] eqn:Hr.
    + intros H k. rewrite (IH _ _ _ _ _ _ H k). by apply (read_line_dom l).
    + intros [= <- <- <-] k. rewrite <- (read_line_dom l pend pend1 k Hl).
      destruct (decide (rid = k)) as [<-|Hne].
      * rewrite lookup_insert_eq, Hr. split; eauto.
      * by rewrite lookup_insert_ne.
    + intros H k. rewrite (IH _ _ _ _ _ _ H k). by apply (read_line_dom l).
Qed.

Lemma queue_get_correlated timeout pre t m post rid : forall pend,
  pend !! rid = Some [] ->
  Forall (passes_by timeout rid) pre ->
  (t <= timeout)%nat ->
  m_id m = Some rid ->
  exists pend',
    queue_get timeout (pre ++ (t, Parsed m) :: post) rid pend true
    = (Some m, pend', t, true)
    /\ pend' !! rid = Some [].
Proof.
  induction pre as [|[t0 l] pre IH]; intros pend Hp Hpre Ht Hm; cbn.
  - apply Nat.leb_le in Ht. rewrite Ht, Hm, Hp. cbn.
    rewrite lookup_insert_eq. eexists. split; [done|].
    by rewrite lookup_insert_eq.
  - apply Forall_cons in Hpre as [(Ht0 & Hnf & Hl) Hpre]. cbn in Ht0, Hnf, Hl.
    apply Nat.leb_le in Ht0. rewrite Ht0.
    destruct (read_line l pend) as [pend1|] eqn:Hr.
    2:{ apply read_line_fatal in Hr. by destruct l. }
    rewrite (read_line_other l pend pend1 rid Hl Hr), Hp.
    apply IH; try done. by rewrite (read_line_other l pend pend1 rid Hl Hr).
Qed.

Lemma send_request_dom c method params k :
  is_Some (pending_requests (snd (send_request c method params)) !! k) ->
  k = request_id c + 1 \/ is_Some (pending_requests c !! k).
Proof.
  unfold send_request. cbn.
  destruct (stdin_write (process c) _) as [[|] p']; cbn.
  - destruct (queue_get _ _ _ _ _) as [[[[response|] pend] t] running] eqn:Hq;
      cbn.
    + assert (is_Some (delete (request_id c + 1) pend !! k) ->
              k = request_id c + 1 \/ is_Some (pending_requests c !! k))
        as Hd.
      { destruct (decide (request_id c + 1 = k)) as [<-|Hne]; [auto|].
        rewrite lookup_delete_ne by done.
        rewrite (queue_get_dom _ _ _ _ _ _ _ _ _ Hq k).
        rewrite lookup_insert_ne by done. auto. }
      by destruct (m_error response).
    + rewrite (queue_get_dom _ _ _ _ _ _ _ _ _ Hq k).
      destruct (decide (request_id c + 1 = k)) as [<-|Hne]; [auto|].
      rewrite lookup_insert_ne by done. auto.
  - destruct (decide (request_id c + 1 = k)) as [<-|Hne]; [auto|].
    rewrite lookup_insert_ne by done. auto.
Qed.

Lemma send_request_others c method params k :
  k <> request_id c + 1 ->
  is_Some (pending_requests c !! k) ->
  is_Some (pending_requests (snd (send_request c method params)) !! k).
Proof.
  intros Hne Hk. unfold send_request. cbn.
  destruct (stdin_write (process c) _) as [[|] p']; cbn.
  - destruct (queue_get _ _ _ _ _) as [[[[response|] pend] t] running] eqn:Hq;
      cbn.
    + assert (is_Some (delete (request_id c + 1) pend !! k)) as Hd.
      { rewrite lookup_delete_ne by done.
        rewrite (queue_get_dom _ _ _ _ _ _ _ _ _ Hq k).
        by rewrite lookup_insert_ne. }
      by destruct (m_error response).
    + rewrite (queue_get_dom _ _ _ _ _ _ _ _ _ Hq k).
      by rewrite lookup_insert_ne.
  - by rewrite lookup_insert_ne.
Qed.

(** What [send_request] does when the reader thread is running and the
    child prints, in time, lines that pass by and then a message that bears
    the id of the request. *)
Lemma send_request_answered c method params pr pre t m post :
  process c = Some pr ->
  reader c = true ->
  p_accepts pr (Request (request_id c + 1) method (or_empty_dict params))
    = true ->
  p_replies pr (request_id c + 1) = pre ++ (t, Parsed m) :: post ->
  Forall (passes_by 10 (request_id c + 1)) pre ->
  (t <= 10)%nat ->
  m_id m = Some (request_id c + 1) ->
  let '(s, c') := send_request c method params in
  how s = Responded m /\ waited s = t
  /\ ret s = match m_error m with Some _ => None | None => m_result m end
  /\ pending_requests c' !! (request_id c + 1) = None
  /\ reader c' = true.
Proof.
  intros Hp Hrd Ha Hr Hpre Ht Hm. unfold send_request. cbn.
  rewrite Hp. cbn. rewrite Ha. cbn. rewrite Hr, Hrd.
  edestruct (queue_get_correlated 10 pre t m post (request_id c + 1))
    as (pend' & -> & _); try done.
  { apply lookup_insert_eq. }
  destruct (m_error m); cbn; by rewrite lookup_delete_eq.
Qed.

(** X2. A response is matched to its request by id, not by arrival: when
    the reader thread is running and the child prints, within the ten
    seconds, lines that the thread reads without an exception and that do
    not bear the id of the request (malformed lines, notifications,
    responses to other ids) and then a message that bears it,
    [send_request] takes that message after the time it took to arrive,
    returns its result ([None] when it holds an error) and removes the
    queue of the request from the table; the thread is still running. *)
Theorem response_is_matched_by_id c method params pr pre t m post :
  process c = Some pr ->
  reader c = true ->
  p_accepts pr (Request (request_id c + 1) method (or_empty_dict params))
    = true ->
  p_replies pr (request_id c + 1) = pre ++ (t, Parsed m) :: post ->
  Forall (passes_by 10 (request_id c + 1)) pre ->
  (t <= 10)%nat ->
  m_id m = Some (request_id c + 1) ->
  let '(s, c') := send_request c method params in
  how s = Responded m /\ waited s = t
  /\ ret s = match m_error m with Some _ => None | None => m_result m end
  /\ pending_requests c' !! (request_id c + 1) = None
  /\ reader c' = true.
Proof. apply send_request_answered. Qed.

Lemma response_is_matched_by_id_witness :
  let '(s, c') := send_request Cases.noisy_client "tools/call" None in
  how s = Responded
            {| m_id := Some 3; m_error := None;
               m_result := Some (Cases.text_result "pong") |}
  /\ waited s = 2%nat
  /\ ret s = Some (Cases.text_result "pong")
  /\ pending_requests c' !! (request_id Cases.noisy_client + 1) = None
  /\ reader c' = true.
Proof.
  apply (response_is_matched_by_id Cases.noisy_client "tools/call" None
           Cases.noisy
           [ (0%nat, Malformed);
             (1%nat, Parsed {| m_id := None; m_error := None;
                               m_result := None |});
             (1%nat, Sample.reply 10 Sample.ok_result) ]
           2%nat
           {| m_id := Some 3; m_error := None;
              m_result := Some (Cases.text_result "pong") |}
           []); try reflexivity.
  - repeat constructor; cbn; try lia; try done; intros m' [= <-]; done.
  - lia.
Defined.

(** X3. What a request leaves in [pending_requests]: it takes the id after
    the counter; the queue filed under that id is gone when a response was
    taken and is still there, empty, after a failed write and after a
    timeout; the queues of the other requests are neither added nor
    removed. *)
Theorem request_leaves_queue_unless_answered c method params :
  let '(s, c') := send_request c method params in
  req_id s = request_id c + 1
  /\ match how s with
     | Responded _ => pending_requests c' !! req_id s = None
     | WriteFailed | TimedOut => pending_requests c' !! req_id s = Some []
     end
  /\ forall k, k <> req_id s ->
       (is_Some (pending_requests c' !! k)
        <-> is_Some (pending_requests c !! k)).
Proof.
  pose proof (send_request_pending c method params) as Hp.
  pose proof (send_request_id c method params) as [Hi _].
  pose proof (send_request_dom c method params) as Hd.
  pose proof (send_request_others c method params) as Ho.
  destruct (send_request c method params) as [s c']. cbn in *.
  split; [done|]. split; [done|].
  intros k Hk. rewrite Hi in Hk. split.
  - intros H. by destruct (Hd k H).
  - by apply Ho.
Qed.

(** *** Invariants over the calls made on one client *)

Lemma send_request_ids_assigned c method params :
  ids_assigned c -> ids_assigned (snd (send_request c method params)).
Proof.
  intros [H0 Hk].
  pose proof (send_request_id c method params) as [_ Hi].
  pose proof (send_request_dom c method params) as Hd.
  destruct (send_request c method params) as [s c']. cbn in *.
  split; [lia|]. intros k H. destruct (Hd k H) as [->|H']; [lia|].
  apply Hk in H'. lia.
Qed.

Lemma refresh_tools_ids_assigned c :
  ids_assigned c -> ids_assigned (snd (_refresh_tools c)).
Proof.
  intros H.
  pose proof (refresh_tools_request c) as Hr.
  pose proof (send_request_ids_assigned c "tools/list" None H) as H'.
  destruct (_refresh_tools c) as [[s raised] c'].
  destruct Hr as (c1 & Hs & Hc). rewrite Hs in H'. cbn in *.
  by destruct Hc as [->|[ts ->]].
Qed.

Lemma step_ids_assigned o c :
  ids_assigned c -> ids_assigned (snd (step o c)).
Proof.
  intros H.
  destruct o as [spawn|method params|method params| |name arguments|]; cbn.
  - unfold connect. destruct spawn as [pr|]; [|done].
    pose proof (send_request_ids_assigned (started pr c)
                  "initialize" (Some initialize_params) H) as H1.
    destruct (send_request _ "initialize" _) as [s1 c2]. cbn in H1.
    destruct (truthy (ret s1)); [|done].
    pose proof (refresh_tools_ids_assigned
                  (set_is_connected true
                     (send_notification c2 "notifications/initialized"
                        None)) H1) as H2.
    destruct (_refresh_tools _) as [[s2 raised] c5]. by destruct raised.
  - pose proof (send_request_ids_assigned c method params H) as H1.
    by destruct (send_request c method params).
  - done.
  - pose proof (refresh_tools_ids_assigned c H) as H1.
    by destruct (_refresh_tools c) as [[s raised] c'].
  - unfold call_tool.
    pose proof (send_request_ids_assigned c "tools/call"
                  (Some (JObj [("name", JStr name);
                               ("arguments", arguments)])) H) as H1.
    by destruct (send_request c "tools/call" _).
  - unfold close. by destruct (process c).
Qed.

Lemma run_ids_assigned ops : forall c,
  ids_assigned c -> ids_assigned (snd (run ops c)).
Proof.
  induction ops as [|o rest IH]; intros c H; cbn; [done|].
  pose proof (step_ids_assigned o c H) as H1.
  destruct (step o c) as [ss c1]. cbn in H1.
  pose proof (IH c1 H1) as H2.
  by destruct (run rest c1).
Qed.

(** X4. On one client object, whatever calls are made on it, every queue
    left in [pending_requests] is filed under an id that was assigned
    before, between 1 and the counter; so the id the next request takes is
    never in the table already, and a queue left behind by a timeout can
    never be mistaken for the queue of a later request. *)
Theorem stale_queues_never_collide cmd a ops :
  let c := snd (run ops (init cmd a)) in
  (forall k, is_Some (pending_requests c !! k) -> 1 <= k <= request_id c)
  /\ pending_requests c !! (request_id c + 1) = None.
Proof.
  intros c.
  assert (ids_assigned c) as [H0 Hk].
  { apply run_ids_assigned. split; [done|]. cbn. intros k H.
    rewrite lookup_empty in H. by destruct H. }
  split; [done|].
  destruct (pending_requests c !! (request_id c + 1)) eqn:Hl; [|done].
  assert (1 <= request_id c + 1 <= request_id c); [|lia].
  apply Hk. eauto.
Qed.

Lemma step_is_connected o c :
  is_connected c = true -> is_connected (snd (step o c)) = true.
Proof.
  intros H.
  destruct o as [spawn|method params|method params| |name arguments|]; cbn.
  - unfold connect. destruct spawn as [pr|]; [|done].
    pose proof (send_request_is_connected (started pr c)
                  "initialize" (Some initialize_params)) as H1.
    destruct (send_request _ "initialize" _) as [s1 c2]. cbn in H1.
    destruct (truthy (ret s1)); [|cbn; congruence].
    pose proof (refresh_tools_is_connected
                  (set_is_connected true
                     (send_notification c2 "notifications/initialized"
                        None))) as H2.
    destruct (_refresh_tools _) as [[s2 raised] c5]. by destruct raised.
  - pose proof (send_request_is_connected c method params) as H1.
    destruct (send_request c method params). cbn in *. congruence.
  - done.
  - pose proof (refresh_tools_is_connected c) as H1.
    destruct (_refresh_tools c) as [[s raised] c']. cbn in *. congruence.
  - unfold call_tool.
    pose proof (send_request_is_connected c "tools/call"
                  (Some (JObj [("name", JStr name);
                               ("arguments", arguments)]))) as H1.
    destruct (send_request c "tools/call" _). cbn in *. congruence.
  - unfold close. by destruct (process c).
Qed.

(** X5. No method of the client ever sets [is_connected] back: once a
    client is connected it stays so through every later call, [close], a
    request that times out and a [connect] that fails included. *)
Theorem connected_flag_is_never_reset ops : forall c,
  is_connected c = true -> is_connected (snd (run ops c)) = true.
Proof.
  induction ops as [|o rest IH]; intros c H; cbn; [done|].
  pose proof (step_is_connected o c H) as H1.
  destruct (step o c) as [ss c1]. cbn in H1.
  pose proof (IH c1 H1) as H2.
  by destruct (run rest c1).
Qed.

Lemma connected_flag_is_never_reset_witness :
  is_connected Sample.quiet_client = true
  /\ is_connected
       (snd (run [CallTool "echo" JNull; Close; Connect None;
                  Connect (Some Sample.silent); RefreshTools]
                 Sample.quiet_client))
     = true.
Proof.
  split; [reflexivity|].
  apply (connected_flag_is_never_reset
           [CallTool "echo" JNull; Close; Connect None;
            Connect (Some Sample.silent); RefreshTools]
           Sample.quiet_client).
  reflexivity.
Defined.

(** *** The handshake on the wire *)

(** X6. A [connect] that returns [False].  When the process could not be
    started the client is untouched.  When [initialize] gave no truthy
    result, [is_connected] and the tool list are as they were and the new
    process has been sent nothing but, at most, the [initialize] request.
    Otherwise the handshake went through and [_refresh_tools] raised on an
    ill-shaped result of [tools/list]: the client is then connected although
    [connect] returned [False].  In no case has [connect] terminated the
    process. *)
Theorem failed_connect_frame c spawn :
  let '(ok, ss, c') := connect c spawn in
  ok = false ->
  match spawn with
  | None => c' = c
  | Some pr =>
      (exists pr', process c' = Some pr'
                   /\ p_terminated pr' = p_terminated pr)
      /\ ((exists s1, ss = [s1] /\ truthy (ret s1) = false
             /\ is_connected c' = is_connected c /\ tools c' = tools c
             /\ process c'
                = Some (fed (List.filter (p_accepts pr)
                               (take 1 (handshake (request_id c)))) pr))
          \/ (exists s1 s2 result, ss = [s1; s2] /\ truthy (ret s1) = true
                /\ ret s2 = Some result /\ ill_shaped result = true
                /\ is_connected c' = true))
  end.
Proof.
  unfold connect. destruct spawn as [pr|]; [|done].
  pose proof (send_request_is_connected (started pr c)
                "initialize" (Some initialize_params)) as H1.
  pose proof (send_request_tools (started pr c)
                "initialize" (Some initialize_params)) as H2.
  pose proof (send_request_process (started pr c)
                "initialize" (Some initialize_params)) as H3.
  destruct (send_request _ "initialize" _) as [s1 c2]. cbn in H1, H2, H3.
  destruct (truthy (ret s1)) eqn:Htr.
  - set (c4 := set_is_connected true
                 (send_notification c2 "notifications/initialized" None)).
    pose proof (refresh_tools_is_connected c4) as Hr.
    pose proof (refresh_tools_process c4) as Hrp.
    pose proof (refresh_tools_raises c4) as Hrr.
    destruct (_refresh_tools c4) as [[s2 raised] c5].
    cbv beta iota zeta in Hr, Hrp, Hrr.
    destruct raised as [e|]; [|done]. intros _. split.
    + rewrite Hrp. cbn. rewrite H3.
      destruct (p_accepts pr (Request (request_id c + 1) _ _)); cbn;
        destruct (p_accepts pr (Notification _ _)); cbn;
        destruct (p_accepts pr (Request (request_id c2 + 1) _ _)); cbn;
        eauto.
    + right. destruct (ret s2) as [result|] eqn:Hret.
      * exists s1, s2, result. repeat split; try done.
        destruct (ill_shaped result) eqn:Hill; [done|].
        assert (Some e = None); [|done].
        apply Hrr. by intros r [= <-].
      * assert (Some e = None); [|done]. by apply Hrr.
  - intros _. split.
    + rewrite H3. destruct (p_accepts pr _); cbn; eauto.
    + left. exists s1. repeat split; try done.
      rewrite H3. destruct (p_accepts pr _) eqn:Ha; cbn; rewrite Ha; [done|].
      unfold fed. destruct pr. cbn. by rewrite app_nil_r.
Qed.

Lemma failed_connect_frame_witness :
  let '(ok, ss, c') := connect Sample.fresh (Some Cases.null_tools) in
  ok = false
  /\ (exists pr', process c' = Some pr'
                  /\ p_terminated pr' = p_terminated Cases.null_tools)
  /\ ((exists s1, ss = [s1] /\ truthy (ret s1) = false
         /\ is_connected c' = is_connected Sample.fresh
         /\ tools c' = tools Sample.fresh
         /\ process c'
            = Some (fed (List.filter (p_accepts Cases.null_tools)
                           (take 1 (handshake (request_id Sample.fresh))))
                        Cases.null_tools))
      \/ (exists s1 s2 result, ss = [s1; s2] /\ truthy (ret s1) = true
            /\ ret s2 = Some result /\ ill_shaped result = true
            /\ is_connected c' = true)).
Proof.
  pose proof (failed_connect_frame Sample.fresh (Some Cases.null_tools)) as H.
  destruct (connect Sample.fresh (Some Cases.null_tools)) as [[ok ss] c']
    eqn:Hc.
  assert (ok = false) as Hok.
  { apply (f_equal (fun x => fst (fst x))) in Hc. cbn in Hc. subst ok.
    vm_compute. reflexivity. }
  split; [exact Hok|]. exact (H Hok).
Defined.

(** A server that answers [tools/list] with a null under [tools]:
    [connect] returns [False], and leaves a client that is connected and
    whose tool list is [None]. *)
Example connect_on_null_tools :
  let '(ok, ss, c') := connect Sample.fresh (Some Cases.null_tools) in
  ok = false /\ is_connected c' = true /\ tools c' = JNull
  /\ (p_stdin <$> process c') = Some (handshake 0).
Proof. vm_compute. done. Qed.

(** X7. The handshake as the child sees it: when the child takes every
    line and answers [initialize] with a truthy result, [connect] has
    written to its stdin, in this order and with consecutive ids, the
    [initialize] request, the [notifications/initialized] notification and
    the [tools/list] request, and nothing else; and it returns [True]
    unless the result of [tools/list] is ill-shaped. *)
Theorem handshake_on_the_wire c pr :
  (forall m, p_accepts pr m = true) ->
  truthy (ret (fst (send_request (started pr c) "initialize"
                      (Some initialize_params)))) = true ->
  let '(ok, ss, c') := connect c (Some pr) in
  (ok = true <->
   forall s2 result, ss !! 1%nat = Some s2 -> ret s2 = Some result ->
                     ill_shaped result = false)
  /\ process c'
     = Some (fed [Request (request_id c + 1) "initialize" initialize_params;
                  Notification "notifications/initialized" (JObj []);
                  Request (request_id c + 2) "tools/list" (JObj [])]
                pr).
Proof.
  intros Ha Htr. unfold connect.
  pose proof (send_request_process (started pr c)
                "initialize" (Some initialize_params)) as H1.
  pose proof (send_request_id (started pr c)
                "initialize" (Some initialize_params)) as [_ Hi].
  destruct (send_request _ "initialize" _) as [s1 c2]. cbn in H1, Hi, Htr.
  rewrite Htr. rewrite Ha in H1. cbn in H1.
  set (c4 := set_is_connected true
               (send_notification c2 "notifications/initialized" None)).
  pose proof (refresh_tools_process c4) as H2.
  pose proof (refresh_tools_raises c4) as H3.
  destruct (_refresh_tools c4) as [[s2 raised] c5].
  cbv beta iota zeta in H2, H3.
  assert (process c5
          = Some (fed [Request (request_id c + 1) "initialize"
                         initialize_params;
                       Notification "notifications/initialized" (JObj []);
                       Request (request_id c + 2) "tools/list" (JObj [])]
                      pr)) as Hp.
  { rewrite H2. cbn. rewrite H1. cbn. rewrite !Ha. cbn.
    unfold fed. cbn. rewrite Hi, <- !app_assoc. cbn.
    replace (request_id c + 1 + 1) with (request_id c + 2) by lia.
    by rewrite Ha. }
  destruct raised as [e|]; (split; [|done]).
  - split; [done|]. intros H. assert (Some e = None); [|done].
    apply H3. intros result. by apply H.
  - split; [|done]. intros _ s2' result [= <-]. by apply H3.
Qed.

Lemma handshake_on_the_wire_witness :
  let '(ok, ss, c') := connect Sample.fresh (Some Sample.prompt_server) in
  (ok = true <->
   forall s2 result, ss !! 1%nat = Some s2 -> ret s2 = Some result ->
                     ill_shaped result = false)
  /\ process c'
     = Some (fed [Request (request_id Sample.fresh + 1) "initialize"
                    initialize_params;
                  Notification "notifications/initialized" (JObj []);
                  Request (request_id Sample.fresh + 2) "tools/list"
                    (JObj [])]
                Sample.prompt_server).
Proof.
  apply (handshake_on_the_wire Sample.fresh Sample.prompt_server).
  - intros m. reflexivity.
  - vm_compute. reflexivity.
Defined.

End MCPExtra.

(** ** More on the tool registry *)
Module RegistryExtra.
Import Registry RegistryFacts.

Lemma dict_get_set_eq {V : Type} (k : string) (v : V) d :
  dict_get k (dict_set k v d) = Some v.
Proof.
  induction d as [|[k' v'] d IH]; cbn.
  - by rewrite String.eqb_refl.
  - destruct (String.eqb k' k) eqn:Hk; cbn.
    + by rewrite String.eqb_refl.
    + by rewrite Hk.
Qed.

Lemma dict_get_set_ne {V : Type} (k j : string) (v : V) d :
  j <> k -> dict_get j (dict_set k v d) = dict_get j d.
Proof.
  intros Hne. induction d as [|[k' v'] d IH]; cbn.
  - destruct (String.eqb_spec k j); [congruence|done].
  - destruct (String.eqb_spec k' k) as [->|Hk]; cbn.
    + destruct (String.eqb_spec k j); [congruence|].
      destruct (String.eqb_spec k j); [congruence|done].
    + destruct (String.eqb_spec k' j); [done|apply IH].
Qed.

Lemma dict_set_keys {V : Type} (k : string) (v : V) d :
  map fst (dict_set k v d)
  = match dict_get k d with
    | Some _ => map fst d
    | None => map fst d ++ [k]
    end.
Proof.
  induction d as [|[k' v'] d IH]; cbn; [done|].
  destruct (String.eqb_spec k' k) as [->|Hk]; cbn; [done|].
  rewrite IH. by destruct (dict_get k d).
Qed.

Section WithLocalState.

Context {FS : Type}.
Variable py_repr : MCP.result_obj -> string.

Implicit Types (r : ToolRegistry FS) (w : world FS) (f : local_tool FS).

(** X8. Registering a function files it under its name: a lookup of that
    name then finds it, every other name is found as before, and the
    clients are untouched.  A name that was already registered keeps its
    place in the export order and only its function is replaced; a new
    name goes to the end. *)
Theorem register_then_lookup r f :
  dict_get (fn_name f) (tools (register r f)) = Some f
  /\ (forall k, k <> fn_name f ->
        dict_get k (tools (register r f)) = dict_get k (tools r))
  /\ map fst (tools (register r f))
     = match dict_get (fn_name f) (tools r) with
       | Some _ => map fst (tools r)
       | None => map fst (tools r) ++ [fn_name f]
       end
  /\ mcp_clients (register r f) = mcp_clients r.
Proof.
  unfold register. cbn. split; [apply dict_get_set_eq|].
  split; [intros k Hk; by apply dict_get_set_ne|].
  split; [apply dict_set_keys|done].
Qed.

Lemma ask_frame tool_name w :
  log (snd (ask tool_name w))
  = log w ++ [Confirm tool_name (stdin w (asked w))]
  /\ asked (snd (ask tool_name w)) = S (asked w)
  /\ stdin (snd (ask tool_name w)) = stdin w
  /\ fs (snd (ask tool_name w)) = fs w.
Proof. done. Qed.

(** Everything [execute] does to the outside, in one statement. *)
Lemma execute_footprint safe_mode r tool_name arguments w :
  let '(res, r', w') :=
    execute py_repr safe_mode r tool_name arguments w in
  exists answers calls,
    log w' = log w ++ map (Confirm tool_name) answers ++ calls
    /\ answers = take (length answers)
                      [stdin w (asked w); stdin w (S (asked w))]
    /\ asked w' = (asked w + length answers)%nat
    /\ stdin w' = stdin w
    /\ (length answers <= 2)%nat /\ (length calls <= 1)%nat
    /\ Forall (fun e => is_call e = true) calls
    /\ (safe_mode = false -> answers = [])
    /\ (calls = [] -> fs w' = fs w /\ r' = r).
Proof.
  unfold execute.
  destruct (safe_mode && is_sensitive tool_name) eqn:Hgate.
  - apply andb_true_iff in Hgate as [-> Hs]. cbn [ask].
    set (a0 := stdin w (asked w)).
    destruct (affirmative a0).
    + destruct (dict_get tool_name (tools r)) as [func|].
      * destruct (fn_call func arguments _) as [o fs'].
        destruct o; exists [a0], [LocalCall tool_name arguments]; cbn;
          rewrite <- ?app_assoc; cbn;
          repeat split; try done; try lia; by repeat constructor.
      * match goal with
        | |- context [execute_mcp _ _ _ _ _ _ ?w1] =>
            destruct (execute_mcp_cases py_repr true (mcp_clients r)
                        tool_name arguments 0%nat w1)
              as [[-> _]|[(_ & _ & -> & _)|[H|(e & -> & _)]]]
        end.
        -- exists [a0], []. cbn. rewrite registry_eta.
           repeat split; try done; try lia.
        -- exists [a0; stdin w (S (asked w))], []. cbn.
           rewrite registry_eta, <- ?app_assoc. cbn.
           repeat split; try done; try lia.
        -- destruct H as (pre & c & post & _ & _ & _ & _ & _ & ->).
           exists [a0; stdin w (S (asked w))],
                  [RemoteCall (0 + length pre) tool_name arguments].
           cbn. rewrite <- ?app_assoc. cbn.
           repeat split; try done; try lia; by repeat constructor.
        -- exists [a0], []. cbn. rewrite registry_eta.
           repeat split; try done; try lia.
    + exists [a0], []. cbn. repeat split; try done; lia.
  - destruct (dict_get tool_name (tools r)) as [func|].
    + destruct (fn_call func arguments _) as [o fs'].
      destruct o; exists [], [LocalCall tool_name arguments]; cbn;
        repeat split; try done; try lia; by repeat constructor.
    + destruct (execute_mcp_cases py_repr safe_mode (mcp_clients r)
                  tool_name arguments 0%nat w)
        as [[-> _]|[(Hsafe & _ & -> & _)|[H|(e & -> & _)]]].
      * exists [], []. cbn. rewrite registry_eta, ?app_nil_r.
        repeat split; try done; lia.
      * exists [stdin w (asked w)], []. cbn. rewrite registry_eta.
        repeat split; try done; try lia. congruence.
      * destruct H as (pre & c & post & _ & _ & _ & _ & _ & ->).
        destruct safe_mode.
        -- exists [stdin w (asked w)],
                  [RemoteCall (0 + length pre) tool_name arguments].
           cbn. rewrite <- ?app_assoc. cbn.
           repeat split; try done; try lia; by repeat constructor.
        -- exists [], [RemoteCall (0 + length pre) tool_name arguments].
           cbn. repeat split; try done; try lia; by repeat constructor.
      * exists [], []. cbn. rewrite registry_eta, ?app_nil_r.
        repeat split; try done; lia.
Qed.

(** X9. One [execute] asks the user at most twice and calls at most one
    implementation, local or remote, after the questions.  The answers it
    reads are the next lines of the terminal, as many as it asked.  When it
    calls nothing, the local state and the registry with all its clients
    are as they were. *)
Theorem execute_asks_twice_calls_once safe_mode r tool_name arguments w :
  let '(res, r', w') :=
    execute py_repr safe_mode r tool_name arguments w in
  exists answers calls,
    log w' = log w ++ map (Confirm tool_name) answers ++ calls
    /\ answers = take (length answers)
                      [stdin w (asked w); stdin w (S (asked w))]
    /\ asked w' = (asked w + length answers)%nat
    /\ (length answers <= 2)%nat /\ (length calls <= 1)%nat
    /\ Forall (fun e => is_call e = true) calls
    /\ (calls = [] -> fs w' = fs w /\ r' = r).
Proof.
  pose proof (execute_footprint safe_mode r tool_name arguments w) as H.
  destruct (execute py_repr safe_mode r tool_name arguments w)
    as [[res r'] w'].
  destruct H as (answers & calls & H1 & H2 & H3 & _ & H5 & H6 & H7 & _ & H9).
  exists answers, calls. repeat split; try done; by apply H9.
Qed.

(** X10. With safe mode off [execute] never asks: it reads nothing from
    the terminal, and all it records is the call it makes, if any. *)
Theorem no_question_without_safe_mode r tool_name arguments w :
  let '(res, r', w') := execute py_repr false r tool_name arguments w in
  asked w' = asked w
  /\ exists calls, log w' = log w ++ calls
       /\ Forall (fun e => is_call e = true) calls.
Proof.
  pose proof (execute_footprint false r tool_name arguments w) as H.
  destruct (execute py_repr false r tool_name arguments w) as [[res r'] w'].
  destruct H as (answers & calls & H1 & _ & H3 & _ & _ & _ & H7 & H8 & _).
  rewrite (H8 eq_refl) in H1, H3. cbn in H1, H3.
  split; [lia|]. by exists calls.
Qed.


Lemma first_text_skips skipped item rest text :
  Forall (fun i => exists type,
              Py.getitem i "type" = Value type /\ type <> JStr "text")
         skipped ->
  Py.getitem item "type" = Value (JStr "text") ->
  Py.getitem item "text" = Value text ->
  first_text (skipped ++ item :: rest) = Value (Some text).
Proof.
  intros Hs Hi Ht.
  induction Hs as [|i skipped (type & Hty & Hne) _ IH]; cbn.
  - by rewrite Hi, Ht.
  - rewrite Hty.
    destruct type as [| | |s| |]; cbn; try apply IH.
    destruct (String.eqb_spec s "text") as [->|]; [done|apply IH].
Qed.

(** X12. A remote tool that answers: the first connected client, in
    registration order, that lists the name is called.  When its reader
    thread is running and delivers the response to the [tools/call]
    request, and the result is a dict whose [content] is a list in which
    the items before the first one of type text all carry a type, [execute]
    returns the text of that item, later items and items of other types
    ignored.  The clients before and after that one are left as they
    were. *)
Theorem remote_result_is_first_text safe_mode r tool_name arguments w
    pre client post pr before t m after fields skipped item rest text :
  dict_get tool_name (tools r) = None ->
  mcp_clients r = pre ++ client :: post ->
  Forall (passes tool_name) pre ->
  MCP.is_connected client = true ->
  provides client tool_name = true ->
  MCP.process client = Some pr ->
  MCP.reader client = true ->
  MCP.p_accepts pr
    (MCP.Request (MCP.request_id client + 1) "tools/call"
       (JObj [("name", JStr tool_name); ("arguments", arguments)]))
    = true ->
  MCP.p_replies pr (MCP.request_id client + 1)
    = before ++ (t, MCP.Parsed m) :: after ->
  Forall (Reader.passes_by 10 (MCP.request_id client + 1)) before ->
  (t <= 10)%nat ->
  MCP.m_id m = Some (MCP.request_id client + 1) ->
  MCP.m_error m = None ->
  MCP.m_result m = Some (JObj fields) ->
  dict_get "content" fields = Some (JArr (skipped ++ item :: rest)) ->
  Forall (fun i => exists type,
              Py.getitem i "type" = Value type /\ type <> JStr "text")
         skipped ->
  Py.getitem item "type" = Value (JStr "text") ->
  Py.getitem item "text" = Value (JStr text) ->
  (safe_mode = true -> forall k, affirmative (stdin w k) = true) ->
  let '(res, r', w') :=
    execute py_repr safe_mode r tool_name arguments w in
  res = text
  /\ mcp_clients r'
     = pre ++ snd (MCP.call_tool client tool_name arguments) :: post.
Proof.
  intros Hlocal Hcs Hpre Hconn Hprov Hproc Hreader Hacc Hrep Hbefore Ht Hid
         Herr Hres Hcontent Hskip Hitem Htext Hyes.
  pose proof (MCPExtra.send_request_answered client "tools/call"
                (Some (JObj [("name", JStr tool_name);
                             ("arguments", arguments)]))
                pr before t m after Hproc Hreader Hacc Hrep Hbefore Ht Hid)
    as Hsend.
  unfold execute. rewrite Hlocal, Hcs.
  assert (Hret :
    mcp_result_text py_repr
      (MCP.ret (fst (MCP.call_tool client tool_name arguments)))
    = Value text).
  { unfold MCP.call_tool.
    destruct (MCP.send_request client "tools/call" _) as [s c'].
    destruct Hsend as (_ & _ & Hr & _). cbn [fst]. rewrite Hr, Herr, Hres.
    unfold mcp_result_text.
    assert (json_truthy (JObj fields) = true) as ->.
    { destruct fields; [done|done]. }
    cbn [Py.contains Py.getitem]. rewrite Hcontent. cbn [Py.iter].
    by rewrite (first_text_skips _ _ _ _ Hskip Hitem Htext). }
  destruct (safe_mode && is_sensitive tool_name) eqn:Hgate.
  - apply andb_true_iff in Hgate as [-> _]. cbn [ask].
    rewrite (Hyes eq_refl).
    rewrite execute_mcp_hit;
      [by rewrite ?Hret|done|done|done|cbn; intros _; apply (Hyes eq_refl)].
  - rewrite execute_mcp_hit;
      [by rewrite ?Hret|done|done|done|intros Hs; apply (Hyes Hs)].
Qed.

Lemma connect_true_is_connected c spawn :
  fst (fst (MCP.connect c spawn)) = true ->
  MCP.is_connected (snd (MCP.connect c spawn)) = true.
Proof.
  unfold MCP.connect. destruct spawn as [pr|]; [|done].
  destruct (MCP.send_request _ "initialize" _) as [s1 c2].
  destruct (MCP.truthy (MCP.ret s1)); [|done].
  pose proof (MCPFacts.refresh_tools_is_connected
                (MCP.set_is_connected true
                   (MCP.send_notification c2 "notifications/initialized"
                      None))) as H.
  destruct (MCP._refresh_tools _) as [[s2 raised] c5]. by destruct raised.
Qed.

Lemma mcp_command_connected user_input spawn r :
  Cli.all_connected r -> Cli.all_connected (Cli.mcp_command user_input spawn r).
Proof.
  intros H. unfold Cli.mcp_command.
  destruct (Cli.split_on " " user_input) as [|p0 [|p1 [|cmd args]]];
    try done.
  destruct (String.eqb p1 "connect"); [|done].
  pose proof (connect_true_is_connected (MCP.init cmd args) spawn) as Hc.
  destruct (MCP.connect (MCP.init cmd args) spawn) as [[ok ss] c'].
  cbn in Hc. destruct ok; [|done].
  unfold Cli.all_connected, register_mcp. cbn.
  apply Forall_app. split; [done|]. constructor; [by apply Hc|constructor].
Qed.

Lemma execute_connected safe_mode r tool_name arguments w :
  Cli.all_connected r ->
  Cli.all_connected
    (snd (fst (execute py_repr safe_mode r tool_name arguments w))).
Proof.
  intros H. unfold execute.
  destruct (if safe_mode && is_sensitive tool_name then ask tool_name w
            else (true, w)) as [go w1].
  destruct go; [|done].
  destruct (dict_get tool_name (tools r)) as [func|].
  { destruct (fn_call func arguments (fs w1)) as [[s|msg] fs']; done. }
  destruct (execute_mcp_cases py_repr safe_mode (mcp_clients r) tool_name
              arguments 0%nat w1)
    as [[-> _]|[(_ & _ & -> & _)|[Hx|(e & -> & _)]]]; cbn; try done.
  destruct Hx as (pre & c & post & Hcs & _ & Hc & _ & _ & ->). cbn.
  unfold Cli.all_connected in *. cbn. rewrite Hcs in H.
  apply Forall_app in H as [Hpre Hpost].
  apply Forall_cons in Hpost as [_ Hpost].
  apply Forall_app. split; [done|]. constructor; [|done].
  unfold MCP.call_tool. by rewrite MCPFacts.send_request_is_connected.
Qed.

(** X13. In the running program every registered client is connected:
    the registry starts without clients, the [/mcp] command registers a
    client only when its [connect] returned [True], and nothing done to a
    registered client afterwards (tool calls that succeed, fail or time
    out) sets its flag back.  So the tests on [is_connected] in the export
    and in the dispatch never skip a client there. *)
Theorem registered_clients_are_connected actions safe_mode local_tools w :
  Forall (fun c => MCP.is_connected c = true)
    (mcp_clients
       (snd (fst (Cli.acts py_repr actions
                    (safe_mode,
                     {| tools := local_tools; mcp_clients := [] |}, w))))).
Proof.
  assert (forall st : @Cli.state FS,
            Cli.all_connected (snd (fst st)) ->
            Cli.all_connected (snd (fst (Cli.acts py_repr actions st)))) as H.
  { induction actions as [|a rest IH]; intros [[safe r] w0] Hr; [done|].
    cbn [Cli.acts]. apply IH. destruct a as [user_input spawn| |tn ar].
    - cbn. by apply mcp_command_connected.
    - done.
    - cbn. pose proof (execute_connected safe r tn ar w0 Hr) as He.
      by destruct (execute py_repr safe r tn ar w0) as [[res r'] w']. }
  apply (H (safe_mode, _, w)). constructor.
Qed.

End WithLocalState.


Lemma remote_result_is_first_text_witness :
  let '(res, r', w') :=
    execute Sample.repr true Cases.noisy_registry "echo" JNull
      (Sample.terminal "y") in
  res = "pong"
  /\ mcp_clients r'
     = [Sample.offline_client]
       ++ snd (MCP.call_tool Cases.noisy_client "echo" JNull) :: [].
Proof.
  apply (remote_result_is_first_text Sample.repr true Cases.noisy_registry
           "echo" JNull (Sample.terminal "y")
           [Sample.offline_client] Cases.noisy_client [] Cases.noisy
           [ (0%nat, MCP.Malformed);
             (1%nat, MCP.Parsed {| MCP.m_id := None; MCP.m_error := None;
                                   MCP.m_result := None |});
             (1%nat, Sample.reply 10 Sample.ok_result) ]
           2%nat
           {| MCP.m_id := Some 3; MCP.m_error := None;
              MCP.m_result := Some (Cases.text_result "pong") |}
           []
           [("content",
             JArr [ JObj [("type", JStr "image"); ("data", JStr "")];
                    JObj [("type", JStr "text"); ("text", JStr "pong")];
                    JObj [("type", JStr "text"); ("text", JStr "later")] ]);
            ("isError", JBool false)]
           [ JObj [("type", JStr "image"); ("data", JStr "")] ]
           (JObj [("type", JStr "text"); ("text", JStr "pong")])
           [ JObj [("type", JStr "text"); ("text", JStr "later")] ]
           "pong");
    try reflexivity.
  - repeat constructor.
  - repeat constructor; cbn; try lia; try done; intros m' [= <-]; done.
  - lia.
  - repeat constructor. by exists (JStr "image").
Defined.

Lemma lower_char_y c :
  PyStr.lower_char c = "y"%char -> c = "y"%char \/ c = "Y"%char.
Proof.
  destruct c as [[] [] [] [] [] [] [] []]; vm_compute; intros H;
    first [by left | by right | discriminate H].
Qed.

Lemma lower_y s : PyStr.lower s = "y" <-> s = "y" \/ s = "Y".
Proof.
  split.
  - destruct s as [|c [|c' s]]; cbn; try done.
    intros [= H]. destruct (lower_char_y c H) as [->| ->]; auto.
  - by intros [->| ->].
Qed.

(** X14. The only answers the safe-mode question takes for a yes are the
    single letter y, small or capital, with any white space around it; the
    word yes, the empty line and everything else are refusals. *)
Theorem only_y_is_affirmative answer :
  affirmative answer = true
  <-> PyStr.strip answer = "y" \/ PyStr.strip answer = "Y".
Proof.
  unfold affirmative. rewrite String.eqb_eq. apply lower_y.
Qed.

End RegistryExtra.

(** ** More on the conversation engine *)
Module ChatExtra.
Import Chat ChatFacts.

Lemma answered_rounds rounds :
  Forall tool_round_turns rounds -> answered (concat rounds) = true.
Proof.
  induction 1 as [|round rounds (t & u & -> & Ht & Hc & Hu) _ IH];
    cbn; [done|].
  rewrite Ht. destruct (calls_of t); [done|]. by rewrite Hu, IH.
Qed.

Section WithEnv.

Context {W : Type}.
Variable E : env W.
Variable stream_callback : option (string -> W -> W).

Implicit Types (st : run W) (r : response).

(** The loop body on a response that carries function calls, by whether
    the tools all run. *)
Lemma loop_tool_round_cases n st r st1 :
  _generate_with_history E st = (Value r, st1) ->
  success r = true ->
  function_calls r <> [] ->
  let model_turn := {| turn_role := Model; parts := fc_parts r |} in
  List.filter is_function_call (fc_parts r)
  = map (fun fc => FunctionCall fc (signature_of r)) (function_calls r)
  /\ match run_tools E stream_callback (function_calls r)
             (called stream_callback r st1) with
     | (Value fr_parts, st4) =>
         let user_turn := {| turn_role := User; parts := fr_parts |} in
         let st' := on_session (append_turn user_turn) st4 in
         loop E stream_callback (S n) st = loop E stream_callback n st'
         /\ history (session st')
            = history (session st) ++ [model_turn; user_turn]
         /\ model_calls st' = S (model_calls st)
         /\ Forall2 (fun fc p => exists content,
                         p = FunctionResponse (fc_name fc) content)
                    (function_calls r) fr_parts
     | (Raise e, st4) =>
         loop E stream_callback (S n) st = (Raise e, st4)
         /\ history (session st4) = history (session st) ++ [model_turn]
         /\ model_calls st4 = S (model_calls st)
     end.
Proof.
  intros Hg Hs Hc model_turn. split; [apply filter_fc_parts|].
  pose proof (generate_frame E st) as Hf. rewrite Hg in Hf.
  destruct Hf as (Hg1 & _ & _ & Hg2). specialize (Hg2 r eq_refl).
  pose proof (called_frame stream_callback r st1) as (Hh & _ & Hm).
  pose proof (loop_tool_round E stream_callback n st r st1 Hg Hs Hc) as Hl.
  pose proof (run_tools_frame E stream_callback (function_calls r)
                (called stream_callback r st1)) as Hr.
  destruct (run_tools E stream_callback (function_calls r) _)
    as [[fr_parts|e] st4]; destruct Hr as (Hr1 & Hr2 & Hr3).
  - cbn. rewrite Hr1, Hr2, Hh, Hm, Hg1, Hg2, <- app_assoc.
    repeat split; try done. by apply Hr3.
  - rewrite Hr1, Hr2, Hh, Hm, Hg1, Hg2. done.
Qed.

(** X28. A round in which the model returns function calls.  The Model
    turn appended holds the calls received, one part per call, in order.
    When every call carries its [args] and [execute] returns for each, the
    loop goes on to its next iteration, and so to the next model call, from
    a history that has grown by exactly that turn and a user turn made of
    one function response per call, bearing the name of that call, in the
    same order.  When [fc['args']] or [execute] raises, the exception
    leaves the loop, and the history has grown by the Model turn alone. *)
Theorem tool_round_is_answered_unless_a_tool_raises n st r st1 :
  _generate_with_history E st = (Value r, st1) ->
  success r = true ->
  function_calls r <> [] ->
  let model_turn := {| turn_role := Model; parts := fc_parts r |} in
  List.filter is_function_call (fc_parts r)
  = map (fun fc => FunctionCall fc (signature_of r)) (function_calls r)
  /\ match run_tools E stream_callback (function_calls r)
             (called stream_callback r st1) with
     | (Value fr_parts, st4) =>
         let user_turn := {| turn_role := User; parts := fr_parts |} in
         let st' := on_session (append_turn user_turn) st4 in
         loop E stream_callback (S n) st = loop E stream_callback n st'
         /\ history (session st')
            = history (session st) ++ [model_turn; user_turn]
         /\ model_calls st' = S (model_calls st)
         /\ Forall2 (fun fc p => exists content,
                         p = FunctionResponse (fc_name fc) content)
                    (function_calls r) fr_parts
     | (Raise e, st4) =>
         loop E stream_callback (S n) st = (Raise e, st4)
         /\ history (session st4) = history (session st) ++ [model_turn]
         /\ model_calls st4 = S (model_calls st)
     end.
Proof. apply loop_tool_round_cases. Qed.

(** What any run of the loop appends, whatever the collaborators do. *)
Lemma loop_shape n : forall st,
  let '(res, st') := loop E stream_callback n st in
  exists rounds tail,
    history (session st') = history (session st) ++ concat rounds ++ tail
    /\ Forall tool_round_turns rounds
    /\ match res with
       | Value text =>
           tail = [] \/ tail = [{| turn_role := Model;
                                   parts := [Text text] |}]
       | Raise e =>
           tail = [] \/ exists t, tail = [t] /\ turn_role t = Model
                                  /\ calls_of t <> []
       end
    /\ (model_calls st <= model_calls st' <= model_calls st + n)%nat
    /\ (forall text, res = Value text -> n <> 0%nat ->
                     (model_calls st < model_calls st')%nat).
Proof.
  induction n as [|n IH]; intros st.
  - exists [], []. cbn. rewrite app_nil_r. repeat split; auto; lia.
  - pose proof (generate_frame E st) as Hf.
    destruct (_generate_with_history E st) as [[r|e] st1] eqn:Hg.
    2:{ cbn [loop]. rewrite Hg. destruct Hf as (Hg1 & _ & Hg2 & _).
        cbv beta iota. exists [], []. cbn. rewrite app_nil_r, Hg1.
        repeat split; auto; try lia. done. }
    destruct Hf as (Hg1 & _ & _ & Hg2). specialize (Hg2 r eq_refl).
    destruct (success r) eqn:Hs.
    + destruct (function_calls r) as [|fc calls] eqn:Hc.
      * cbn [loop]. rewrite Hg, Hs, Hc. cbn.
        exists [], [ {| turn_role := Model; parts := [Text (text r)] |} ].
        cbn.
        assert (session (if String.eqb (text r) "" then st1
                         else stream stream_callback (text r) st1)
                = session st
                /\ model_calls (if String.eqb (text r) "" then st1
                                else stream stream_callback (text r) st1)
                   = S (model_calls st)) as [-> ->].
        { destruct (String.eqb (text r) "");
            rewrite ?(proj1 (stream_frame _ _ _)),
                    ?(proj2 (stream_frame _ _ _)); done. }
        repeat split; auto; lia.
      * assert (function_calls r <> []) as Hne by (by rewrite Hc).
        pose proof (loop_tool_round_cases n st r st1
                      Hg Hs Hne) as [_ Hround].
        destruct (run_tools E stream_callback (function_calls r) _)
          as [[fr_parts|e] st4].
        -- cbv zeta in Hround. destruct Hround as (-> & Hh & Hm & Hfr).
           specialize (IH (on_session
                             (append_turn {| turn_role := User;
                                             parts := fr_parts |}) st4)).
           destruct (loop E stream_callback n _) as [res st'].
           destruct IH as (rounds & tail & Hhist & Hok & Htail & Hcalls & _).
           exists ([ {| turn_role := Model; parts := fc_parts r |};
                     {| turn_role := User; parts := fr_parts |} ]
                     :: rounds), tail.
           split; [rewrite Hhist, Hh; cbn; by rewrite <- !app_assoc|].
           split.
           { constructor; [|done]. eexists _, _. split; [reflexivity|].
             split; [done|]. rewrite calls_of_fc_parts. split; [done|].
             unfold answered_by. rewrite calls_of_fc_parts.
             cbn [turn_role parts]. by apply all2_responds_to. }
           split; [done|]. rewrite Hm in Hcalls. split; [lia|].
           intros _ _ _. lia.
        -- destruct Hround as (-> & Hh & Hm).
           exists [], [ {| turn_role := Model; parts := fc_parts r |} ].
           split; [by rewrite Hh|]. split; [constructor|].
           split.
           { right. eexists. split; [reflexivity|]. split; [done|].
             by rewrite calls_of_fc_parts. }
           split; [lia|]. done.
    + cbn [loop]. rewrite Hg, Hs. cbn. exists [], []. cbn.
      rewrite Hg1, Hg2, app_nil_r. repeat split; auto; lia.
Qed.

(** A model turn with calls at the end of a history leaves it
    unanswered. *)
Lemma answered_dangling t : forall h,
  turn_role t = Model -> calls_of t <> [] ->
  answered h = true -> answered (h ++ [t]) = false.
Proof.
  intros h Ht Hc Hh. rewrite answered_app by done. cbn. rewrite Ht.
  by destruct (calls_of t).
Qed.

(** X15. Whatever the backend and the tools do, [send_message] only
    appends to the history: after the call the history is the one before
    it, then the user turn, then a number of complete tool rounds (a model
    turn with calls and the user turn that answers each of them), then a
    tail.  When the call returns, the tail is nothing (it ended on an error
    or on the turn limit) or the model turn that holds the returned text,
    and a history in which every call is answered is still one afterwards.
    When the call raises, the tail is nothing (the exception came from the
    client or from the export of the tools) or one model turn whose calls
    have no response (it came from [fc['args']] or from [execute]); a
    history that was answered is then no longer so. *)
Theorem send_message_appends_whole_rounds message media_items st :
  let '(res, st') := send_message E stream_callback message media_items st in
  exists rounds tail,
    history (session st')
    = history (session st)
      ++ user_content message media_items :: concat rounds ++ tail
    /\ Forall tool_round_turns rounds
    /\ match res with
       | Value text =>
           (tail = [] \/ tail = [{| turn_role := Model;
                                    parts := [Text text] |}])
           /\ (answered (history (session st)) = true ->
               answered (history (session st')) = true)
       | Raise e =>
           (tail = []
            /\ (answered (history (session st)) = true ->
                answered (history (session st')) = true))
           \/ (exists t, tail = [t] /\ turn_role t = Model
                         /\ calls_of t <> []
                         /\ (answered (history (session st)) = true ->
                             answered (history (session st')) = false))
       end.
Proof.
  unfold send_message.
  pose proof (loop_shape max_turns
                (on_session
                   (append_turn (user_content message media_items)) st))
    as H.
  destruct (loop E stream_callback max_turns _) as [res st'].
  destruct H as (rounds & tail & Hhist & Hok & Htail & _).
  cbn in Hhist. rewrite <- app_assoc in Hhist. cbn in Hhist.
  exists rounds, tail. split; [done|]. split; [done|].
  assert (answered (history (session st)) = true ->
          answered (history (session st')) = answered tail) as Hans.
  { intros Ha. rewrite Hhist, answered_app by done. cbn.
    by rewrite answered_app by (by apply answered_rounds). }
  destruct res as [text|e].
  - split; [done|]. intros Ha. rewrite (Hans Ha).
    by destruct Htail as [->| ->].
  - destruct Htail as [->|(t & -> & Ht & Hc)].
    + left. split; [done|]. intros Ha. by rewrite (Hans Ha).
    + right. exists t. repeat split; try done.
      intros Ha. rewrite (Hans Ha). cbn. rewrite Ht.
      by destruct (calls_of t).
Qed.

(** X16. Whatever the backend and the tools do, one [send_message] calls
    [_request_generate] at most ten times; when it returns rather than
    raises, it has called it at least once. *)
Theorem send_message_calls_model_at_most_ten_times message media_items st :
  let '(res, st') := send_message E stream_callback message media_items st in
  (model_calls st <= model_calls st' <= model_calls st + 10)%nat
  /\ forall text, res = Value text ->
                  (model_calls st < model_calls st')%nat.
Proof.
  unfold send_message.
  pose proof (loop_shape max_turns
                (on_session
                   (append_turn (user_content message media_items)) st))
    as H.
  destruct (loop E stream_callback max_turns _) as [res st'].
  destruct H as (rounds & tail & _ & _ & _ & Hcalls & Hpos).
  cbn in Hcalls, Hpos. unfold max_turns in *. split; [lia|].
  intros text Hres. by apply (Hpos text).
Qed.




End WithEnv.

Lemma tool_round_is_answered_unless_a_tool_raises_witness :
  let st1 := snd (_generate_with_history Sample.insistent Sample.new_chat) in
  let model_turn :=
    {| turn_role := Model; parts := fc_parts Sample.calling |} in
  List.filter is_function_call (fc_parts Sample.calling)
  = map (fun fc => FunctionCall fc (signature_of Sample.calling))
        (function_calls Sample.calling)
  /\ match run_tools Sample.insistent None (function_calls Sample.calling)
             (called None Sample.calling st1) with
     | (Value fr_parts, st4) =>
         let user_turn := {| turn_role := User; parts := fr_parts |} in
         let st' := on_session (append_turn user_turn) st4 in
         loop Sample.insistent None 10 Sample.new_chat
         = loop Sample.insistent None 9 st'
         /\ history (session st')
            = history (session Sample.new_chat) ++ [model_turn; user_turn]
         /\ model_calls st' = S (model_calls Sample.new_chat)
         /\ Forall2 (fun fc p => exists content,
                         p = FunctionResponse (fc_name fc) content)
                    (function_calls Sample.calling) fr_parts
     | (Raise e, st4) =>
         loop Sample.insistent None 10 Sample.new_chat = (Raise e, st4)
         /\ history (session st4)
            = history (session Sample.new_chat) ++ [model_turn]
         /\ model_calls st4 = S (model_calls Sample.new_chat)
     end.
Proof.
  apply (tool_round_is_answered_unless_a_tool_raises Sample.insistent None 9
           Sample.new_chat Sample.calling).
  - reflexivity.
  - reflexivity.
  - discriminate.
Defined.


End ChatExtra.

(** ** The model backend client *)
Module ClientFacts.
Import Client.

Lemma take_part_spec p acc :
  take_part p acc
  = {| final_text := final_text acc ++ texts_of [p];
       function_calls := function_calls acc ++ calls_of [p];
       thought_signature :=
         match sp_thoughtSignature p with
         | Some s => Some s
         | None => thought_signature acc
         end |}.
Proof.
  unfold take_part, texts_of, calls_of. destruct acc as [ts cs sig]. cbn.
  destruct (sp_text p), (sp_functionCall p), (sp_thoughtSignature p); cbn;
    by rewrite ?app_nil_r.
Qed.

Lemma take_parts_spec ps : forall acc,
  take_parts ps acc
  = {| final_text := final_text acc ++ texts_of ps;
       function_calls := function_calls acc ++ calls_of ps;
       thought_signature :=
         match last_signature ps with
         | Some s => Some s
         | None => thought_signature acc
         end |}.
Proof.
  unfold take_parts.
  induction ps as [|p ps IH]; intros acc; cbn.
  - destruct acc. cbn. by rewrite !app_nil_r.
  - rewrite IH, take_part_spec. cbn. unfold texts_of, calls_of. cbn.
    rewrite !app_nil_r, <- !app_assoc. f_equal.
    unfold last_signature. cbn.
    destruct (sp_thoughtSignature p) as [s|]; cbn; [|done].
    rewrite last_cons. by destruct (last _).
Qed.

Lemma last_signature_app ps qs :
  last_signature (ps ++ qs)
  = match last_signature qs with
    | Some s => Some s
    | None => last_signature ps
    end.
Proof.
  unfold last_signature. rewrite flat_map_app, last_app.
  by destruct (last _).
Qed.

Lemma texts_of_app ps qs : texts_of (ps ++ qs) = texts_of ps ++ texts_of qs.
Proof. apply flat_map_app. Qed.

Lemma calls_of_app ps qs : calls_of (ps ++ qs) = calls_of ps ++ calls_of qs.
Proof. apply flat_map_app. Qed.

Lemma iter_lines_quiet lines : forall acc,
  existsb aborts lines = false ->
  iter_lines lines acc
  = inr {| final_text := final_text acc ++ texts_of (parts_of lines);
           function_calls := function_calls acc ++ calls_of (parts_of lines);
           thought_signature :=
             match last_signature (parts_of lines) with
             | Some s => Some s
             | None => thought_signature acc
             end |}.
Proof.
  induction lines as [|line rest IH]; intros acc Hq.
  - destruct acc. cbn. by rewrite !app_nil_r.
  - cbn [existsb] in Hq. apply orb_false_iff in Hq as [Hl Hq].
    destruct line as [| | |msg|[ps|]|e]; try done;
      try (by apply (IH acc Hq)).
    cbn [iter_lines]. rewrite (IH _ Hq), take_parts_spec.
    change (parts_of (Event (Some ps) :: rest)) with (ps ++ parts_of rest).
    cbn [final_text function_calls thought_signature].
    rewrite texts_of_app, calls_of_app, last_signature_app, <- !app_assoc.
    by destruct (last_signature (parts_of rest)).
Qed.

(** X17. A stream without an error event: the answer is built from all the
    parts of all its events, in the order received.  It is a success as
    soon as one part carries a text or a function call, with the texts
    joined in order, the calls in order, and the last thought signature
    seen; with no text and no call it is the "Empty response" failure. *)
Theorem stream_is_collected_in_order lines :
  existsb aborts lines = false ->
  read_stream lines
  = finish {| final_text := texts_of (parts_of lines);
              function_calls := calls_of (parts_of lines);
              thought_signature := last_signature (parts_of lines) |}.
Proof.
  intros Hq. unfold read_stream. rewrite (iter_lines_quiet lines nothing Hq).
  cbn. by destruct (last_signature (parts_of lines)).
Qed.

Lemma stream_is_collected_in_order_witness :
  read_stream Cases.hello
  = {| Chat.success := true; Chat.text := "Hello";
       Chat.function_calls := [Sample.ls_call];
       Chat.thought_signature := Some "s2"; Chat.error := None |}.
Proof.
  rewrite (stream_is_collected_in_order Cases.hello); reflexivity.
Defined.

Lemma iter_lines_idle lines : forall acc,
  iter_lines (List.filter (fun l => negb (idle l)) lines) acc
  = iter_lines lines acc.
Proof.
  induction lines as [|line rest IH]; intros acc; [done|].
  destruct line as [| | |msg|[ps|]|e]; cbn; try done; apply IH.
Qed.

(** X18. Empty lines, lines that are not data lines, data lines that are
    not JSON and events without candidate parts change nothing: the answer
    is the one the stream gives without them. *)
Theorem idle_lines_are_ignored lines :
  read_stream (List.filter (fun l => negb (idle l)) lines)
  = read_stream lines.
Proof. unfold read_stream. by rewrite iter_lines_idle. Qed.

Lemma iter_lines_abort pre : forall acc line post,
  existsb aborts pre = false ->
  aborts line = true ->
  iter_lines (pre ++ line :: post) acc
  = inl (failure match line with
                 | ErrorEvent message => message
                 | Fault e => Some e
                 | _ => None
                 end).
Proof.
  induction pre as [|l pre IH]; intros acc line post Hq Ha; cbn.
  - destruct line; done.
  - cbn in Hq. apply orb_false_iff in Hq as [Hl Hq].
    destruct l as [| | |msg|[ps|]|e]; try done; by apply IH.
Qed.

(** X19. An error event ends the call at once: whatever text and calls
    were received before it, and whatever follows it, the answer is the
    failure that carries its message ([None] when the event holds a null
    there). *)
Theorem error_event_discards_the_stream pre message post :
  existsb aborts pre = false ->
  read_stream (pre ++ ErrorEvent message :: post) = failure message.
Proof.
  intros Hq. unfold read_stream.
  by rewrite (iter_lines_abort pre nothing (ErrorEvent message) post Hq).
Qed.

Lemma error_event_discards_the_stream_witness :
  read_stream (Cases.hello ++ ErrorEvent (Some "quota") :: Cases.hello)
  = failure (Some "quota").
Proof.
  apply (error_event_discards_the_stream Cases.hello (Some "quota")
           Cases.hello).
  reflexivity.
Defined.

Lemma read_stream_answer lines :
  (Chat.success (read_stream lines) = true
   /\ Chat.error (read_stream lines) = None)
  \/ exists msg, read_stream lines = failure msg.
Proof.
  unfold read_stream. destruct (iter_lines lines nothing) as [r|acc] eqn:Hi.
  - right. revert Hi. generalize nothing.
    induction lines as [|line rest IH]; intros acc0; cbn; [done|].
    destruct line as [| | |msg|[ps|]|e]; try apply IH;
      intros [= <-]; eauto.
  - unfold finish. destruct (final_text acc), (function_calls acc); eauto.
Qed.

Lemma handle_answer h :
  (Chat.success (handle h) = true /\ Chat.error (handle h) = None)
  \/ exists msg, handle h = failure msg.
Proof.
  destruct h as [e|code [|message txt]|lines]; cbn; eauto.
  - destruct (code =? 429); eauto.
  - apply read_stream_answer.
Qed.

(** X20. [_request_generate] raises only from [_get_headers], which it
    calls outside its [try]: it raises [AttributeError] exactly when the
    mode is not apikey, the client holds no credentials and, in the vertex
    mode, the project id is set.  In every other case it returns a dict,
    which is either a success without an error field or a failure with no
    text and no function call. *)
Theorem request_generate_needs_credentials self model post :
  match _request_generate self model post with
  | Raise e =>
      e = AttributeError
      /\ String.eqb (auth_mode self) "apikey" = false
      /\ creds self = None
      /\ (String.eqb (auth_mode self) "vertex" = true ->
          missing (vertex_project self) = false)
  | Value r =>
      (String.eqb (auth_mode self) "apikey" = true
       \/ creds self <> None
       \/ (String.eqb (auth_mode self) "vertex" = true
           /\ missing (vertex_project self) = true))
      /\ ((Chat.success r = true /\ Chat.error r = None)
          \/ exists msg, r = failure msg)
  end.
Proof.
  unfold _request_generate, post_with_headers, _get_headers.
  destruct (String.eqb (auth_mode self) "apikey") eqn:Hk.
  { destruct (missing (api_key self)); (split; [by left|]); [eauto|].
    apply handle_answer. }
  destruct (String.eqb (auth_mode self) "vertex") eqn:Hv.
  { destruct (missing (vertex_project self)) eqn:Hm.
    - split; [right; right; done|]. eauto.
    - destruct (creds self) as [token|] eqn:Hc; [|done].
      split; [right; left; done|]. apply handle_answer. }
  destruct (creds self) as [token|] eqn:Hc; [|done].
  split; [right; left; done|]. apply handle_answer.
Qed.

End ClientFacts.

(** ** The terminal *)
Module TerminalFacts.
Import Terminal.

Example replace_examples :
  replace "**" "" "a**b****c" = "abc" /\ replace "**" "" "***" = "*"
  /\ strip_char "]" (replace "[Running tool:" "" "[Running tool: ls({})]")
     = " ls({})".
Proof. vm_compute. done. Qed.

(** X21. The notice [send_message] streams when a tool starts begins with
    a line break, so [on_stream] does not take it for a tool notice: it is
    printed as model text, after the "Gemini >" prompt if nothing was printed
    yet, the spinner is stopped and not started again, and its message is
    not changed.  The result notice is taken for one: the spinner runs again
    with the "Analyzing result..." message and the prompt flag is as it
    was. *)
Theorem tool_start_notice_is_printed_as_text {W : Type} (E : Chat.env W)
    tool_name args tool_result c :
  (first_token_received
     (on_stream (Chat.running_message E tool_name args) c) = true
   /\ spinning (spinner (on_stream (Chat.running_message E tool_name args) c))
      = false
   /\ message (spinner (on_stream (Chat.running_message E tool_name args) c))
      = message (spinner c))
  /\ (first_token_received (on_stream (Chat.result_message tool_result) c)
      = first_token_received c
      /\ spinning (spinner (on_stream (Chat.result_message tool_result) c))
         = true
      /\ message (spinner (on_stream (Chat.result_message tool_result) c))
         = CYAN +:+ "Analyzing result..." +:+ ENDC).
Proof.
  split.
  - unfold on_stream, Chat.running_message, Chat.newline.
    cbn [String.append String.prefix].
    destruct c as [[m sp] first out]. cbn.
    destruct sp, first; done.
  - unfold on_stream, Chat.result_message.
    change (String.prefix "[Running tool:"
              ("[Result: " +:+ Chat.preview tool_result +:+ "]"
                 +:+ Chat.newline)) with false.
    change (String.prefix "[Result:"
              ("[Result: " +:+ Chat.preview tool_result +:+ "]"
                 +:+ Chat.newline)) with true.
    destruct c as [[m sp] first out]. cbn. destruct sp; done.
Qed.

Lemma digit_of_range n key k :
  digit_of n key = Some k -> 1 <= k <= n.
Proof.
  unfold digit_of.
  destruct ((1 <=? Z.of_nat (nat_of_ascii key) - 48)
            && (Z.of_nat (nat_of_ascii key) - 48 <=? 9)
            && (Z.of_nat (nat_of_ascii key) - 48 <=? n)) eqn:H; [|done].
  intros [= <-]. apply andb_true_iff in H as [H H3].
  apply andb_true_iff in H as [H1 H2]. lia.
Qed.

Lemma menu_loop_range n : 0 < n ->
  forall keys idx i,
    0 <= idx < n -> index_of (menu_loop n keys idx) = Some i -> 0 <= i < n.
Proof.
  intros Hn keys. induction keys as [keys IH] using (induction_ltof1 _ length).
  unfold ltof in IH. intros idx i Hidx.
  destruct keys as [|key rest]; cbn [menu_loop].
  { cbn. intros [= <-]. done. }
  destruct (Ascii.eqb key (ascii_of_nat 224)).
  { destruct rest as [|key2 rest']; [cbn; by intros [= <-]|].
    assert ((n =? 0) = false) as -> by lia.
    destruct (Ascii.eqb key2 "H").
    { apply IH; [cbn; lia|]. by apply Z.mod_pos_bound. }
    destruct (Ascii.eqb key2 "P").
    { apply IH; [cbn; lia|]. by apply Z.mod_pos_bound. }
    apply IH; [cbn; lia|done]. }
  destruct (Ascii.eqb key (ascii_of_nat 13)); [cbn; by intros [= <-]|].
  destruct (Ascii.eqb key (ascii_of_nat 3)); [done|].
  destruct (digit_of n key) as [k|] eqn:Hk.
  - apply IH; [cbn; lia|]. apply digit_of_range in Hk. lia.
  - apply IH; [cbn; lia|done].
Qed.

(** X22. Whatever keys are pressed, the index [show_boxed_menu] returns,
    and the one it shows while it waits, is the index of one of the
    options, when there is at least one option. *)
Theorem menu_index_is_an_option options keys i :
  options <> [] ->
  index_of (show_boxed_menu options keys) = Some i ->
  0 <= i < Z.of_nat (length options).
Proof.
  intros Ho. unfold show_boxed_menu.
  assert (0 < Z.of_nat (length options)) by (destruct options; [done|cbn; lia]).
  apply menu_loop_range; [done|lia].
Qed.

Lemma menu_index_is_an_option_witness :
  index_of (show_boxed_menu
              ["1. Login with Google"; "2. Use Gemini API Key";
               "3. Vertex AI"]
              [ascii_of_nat 224; "H"%char; "9"%char; ascii_of_nat 13])
  = Some 2
  /\ 0 <= 2 < Z.of_nat (length ["1. Login with Google";
                                  "2. Use Gemini API Key"; "3. Vertex AI"]).
Proof.
  split; [reflexivity|].
  apply (menu_index_is_an_option
           ["1. Login with Google"; "2. Use Gemini API Key"; "3. Vertex AI"]
           [ascii_of_nat 224; "H"%char; "9"%char; ascii_of_nat 13] 2).
  - discriminate.
  - reflexivity.
Defined.

Lemma menu_loop_downs n keys : 0 < n ->
  forall times idx,
    0 <= idx < n ->
    menu_loop n (downs times ++ keys) idx
    = menu_loop n keys ((idx + Z.of_nat times) mod n).
Proof.
  intros Hn times. induction times as [|k IH]; intros idx Hidx.
  - cbn. rewrite Z.add_0_r. by rewrite Z.mod_small.
  - cbn [downs app menu_loop].
    change (Ascii.eqb (ascii_of_nat 224) (ascii_of_nat 224)) with true.
    change (Ascii.eqb "P" "H") with false.
    change (Ascii.eqb "P" "P") with true.
    cbn iota. assert ((n =? 0) = false) as -> by lia.
    rewrite IH by (by apply Z.mod_pos_bound).
    rewrite Zplus_mod_idemp_l. f_equal. f_equal. lia.
Qed.

(** X23. The Down arrow goes round: from the index of any option, as many
    presses as there are options bring the menu back to that option; in
    particular one press on the last option goes to the first. *)
Theorem down_arrow_goes_round (options : list string) keys idx :
  0 <= idx < Z.of_nat (length options) ->
  menu_loop (Z.of_nat (length options))
    (downs (length options) ++ keys) idx
  = menu_loop (Z.of_nat (length options)) keys idx.
Proof.
  intros Hidx.
  rewrite menu_loop_downs by lia. f_equal.
  rewrite <- (Z.mul_1_l (Z.of_nat (length options))) at 1.
  rewrite Z_mod_plus_full. by apply Z.mod_small.
Qed.

Lemma down_arrow_goes_round_witness :
  menu_loop (Z.of_nat (length ["a"; "b"; "c"]))
    (downs (length ["a"; "b"; "c"]) ++ [ascii_of_nat 13]) 1
  = menu_loop (Z.of_nat (length ["a"; "b"; "c"])) [ascii_of_nat 13] 1.
Proof.
  apply (down_arrow_goes_round ["a"; "b"; "c"] [ascii_of_nat 13] 1).
  cbn. lia.
Defined.

End TerminalFacts.

(** ** Onboarding *)
Module OnboardingFacts.
Import Onboarding.

Lemma poll_bound srv polls_left : forall poll_count lro,
  match poll srv polls_left poll_count lro with
  | Polled _ n | PollRaised n =>
      (poll_count <= n <= poll_count + polls_left)%nat
  end.
Proof.
  induction polls_left as [|less IH]; intros poll_count lro; cbn.
  - destruct (done lro); lia.
  - destruct (done lro); [lia|].
    destruct (onboard srv (S poll_count)) as [res|]; [|lia].
    destruct (ok res); [|lia].
    destruct (json res) as [lro'|]; [|lia].
    specialize (IH (S poll_count) lro').
    destruct (poll srv less (S poll_count) lro'); lia.
Qed.

Lemma setup_user_frame self env_project srv :
  let e := setup_user self env_project srv in
  (requests e <= 12)%nat
  /\ (raised e = None -> session_setup (client e) = true)
  /\ (raised e <> None -> client e = self).
Proof.
  cbn. unfold setup_user.
  destruct (session_setup self) eqn:Hs; [cbn; repeat split; auto; lia|].
  destruct (negb (String.eqb (auth_mode self) "oauth"));
    [cbn; repeat split; auto; try lia; done|].
  destruct (load srv) as [res|]; [|cbn; repeat split; auto; try lia; done].
  destruct (negb (ok res) || negb (status_code res =? 200));
    [cbn; repeat split; auto; try lia; done|].
  destruct (json res) as [data|]; [|cbn; repeat split; auto; try lia; done].
  destruct (currentTier data);
    [cbn; repeat split; auto; try lia; done|].
  destruct (onboard srv 0%nat) as [lro_res|];
    [|cbn; repeat split; auto; try lia; done].
  destruct (negb (ok lro_res)); [cbn; repeat split; auto; try lia; done|].
  destruct (json lro_res) as [lro0|];
    [|cbn; repeat split; auto; try lia; done].
  pose proof (poll_bound srv max_polls 0 lro0) as Hb.
  destruct (poll srv max_polls 0 lro0) as [lro n|n]; unfold max_polls in Hb.
  - destruct (done lro); cbn; repeat split; auto; try lia; done.
  - cbn; repeat split; auto; try lia; done.
Qed.

(** X24. Whatever the server answers, [setup_user] makes at most twelve
    requests (one [loadCodeAssist], one [onboardUser] and ten polls).  When
    it returns, the session is marked as set up; when it raises, the client
    is exactly as it was, so the session is not marked and the next call
    starts over. *)
Theorem setup_user_is_bounded self env_project srv :
  let e := setup_user self env_project srv in
  (requests e <= 12)%nat
  /\ (raised e = None -> session_setup (client e) = true)
  /\ (raised e <> None -> client e = self).
Proof. apply setup_user_frame. Qed.

(** X25. Once [setup_user] has returned, calling it again makes no request
    and changes nothing, whatever the environment and the server are by
    then. *)
Theorem setup_user_runs_once self env_project srv env_project' srv' :
  raised (setup_user self env_project srv) = None ->
  setup_user (client (setup_user self env_project srv)) env_project' srv'
  = {| raised := None; client := client (setup_user self env_project srv);
       requests := 0; sent_project := None |}.
Proof.
  intros Hr.
  destruct (setup_user_frame self env_project srv) as (_ & Hs & _).
  cbn in Hs. specialize (Hs Hr).
  unfold setup_user at 1. by rewrite Hs.
Qed.

Lemma setup_user_runs_once_witness :
  raised (setup_user Cases.new_user None Cases.slow_server) = None
  /\ setup_user (client (setup_user Cases.new_user None Cases.slow_server))
       (Some "other") Cases.slow_server
     = {| raised := None;
          client := client (setup_user Cases.new_user None Cases.slow_server);
          requests := 0; sent_project := None |}.
Proof.
  split; [reflexivity|].
  apply (setup_user_runs_once Cases.new_user None Cases.slow_server
           (Some "other") Cases.slow_server).
  reflexivity.
Defined.

Lemma poll_until srv (lros : nat -> lro_data) polls_left :
  (forall j, onboard srv j = went_through (lros j)) ->
  forall poll_count k,
    (poll_count <= k <= poll_count + polls_left)%nat ->
    (forall j, (poll_count <= j < k)%nat -> done (lros j) = false) ->
    done (lros k) = true \/ k = (poll_count + polls_left)%nat ->
    poll srv polls_left poll_count (lros poll_count) = Polled (lros k) k.
Proof.
  intros Hsrv. induction polls_left as [|less IH];
    intros poll_count k Hk Hnot Hlast; cbn.
  - assert (k = poll_count) as -> by lia. by destruct (done (lros poll_count)).
  - destruct (decide (k = poll_count)) as [->|Hne].
    + destruct Hlast as [->|?]; [done|lia].
    + rewrite (Hnot poll_count) by lia.
      rewrite Hsrv. cbn. apply IH; [lia| |].
      * intros j Hj. apply Hnot. lia.
      * destruct Hlast; [by left|right; lia].
Qed.

Lemma setup_user_onboarding self env_project srv data lros k :
  onboarding self srv data lros ->
  (k <= 10)%nat ->
  (forall j, (j < k)%nat -> done (lros j) = false) ->
  done (lros k) = true \/ k = 10%nat ->
  setup_user self env_project srv
  = let tier_id := default_tier (allowedTiers data) in
    let project :=
      if String.eqb tier_id "FREE" then None else env_project in
    if done (lros k) then
      {| raised := None;
         client := {| auth_mode := auth_mode self;
                      project_id := match response_project (lros k) with
                                    | Some id => Some id
                                    | None => env_project
                                    end;
                      user_tier := Some tier_id; session_setup := true |};
         requests := (2 + k)%nat; sent_project := Some project |}
    else
      {| raised := Some (Exception "Onboarding timeout"); client := self;
         requests := (2 + k)%nat; sent_project := Some project |}.
Proof.
  intros (Hs & Hm & Hl & Ht & Hsrv) Hk Hnot Hlast.
  unfold setup_user. rewrite Hs, Hm, Hl.
  cbn -[poll max_polls default_tier]. rewrite Ht, Hsrv.
  cbn -[poll max_polls default_tier].
  rewrite (poll_until srv lros max_polls Hsrv 0 k); unfold max_polls.
  - done.
  - lia.
  - intros j Hj. apply Hnot. lia.
  - destruct Hlast; [by left|right; lia].
Qed.

(** X26. Onboarding a new user ends at the first answer that says done:
    when that is the answer to the first [onboardUser] request or to one of
    the ten polls (poll number [k]), [setup_user] returns after [2 + k]
    requests with the session set up, the tier being the first default tier
    offered (FREE for want of one) and the project the one the answer
    names, or the environment's for want of one.  For the FREE tier no
    project was sent, for another tier the environment's. *)
Theorem onboarding_ends_at_first_done self env_project srv data lros k :
  onboarding self srv data lros ->
  (k <= 10)%nat ->
  (forall j, (j < k)%nat -> done (lros j) = false) ->
  done (lros k) = true ->
  let e := setup_user self env_project srv in
  raised e = None /\ requests e = (2 + k)%nat
  /\ session_setup (client e) = true
  /\ user_tier (client e) = Some (default_tier (allowedTiers data))
  /\ project_id (client e) = match response_project (lros k) with
                             | Some id => Some id
                             | None => env_project
                             end
  /\ sent_project e
     = Some (if String.eqb (default_tier (allowedTiers data)) "FREE"
             then None else env_project).
Proof.
  intros Ho Hk Hnot Hdone. cbn.
  rewrite (setup_user_onboarding self env_project srv data lros k Ho Hk Hnot)
    by (by left).
  cbn. by rewrite Hdone.
Qed.

(** X27. When neither the first [onboardUser] answer nor any of the ten
    polls says done, [setup_user] raises "Onboarding timeout" after exactly
    twelve requests and leaves the client as it was. *)
Theorem onboarding_times_out_after_ten_polls self env_project srv data lros :
  onboarding self srv data lros ->
  (forall j, (j <= 10)%nat -> done (lros j) = false) ->
  let e := setup_user self env_project srv in
  raised e = Some (Exception "Onboarding timeout")
  /\ requests e = 12%nat /\ client e = self.
Proof.
  intros Ho Hnot. cbn.
  rewrite (setup_user_onboarding self env_project srv data lros 10 Ho)
    by (auto; intros j Hj; apply Hnot; lia).
  cbn. by rewrite (Hnot 10%nat) by lia.
Qed.

Lemma onboarding_ends_at_first_done_witness :
  let e := setup_user Cases.new_user (Some "env-project") Cases.slow_server in
  raised e = None /\ requests e = (2 + 3)%nat
  /\ session_setup (client e) = true
  /\ user_tier (client e)
     = Some (default_tier (allowedTiers Cases.slow_data))
  /\ project_id (client e)
     = match response_project (Cases.slow_answers 3) with
       | Some id => Some id
       | None => Some "env-project"
       end
  /\ sent_project e
     = Some (if String.eqb (default_tier (allowedTiers Cases.slow_data))
                           "FREE"
             then None else Some "env-project").
Proof.
  apply (onboarding_ends_at_first_done Cases.new_user (Some "env-project")
           Cases.slow_server Cases.slow_data Cases.slow_answers 3).
  - repeat split.
  - lia.
  - intros [|[|[|j]]] Hj; try reflexivity. lia.
  - reflexivity.
Defined.

Lemma onboarding_times_out_after_ten_polls_witness :
  let e := setup_user Cases.new_user None Cases.stuck_server in
  raised e = Some (Exception "Onboarding timeout")
  /\ requests e = 12%nat /\ client e = Cases.new_user.
Proof.
  apply (onboarding_times_out_after_ten_polls Cases.new_user None
           Cases.stuck_server Cases.slow_data Cases.stuck_answers).
  - repeat split.
  - intros j Hj. reflexivity.
Defined.

End OnboardingFacts.
